(** * Booking service: model of the Go code and proofs about it

    The development follows the layout of the repository:

    - [model]      internal/model/booking.go
    - [mongo]      the part of the MongoDB driver the repository calls
    - [repository] the BookingRepository interface and its MongoDB
                   implementation (MongoBookingRepository)
    - [service]    internal/service/booking_service.go
    - [grpc]       internal/grpc/booking_server.go

    Conventions.  A Go [time.Time] is an instant in nanoseconds since
    the Unix epoch together with the offset of its location (locations
    are fixed-offset zones; [time.UTC], which is what the handlers parse
    dates into, has offset 0).  Instants are unbounded integers, and the
    instants handed to the database are taken to be whole milliseconds,
    the resolution of a BSON datetime, so that storing a time and reading
    it back does not change it.

    A Go function returning [(T, error)] is a computation in the monad
    [M], which threads the state behind the repository and yields [Ok v]
    or [Err e].  For the MongoDB repository that state is a [Database]:
    the documents of the collection, the clock, the supply of object
    identifiers, a script telling which of the coming driver calls fail,
    and the record of the driver calls made so far.  A failed driver call
    leaves the documents as they are. *)

From Equations Require Import Equations.
From stdpp Require Import gmap strings list.
From Stdlib Require Import ZArith Lia.

Set Warnings "-register-all".

Local Open Scope Z_scope.

(* ===================================================================== *)
(** * Package time *)
(* ===================================================================== *)

Record Time := mkTime {
  unixNano : Z;   (* the instant *)
  zone : Z        (* offset of the location, seconds east of UTC *)
}.

Definition Duration := Z.

Definition Nanosecond : Duration := 1.
Definition Second : Duration := 1000000000 * Nanosecond.
Definition Minute : Duration := 60 * Second.
Definition Hour : Duration := 60 * Minute.

(* t.Before(u), t.After(u), t.Equal(u) compare instants only. *)
Definition Before (t u : Time) : bool := unixNano t <? unixNano u.
Definition After (t u : Time) : bool := unixNano u <? unixNano t.
Definition Equal (t u : Time) : bool := unixNano t =? unixNano u.

(* t.Add(d) keeps the location. *)
Definition Add (t : Time) (d : Duration) : Time :=
  mkTime (unixNano t + d) (zone t).

(* time.Date(t.Year(), t.Month(), t.Day(), hour, 0, 0, 0, t.Location()):
   the instant at which the wall clock of t's location shows hour:00:00
   on the calendar day that contains t.  In a fixed-offset location the
   calendar day of t is the 24-hour period containing the local time
   unixNano t + zone t * Second. *)
Definition DateOfDay (t : Time) (hour : Z) : Time :=
  let local := unixNano t + zone t * Second in
  let midnight := local / (24 * Hour) * (24 * Hour) in
  mkTime (midnight + hour * Hour - zone t * Second) (zone t).

(* ===================================================================== *)
(** * internal/model/booking.go *)
(* ===================================================================== *)

(* primitive.ObjectID is a 12-byte value; it is kept as the number that
   the bytes spell in big-endian order. *)
Definition ObjectID := N.

Definition ServiceType := Z.
Definition BookingStatus := Z.

Definition ServiceTypeHaircut : ServiceType := 0.
Definition ServiceTypeBeardTrim : ServiceType := 1.
Definition ServiceTypeHairWash : ServiceType := 2.
Definition ServiceTypeFullService : ServiceType := 3.

Definition BookingStatusPending : BookingStatus := 0.
Definition BookingStatusConfirmed : BookingStatus := 1.
Definition BookingStatusCancelled : BookingStatus := 2.
Definition BookingStatusCompleted : BookingStatus := 3.

Record Booking := mkBooking {
  ID : ObjectID;
  UserID : string;
  BarberID : string;
  StartTime : Time;
  EndTime : Time;
  ServiceTypeOf : ServiceType;
  Status : BookingStatus;
  Notes : string;
  CreatedAt : Time;
  UpdatedAt : Time
}.

Record TimeSlot := mkTimeSlot {
  SlotStartTime : Time;
  SlotEndTime : Time
}.

(* func (s ServiceType) GetDuration() int *)
Definition GetDuration (s : ServiceType) : Z :=
  if s =? ServiceTypeHaircut then 30
  else if s =? ServiceTypeBeardTrim then 15
  else if s =? ServiceTypeHairWash then 20
  else if s =? ServiceTypeFullService then 60
  else 30.

(* func CalculateEndTime(startTime time.Time, serviceType ServiceType) time.Time *)
Definition CalculateEndTime (startTime : Time) (serviceType : ServiceType) : Time :=
  let duration := GetDuration serviceType in
  Add startTime (Minute * duration).

(* ===================================================================== *)
(** * Errors and the monad of fallible, stateful calls *)
(* ===================================================================== *)

Inductive error :=
| ErrDriver                                (* a failure reported by the MongoDB driver *)
| ErrDuplicateKey                          (* insertion of an _id that is already stored *)
| ErrNoDocuments                           (* mongo.ErrNoDocuments *)
| ErrInvalidHex                            (* primitive.ErrInvalidHex *)
| errors_New (msg : string)                (* errors.New(msg) *)
| errors_Wrap (cause : error) (msg : string). (* errors.Wrap(cause, msg) *)

Inductive result (A : Type) :=
| Ok (a : A)
| Err (e : error).
Arguments Ok {A} a.
Arguments Err {A} e.

Definition M (W A : Type) : Type := W -> result A * W.

Definition ret {W A} (a : A) : M W A := fun w => (Ok a, w).

Definition fail {W A} (e : error) : M W A := fun w => (Err e, w).

Definition bind {W A B} (c : M W A) (k : A -> M W B) : M W B :=
  fun w =>
    match c w with
    | (Ok a, w') => k a w'
    | (Err e, w') => (Err e, w')
    end.

(* Runs [c] and hands its outcome, error included, to the caller: the
   Go idiom  v, err := c(); if err != nil { ... }. *)
Definition try {W A} (c : M W A) : M W (result A) :=
  fun w => let (r, w') := c w in (Ok r, w').

Notation "'let*' x ':=' c 'in' k" := (bind c (fun x => k))
  (at level 10, x name, c at level 100, k at level 200).

(* v, err := c(); if err != nil { return nil, errors.Wrap(err, msg) } *)
Definition wrapping {W A} (msg : string) (c : M W A) : M W A :=
  fun w =>
    match c w with
    | (Ok a, w') => (Ok a, w')
    | (Err e, w') => (Err (errors_Wrap e msg), w')
    end.

Definition isOk {A} (r : result A) : bool :=
  match r with Ok _ => true | Err _ => false end.

(* ===================================================================== *)
(** * BSON values, filters and updates *)
(* ===================================================================== *)

(* The values this code base puts into filter and update documents. *)
Inductive Value :=
| VTime (t : Time)
| VInt (n : Z)
| VString (s : string)
| VObjectID (o : ObjectID).

Inductive Op := op_ne | op_gt | op_gte | op_lt | op_lte.

(* One entry of a filter document; a filter document (bson.M) is the
   conjunction of its entries. *)
Inductive Filter :=
| FieldIs (field : string) (v : Value)                 (* "field": v *)
| FieldOps (field : string) (ops : list (Op * Value))  (* "field": bson.M{"$op": v, ...} *)
| FilterOr (alternatives : list (list Filter)).        (* "$or": []bson.M{...} *)

(* The bson tags of model.Booking. *)
Definition fieldOf (name : string) (b : Booking) : option Value :=
  if String.eqb name "_id" then Some (VObjectID (ID b))
  else if String.eqb name "userId" then Some (VString (UserID b))
  else if String.eqb name "barberId" then Some (VString (BarberID b))
  else if String.eqb name "startTime" then Some (VTime (StartTime b))
  else if String.eqb name "endTime" then Some (VTime (EndTime b))
  else if String.eqb name "serviceType" then Some (VInt (ServiceTypeOf b))
  else if String.eqb name "status" then Some (VInt (Status b))
  else if String.eqb name "notes" then Some (VString (Notes b))
  else if String.eqb name "createdAt" then Some (VTime (CreatedAt b))
  else if String.eqb name "updatedAt" then Some (VTime (UpdatedAt b))
  else None.

(* BSON comparison; values of different types are not comparable. *)
Definition compareValue (a b : Value) : option comparison :=
  match a, b with
  | VTime t, VTime u => Some (unixNano t ?= unixNano u)
  | VInt m, VInt n => Some (m ?= n)
  | VString s, VString t => Some (String.compare s t)
  | VObjectID o, VObjectID p => Some (o ?= p)%N
  | _, _ => None
  end.

Definition valueEq (a : option Value) (v : Value) : bool :=
  match a with
  | Some x => match compareValue x v with Some Eq => true | _ => false end
  | None => false
  end.

Definition evalOp (op : Op) (a : option Value) (v : Value) : bool :=
  match op with
  | op_ne => negb (valueEq a v)
  | _ =>
    match a with
    | Some x =>
      match op, compareValue x v with
      | op_gt, Some Gt => true
      | op_gte, Some Gt | op_gte, Some Eq => true
      | op_lt, Some Lt => true
      | op_lte, Some Lt | op_lte, Some Eq => true
      | _, _ => false
      end
    | None => false
    end
  end.

Fixpoint matches (q : Filter) (b : Booking) : bool :=
  match q with
  | FieldIs f v => valueEq (fieldOf f b) v
  | FieldOps f ops =>
      forallb (fun ov => evalOp (fst ov) (fieldOf f b) (snd ov)) ops
  | FilterOr alternatives =>
      existsb (fun doc => forallb (fun q' => matches q' b) doc) alternatives
  end.

Definition matchesAll (doc : list Filter) (b : Booking) : bool :=
  forallb (fun q => matches q b) doc.

(* bson.M{"$set": updates} applied to a stored booking.  Keys that are
   not fields of model.Booking are dropped when the document is decoded;
   values of the wrong type never occur in this code base and leave the
   field as it is.  A time is set as it is given: the collection of this
   model keeps the nanoseconds and the location of a time.Time, where the
   driver keeps a BSON datetime, whole milliseconds read back in UTC
   (asStoredTime below). *)
Definition applySet (updates : gmap string Value) (b : Booking) : Booking :=
  {| ID := ID b;
     UserID := match updates !! "userId" with Some (VString s) => s | _ => UserID b end;
     BarberID := match updates !! "barberId" with Some (VString s) => s | _ => BarberID b end;
     StartTime := match updates !! "startTime" with Some (VTime t) => t | _ => StartTime b end;
     EndTime := match updates !! "endTime" with Some (VTime t) => t | _ => EndTime b end;
     ServiceTypeOf := match updates !! "serviceType" with Some (VInt n) => n | _ => ServiceTypeOf b end;
     Status := match updates !! "status" with Some (VInt n) => n | _ => Status b end;
     Notes := match updates !! "notes" with Some (VString s) => s | _ => Notes b end;
     CreatedAt := match updates !! "createdAt" with Some (VTime t) => t | _ => CreatedAt b end;
     UpdatedAt := match updates !! "updatedAt" with Some (VTime t) => t | _ => UpdatedAt b end |}.

(* Whether two bookings are the same stored document. *)
Definition sameDocument (a b : Booking) : bool :=
  (ID a =? ID b)%N && String.eqb (UserID a) (UserID b)
  && String.eqb (BarberID a) (BarberID b)
  && Equal (StartTime a) (StartTime b) && Equal (EndTime a) (EndTime b)
  && (ServiceTypeOf a =? ServiceTypeOf b) && (Status a =? Status b)
  && String.eqb (Notes a) (Notes b)
  && Equal (CreatedAt a) (CreatedAt b) && Equal (UpdatedAt a) (UpdatedAt b).

(* ===================================================================== *)
(** * The MongoDB collection and the driver calls made on it *)
(* ===================================================================== *)

Record UpdateResult := mkUpdateResult {
  MatchedCount : Z;
  ModifiedCount : Z
}.

(* The driver calls of the repository, with their arguments. *)
Inductive Call :=
| CallInsertOne (doc : Booking)
| CallFindOne (filter : list Filter)
| CallFindOneAndUpdate (filter : list Filter) (set : gmap string Value)
| CallUpdateOne (filter : list Filter) (set : gmap string Value)
| CallFind (filter : list Filter)
| CallCursorAll.

(* What the repository code runs against. *)
Record Database := mkDatabase {
  bookings : list Booking;   (* collection "bookings", in insertion order *)
  clock : Time;              (* what time.Now() returns *)
  nextObjectID : ObjectID;   (* what primitive.NewObjectID() returns next *)
  faults : list bool;        (* whether each coming driver call fails *)
  calls : list Call          (* the driver calls made so far, oldest first *)
}.

Definition withBookings (l : list Booking) (db : Database) : Database :=
  mkDatabase l (clock db) (nextObjectID db) (faults db) (calls db).

(* time.Now() *)
Definition Now : M Database Time := fun db => (Ok (clock db), db).

(* primitive.NewObjectID() *)
Definition NewObjectID : M Database ObjectID := fun db =>
  (Ok (nextObjectID db),
   mkDatabase (bookings db) (clock db) (N.succ (nextObjectID db))
              (faults db) (calls db)).

(* Whether the coming driver call fails. *)
Definition nextFails (db : Database) : bool :=
  match faults db with
  | true :: _ => true
  | _ => false
  end.

(* The database once a driver call has been made. *)
Definition recorded (c : Call) (db : Database) : Database :=
  mkDatabase (bookings db) (clock db) (nextObjectID db)
             (tail (faults db)) (calls db ++ [c]).

(* Every driver call is recorded and may fail; a failed call leaves the
   collection as it is. *)
Definition driver (c : Call) : M Database unit := fun db =>
  if nextFails db then (Err ErrDriver, recorded c db)
  else (Ok tt, recorded c db).

Fixpoint updateFirst (p : Booking -> bool) (f : Booking -> Booking)
    (l : list Booking) : list Booking :=
  match l with
  | [] => []
  | b :: l' => if p b then f b :: l' else b :: updateFirst p f l'
  end.

(* collection.InsertOne(ctx, doc); _id carries a unique index.  The
   document is kept as it is given, its times with their nanoseconds and
   location; the driver keeps each of them as a BSON datetime (asStoredTime
   below), so that of a booking read back only asStored of it is what the
   driver returns. *)
Definition InsertOne (doc : Booking) : M Database unit :=
  let* _ := driver (CallInsertOne doc) in
  fun db =>
    if existsb (fun b => (ID b =? ID doc)%N) (bookings db)
    then (Err ErrDuplicateKey, db)
    else (Ok tt, withBookings (bookings db ++ [doc]) db).

(* collection.FindOne(ctx, filter).Decode(&booking) *)
Definition FindOne (filter : list Filter) : M Database Booking :=
  let* _ := driver (CallFindOne filter) in
  fun db =>
    match List.find (matchesAll filter) (bookings db) with
    | Some b => (Ok b, db)
    | None => (Err ErrNoDocuments, db)
    end.

(* collection.FindOneAndUpdate(ctx, filter, bson.M{"$set": set},
     options.FindOneAndUpdate().SetReturnDocument(options.After)).Decode(&booking) *)
Definition FindOneAndUpdate (filter : list Filter) (set : gmap string Value)
    : M Database Booking :=
  let* _ := driver (CallFindOneAndUpdate filter set) in
  fun db =>
    match List.find (matchesAll filter) (bookings db) with
    | Some b =>
        (Ok (applySet set b),
         withBookings (updateFirst (matchesAll filter) (applySet set) (bookings db)) db)
    | None => (Err ErrNoDocuments, db)
    end.

(* collection.UpdateOne(ctx, filter, bson.M{"$set": set}).  ModifiedCount
   counts the documents that the update actually changed. *)
Definition UpdateOne (filter : list Filter) (set : gmap string Value)
    : M Database UpdateResult :=
  let* _ := driver (CallUpdateOne filter set) in
  fun db =>
    match List.find (matchesAll filter) (bookings db) with
    | Some b =>
        (Ok (mkUpdateResult 1 (if sameDocument b (applySet set b) then 0 else 1)),
         withBookings (updateFirst (matchesAll filter) (applySet set) (bookings db)) db)
    | None => (Ok (mkUpdateResult 0 0), db)
    end.

(* collection.Find(ctx, filter): the cursor over the matching documents. *)
Definition Find (filter : list Filter) : M Database (list Booking) :=
  let* _ := driver (CallFind filter) in
  fun db => (Ok (List.filter (matchesAll filter) (bookings db)), db).

(* cursor.All(ctx, &bookings) *)
Definition CursorAll (cursor : list Booking) : M Database (list Booking) :=
  let* _ := driver CallCursorAll in
  ret cursor.

(* primitive.ObjectIDFromHex: 24 hexadecimal digits. *)
Definition hexDigit (c : Ascii.ascii) : option N :=
  let n := Ascii.N_of_ascii c in
  if ((48 <=? n) && (n <=? 57))%N then Some (n - 48)%N
  else if ((97 <=? n) && (n <=? 102))%N then Some (n - 87)%N
  else if ((65 <=? n) && (n <=? 70))%N then Some (n - 55)%N
  else None.

Fixpoint decodeHex (s : string) (acc : N) : option N :=
  match s with
  | EmptyString => Some acc
  | String c s' =>
      match hexDigit c with
      | Some d => decodeHex s' (16 * acc + d)%N
      | None => None
      end
  end.

Definition ObjectIDFromHex (s : string) : result ObjectID :=
  if (String.length s =? 24)%nat then
    match decodeHex s 0%N with
    | Some o => Ok o
    | None => Err ErrInvalidHex
    end
  else Err ErrInvalidHex.

(* ===================================================================== *)
(** * The repository interface and its MongoDB implementation *)
(* ===================================================================== *)

Module repository.

(* type BookingRepository interface; W is the state behind it. *)
Class BookingRepository (W : Type) := {
  CreateBooking : Booking -> M W Booking;
  GetBookingByID : string -> M W (option Booking);
  UpdateBooking : string -> gmap string Value -> M W (option Booking);
  CancelBooking : string -> M W bool;
  GetUserBookings : string -> M W (list Booking);
  GetBarberBookings : string -> option Time -> M W (list Booking);
  GetBookingsInTimeRange : string -> Time -> Time -> M W (list Booking)
}.

End repository.

Module MongoBookingRepository.

(* booking.CreatedAt = now; booking.UpdatedAt = now *)
Definition stamped (now : Time) (b : Booking) : Booking :=
  mkBooking (ID b) (UserID b) (BarberID b) (StartTime b) (EndTime b)
            (ServiceTypeOf b) (Status b) (Notes b) now now.

(* booking.ID = id *)
Definition identified (id : ObjectID) (b : Booking) : Booking :=
  mkBooking id (UserID b) (BarberID b) (StartTime b) (EndTime b)
            (ServiceTypeOf b) (Status b) (Notes b) (CreatedAt b) (UpdatedAt b).

Definition CreateBooking (booking : Booking) : M Database Booking :=
  let* now := Now in
  let booking := stamped now booking in
  let* booking :=
    if (ID booking =? 0)%N
    then (let* id := NewObjectID in ret (identified id booking))
    else ret booking in
  let* _ := wrapping "failed to insert booking" (InsertOne booking) in
  ret booking.

Definition GetBookingByID (id : string) : M Database (option Booking) :=
  match ObjectIDFromHex id with
  | Err err => fail (errors_Wrap err "invalid booking ID format")
  | Ok objectID =>
      let* r := try (FindOne [FieldIs "_id" (VObjectID objectID)]) in
      match r with
      | Err ErrNoDocuments => ret None
      | Err err => fail (errors_Wrap err "failed to get booking")
      | Ok booking => ret (Some booking)
      end
  end.

Definition UpdateBooking (id : string) (updates : gmap string Value)
    : M Database (option Booking) :=
  match ObjectIDFromHex id with
  | Err err => fail (errors_Wrap err "invalid booking ID format")
  | Ok objectID =>
      let* now := Now in
      let updates := <["updatedAt" := VTime now]> updates in
      let* r := try (FindOneAndUpdate [FieldIs "_id" (VObjectID objectID)] updates) in
      match r with
      | Err ErrNoDocuments => ret None
      | Err err => fail (errors_Wrap err "failed to update booking")
      | Ok booking => ret (Some booking)
      end
  end.

Definition CancelBooking (id : string) : M Database bool :=
  match ObjectIDFromHex id with
  | Err err => fail (errors_Wrap err "invalid booking ID format")
  | Ok objectID =>
      let* now := Now in
      let update : gmap string Value :=
        <["status" := VInt BookingStatusCancelled]>
          (<["updatedAt" := VTime now]> ∅) in
      let* result := wrapping "failed to cancel booking"
                       (UpdateOne [FieldIs "_id" (VObjectID objectID)] update) in
      ret (0 <? ModifiedCount result)
  end.

Definition GetUserBookings (userID : string) : M Database (list Booking) :=
  let* cursor := wrapping "failed to get user bookings"
                   (Find [FieldIs "userId" (VString userID)]) in
  let* bookings := wrapping "failed to decode bookings" (CursorAll cursor) in
  ret bookings.

Definition GetBarberBookings (barberID : string) (date : option Time)
    : M Database (list Booking) :=
  let filter := [FieldIs "barberId" (VString barberID)] in
  let filter :=
    match date with
    | Some date =>
        let startOfDay := DateOfDay date 0 in
        let endOfDay := Add startOfDay (24 * Hour) in
        filter ++ [FieldOps "startTime"
                     [(op_gte, VTime startOfDay); (op_lt, VTime endOfDay)]]
    | None => filter
    end in
  let* cursor := wrapping "failed to get barber bookings" (Find filter) in
  let* bookings := wrapping "failed to decode bookings" (CursorAll cursor) in
  ret bookings.

Definition rangeFilter (barberID : string) (start end_ : Time) : list Filter :=
  [ FieldIs "barberId" (VString barberID);
    FieldOps "status" [(op_ne, VInt BookingStatusCancelled)];
    FilterOr
      [ [FieldOps "startTime" [(op_gte, VTime start); (op_lt, VTime end_)]];
        [FieldOps "endTime" [(op_gt, VTime start); (op_lte, VTime end_)]];
        [FieldOps "startTime" [(op_lte, VTime start)];
         FieldOps "endTime" [(op_gte, VTime end_)]] ] ].

Definition GetBookingsInTimeRange (barberID : string) (start end_ : Time)
    : M Database (list Booking) :=
  let filter := rangeFilter barberID start end_ in
  let* cursor := wrapping "failed to get bookings in time range" (Find filter) in
  let* bookings := wrapping "failed to decode bookings" (CursorAll cursor) in
  ret bookings.

#[global] Instance repo : repository.BookingRepository Database := {|
  repository.CreateBooking := CreateBooking;
  repository.GetBookingByID := GetBookingByID;
  repository.UpdateBooking := UpdateBooking;
  repository.CancelBooking := CancelBooking;
  repository.GetUserBookings := GetUserBookings;
  repository.GetBarberBookings := GetBarberBookings;
  repository.GetBookingsInTimeRange := GetBookingsInTimeRange
|}.

End MongoBookingRepository.

(* ===================================================================== *)
(** * internal/service/booking_service.go *)
(* ===================================================================== *)

(* The zero time.Time: January 1, year 1, 00:00:00 UTC. *)
Definition zeroTime : Time := mkTime (-62135596800 * Second) 0.

(* slotDuration := 30 * time.Minute *)
Definition slotDuration : Duration := 30 * Minute.

Module BookingService.

(* for i, b := range bookings {
     if b.ID == existingBooking.ID {
       bookings = append(bookings[:i], bookings[i+1:]...); break } } *)
Fixpoint filterOutCurrent (id : ObjectID) (bookings : list Booking)
    : list Booking :=
  match bookings with
  | [] => []
  | b :: rest =>
      if (ID b =? id)%N then rest else b :: filterOutCurrent id rest
  end.

(* The condition of the inner loop of GetAvailableTimeSlots. *)
Definition slotOverlaps (slotStart slotEnd : Time) (booking : Booking) : bool :=
  ((Equal slotStart (StartTime booking) || After slotStart (StartTime booking))
     && Before slotStart (EndTime booking))
  || (After slotEnd (StartTime booking)
        && (Equal slotEnd (EndTime booking) || Before slotEnd (EndTime booking)))
  || (Before slotStart (StartTime booking) && After slotEnd (EndTime booking)).

(* isAvailable := true
   for _, booking := range bookings { ... isAvailable = false; break ... } *)
Fixpoint isAvailable (slotStart slotEnd : Time) (bookings : list Booking)
    : bool :=
  match bookings with
  | [] => true
  | booking :: rest =>
      if Status booking =? BookingStatusCancelled
      then isAvailable slotStart slotEnd rest
      else if slotOverlaps slotStart slotEnd booking then false
      else isAvailable slotStart slotEnd rest
  end.

(* for slotStart := workStart; slotStart.Before(workEnd);
       slotStart = slotStart.Add(slotDuration) { ... }
   The loop ends because the number of slot lengths that separate
   slotStart from workEnd goes down at every turn. *)
Equations? slots (bookings : list Booking) (workEnd slotStart : Time)
    : list TimeSlot
    by wf (Z.to_nat ((unixNano workEnd - unixNano slotStart - 1) / slotDuration + 1)) lt :=
  slots bookings workEnd slotStart with Logic.inspect (Before slotStart workEnd) := {
    | exist _ true more =>
        let slotEnd := Add slotStart slotDuration in
        (if isAvailable slotStart slotEnd bookings
         then [mkTimeSlot slotStart slotEnd] else [])
        ++ slots bookings workEnd (Add slotStart slotDuration)
    | exist _ false _ => []
  }.
Proof.
  unfold Before in more. apply Z.ltb_lt in more.
  unfold Add. cbn [unixNano].
  assert (0 < slotDuration) as Hd by reflexivity.
  replace (unixNano workEnd - unixNano slotStart - 1)
    with (unixNano workEnd - (unixNano slotStart + slotDuration) - 1
          + 1 * slotDuration) by lia.
  rewrite Z.div_add by lia.
  set (x := unixNano workEnd - (unixNano slotStart + slotDuration) - 1).
  assert (-1 <= x / slotDuration).
  { apply Z.div_le_lower_bound; lia. }
  lia.
Qed.

Section Service.

Context {W : Type} {repo : repository.BookingRepository W}.

Definition CreateBooking (userID barberID : string) (startTime : Time)
    (serviceType : ServiceType) (notes : string) : M W Booking :=
  let endTime := CalculateEndTime startTime serviceType in
  let* existingBookings :=
    wrapping "failed to check barber availability"
      (repository.GetBookingsInTimeRange barberID startTime endTime) in
  if (0 <? length existingBookings)%nat
  then fail (errors_New "barber is not available at the requested time")
  else
    let booking :=
      {| ID := 0%N; UserID := userID; BarberID := barberID;
         StartTime := startTime; EndTime := endTime;
         ServiceTypeOf := serviceType; Status := BookingStatusPending;
         Notes := notes; CreatedAt := zeroTime; UpdatedAt := zeroTime |} in
    let* createdBooking :=
      wrapping "failed to create booking" (repository.CreateBooking booking) in
    ret createdBooking.

Definition GetBooking (id : string) : M W Booking :=
  let* booking := wrapping "failed to get booking" (repository.GetBookingByID id) in
  match booking with
  | None => fail (errors_New "booking not found")
  | Some booking => ret booking
  end.

Definition UpdateBooking (id : string) (startTime : option Time)
    (serviceType : option ServiceType) (notes : option string)
    : M W (option Booking) :=
  let* existingBooking :=
    wrapping "failed to get booking for update" (repository.GetBookingByID id) in
  match existingBooking with
  | None => fail (errors_New "booking not found")
  | Some existingBooking =>
      let updates : gmap string Value := ∅ in
      let* updates :=
        match startTime with
        | Some startTime' =>
            let updates := <["startTime" := VTime startTime']> updates in
            let newServiceType :=
              match serviceType with
              | Some serviceType' => serviceType'
              | None => ServiceTypeOf existingBooking
              end in
            let endTime := CalculateEndTime startTime' newServiceType in
            let updates := <["endTime" := VTime endTime]> updates in
            let* bookings :=
              wrapping "failed to check barber availability"
                (repository.GetBookingsInTimeRange
                   (BarberID existingBooking) startTime' endTime) in
            let bookings := filterOutCurrent (ID existingBooking) bookings in
            if (0 <? length bookings)%nat
            then fail (errors_New "barber is not available at the requested time")
            else ret updates
        | None => ret updates
        end in
      let* updates :=
        match serviceType with
        | Some serviceType' =>
            let updates := <["serviceType" := VInt serviceType']> updates in
            match startTime with
            | None =>
                let endTime :=
                  CalculateEndTime (StartTime existingBooking) serviceType' in
                let updates := <["endTime" := VTime endTime]> updates in
                let* bookings :=
                  wrapping "failed to check barber availability"
                    (repository.GetBookingsInTimeRange
                       (BarberID existingBooking)
                       (StartTime existingBooking) endTime) in
                let bookings := filterOutCurrent (ID existingBooking) bookings in
                if (0 <? length bookings)%nat
                then fail (errors_New
                  "barber is not available for the requested service duration")
                else ret updates
            | Some _ => ret updates
            end
        | None => ret updates
        end in
      let updates :=
        match notes with
        | Some notes' => <["notes" := VString notes']> updates
        | None => updates
        end in
      let* updatedBooking :=
        wrapping "failed to update booking" (repository.UpdateBooking id updates) in
      ret updatedBooking
  end.

Definition CancelBooking (id : string) : M W bool :=
  let* success := wrapping "failed to cancel booking" (repository.CancelBooking id) in
  ret success.

Definition GetUserBookings (userID : string) : M W (list Booking) :=
  let* bookings :=
    wrapping "failed to get user bookings" (repository.GetUserBookings userID) in
  ret bookings.

Definition GetBarberBookings (barberID : string) (date : option Time)
    : M W (list Booking) :=
  let* bookings :=
    wrapping "failed to get barber bookings"
      (repository.GetBarberBookings barberID date) in
  ret bookings.

Definition GetAvailableTimeSlots (barberID : string) (date : Time)
    : M W (list TimeSlot) :=
  let workStartHour := 9 in
  let workEndHour := 17 in
  let startOfDay := DateOfDay date 0 in
  let workStart := DateOfDay date workStartHour in
  let workEnd := DateOfDay date workEndHour in
  let* bookings :=
    wrapping "failed to get barber bookings"
      (repository.GetBarberBookings barberID (Some startOfDay)) in
  ret (slots bookings workEnd workStart).

End Service.

End BookingService.

(* ===================================================================== *)
(** * internal/grpc/booking_server.go *)
(* ===================================================================== *)

Module pb.

(** Modelled from the spec: the generated package pkg/api/proto is not
    among the sources.  The enum pb.ServiceType numbers its values as
    model.ServiceType does (the server converts between the two by a
    plain integer conversion), HAIRCUT being the zero value. *)
Definition ServiceType_HAIRCUT : Z := 0.

(** Modelled from the spec: the message UpdateBookingRequest of the
    generated package pkg/api/proto, with the fields the server reads:
    UpdateBooking(id, optional startTime, optional serviceType, notes). *)
Record UpdateBookingRequest := mkUpdateBookingRequest {
  Id : string;
  StartTime : string;
  ServiceType : Z;
  Notes : string
}.

(** Modelled from the spec: the message Booking of the generated
    package pkg/api/proto, with the fields convertBookingToProto sets. *)
Record Booking := mkBooking {
  BookingId : string;
  BookingUserId : string;
  BookingBarberId : string;
  BookingStartTime : string;
  BookingEndTime : string;
  BookingServiceType : Z;
  BookingStatus : Z;
  BookingNotes : string;
  BookingCreatedAt : string;
  BookingUpdatedAt : string
}.


(** Modelled from the spec: the message CreateBookingRequest of the
    generated package pkg/api/proto:
    CreateBooking(userId, barberId, startTime as RFC3339 string,
    serviceType enum, notes). *)
Record CreateBookingRequest := mkCreateBookingRequest {
  CreateUserId : string;
  CreateBarberId : string;
  CreateStartTime : string;
  CreateServiceType : Z;
  CreateNotes : string
}.

(** Modelled from the spec: the message GetBookingRequest of the
    generated package pkg/api/proto: GetBooking(id). *)
Record GetBookingRequest := mkGetBookingRequest {
  GetId : string
}.

(** Modelled from the spec: the messages CancelBookingRequest and
    CancelBookingResponse of the generated package pkg/api/proto:
    CancelBooking(id) answers {success, message}. *)
Record CancelBookingRequest := mkCancelBookingRequest {
  CancelId : string
}.

Record CancelBookingResponse := mkCancelBookingResponse {
  Success : bool;
  Message : string
}.

(** Modelled from the spec: the messages GetUserBookingsRequest,
    GetBarberBookingsRequest and BookingList of the generated package
    pkg/api/proto: GetUserBookings(userId) and
    GetBarberBookings(barberId, optional date as YYYY-MM-DD) answer a list. *)
Record GetUserBookingsRequest := mkGetUserBookingsRequest {
  ListUserId : string
}.

Record GetBarberBookingsRequest := mkGetBarberBookingsRequest {
  ListBarberId : string;
  ListDate : string
}.

Record BookingList := mkBookingList {
  Bookings : list Booking
}.

(** Modelled from the spec: the messages GetAvailableTimeSlotsRequest,
    TimeSlot and TimeSlotList of the generated package pkg/api/proto:
    GetAvailableTimeSlots(barberId, date as YYYY-MM-DD) answers a list of
    {startTime, endTime} RFC3339 pairs. *)
Record GetAvailableTimeSlotsRequest := mkGetAvailableTimeSlotsRequest {
  SlotsBarberId : string;
  SlotsDate : string
}.

Record TimeSlot := mkTimeSlot {
  SlotStartTime : string;
  SlotEndTime : string
}.

Record TimeSlotList := mkTimeSlotList {
  TimeSlots : list TimeSlot
}.

End pb.

(* google.golang.org/grpc/codes *)
Inductive Code := InvalidArgument | NotFound | Internal.

(* What a handler hands back to the gRPC runtime. *)
Inductive reply (A : Type) :=
| Reply (a : A)                              (* return a, nil *)
| StatusError (c : Code) (cause : option error) (* return nil, status.Errorf(c, ...) *)
| NilDereference.                            (* panic: nil pointer dereference *)
Arguments Reply {A} a.
Arguments StatusError {A} c cause.
Arguments NilDereference {A}.

(* errors.Is(err, errors.New(msg)): the target is a freshly allocated
   error value, which no error in the chain of err is identical to. *)
Definition errorsIsFresh (err : error) (msg : string) : bool := false.

(* ObjectID.Hex(): 24 lower-case hexadecimal digits. *)
Definition hexChar (d : N) : Ascii.ascii :=
  if (d <? 10)%N then Ascii.ascii_of_N (48 + d) else Ascii.ascii_of_N (87 + d).

Fixpoint hexDigits (n : nat) (o : N) (acc : string) : string :=
  match n with
  | O => acc
  | S n' => hexDigits n' (o / 16)%N (String (hexChar (o mod 16)%N) acc)
  end.

Definition Hex (o : ObjectID) : string := hexDigits 24 o "".

Module BookingServer.

Section Server.

Context {W : Type} {repo : repository.BookingRepository W}.

(* time.Parse(time.RFC3339, s) and t.Format(time.RFC3339) *)
Variable ParseRFC3339 : string -> option Time.
Variable FormatRFC3339 : Time -> string.

Definition convertBookingToProto (booking : Booking) : pb.Booking :=
  {| pb.BookingId := Hex (ID booking);
     pb.BookingUserId := UserID booking;
     pb.BookingBarberId := BarberID booking;
     pb.BookingStartTime := FormatRFC3339 (StartTime booking);
     pb.BookingEndTime := FormatRFC3339 (EndTime booking);
     pb.BookingServiceType := ServiceTypeOf booking;
     pb.BookingStatus := Status booking;
     pb.BookingNotes := Notes booking;
     pb.BookingCreatedAt := FormatRFC3339 (CreatedAt booking);
     pb.BookingUpdatedAt := FormatRFC3339 (UpdatedAt booking) |}.

(* The first part of UpdateBooking: the arguments startTime, serviceType
   and &req.Notes that the handler computes for the service call; None
   when the start time does not parse and the handler answers
   InvalidArgument. *)
Definition updateArguments (req : pb.UpdateBookingRequest)
    : option (option Time * option ServiceType * option string) :=
  let startTime :=
    if String.eqb (pb.StartTime req) "" then Some None
    else match ParseRFC3339 (pb.StartTime req) with
         | Some t => Some (Some t)
         | None => None
         end in
  match startTime with
  | None => None
  | Some startTime =>
      let serviceType :=
        if negb (pb.ServiceType req =? pb.ServiceType_HAIRCUT)
        then Some (pb.ServiceType req) else None in
      Some (startTime, serviceType, Some (pb.Notes req))
  end.

Definition UpdateBooking (req : pb.UpdateBookingRequest)
    : W -> reply pb.Booking * W :=
  fun w =>
    match updateArguments req with
    | None => (StatusError InvalidArgument None, w)
    | Some (startTime, serviceType, notes) =>
        match BookingService.UpdateBooking (pb.Id req) startTime serviceType notes w with
        | (Err err, w') =>
            if errorsIsFresh err "booking not found"
            then (StatusError NotFound None, w')
            else (StatusError Internal (Some err), w')
        | (Ok None, w') => (NilDereference, w')
        | (Ok (Some booking), w') => (Reply (convertBookingToProto booking), w')
        end
    end.

(* time.Parse("2006-01-02", s) *)
Variable ParseDate : string -> option Time.

Definition CreateBooking (req : pb.CreateBookingRequest)
    : W -> reply pb.Booking * W :=
  fun w =>
    match ParseRFC3339 (pb.CreateStartTime req) with
    | None => (StatusError InvalidArgument None, w)
    | Some startTime =>
        let serviceType : ServiceType := pb.CreateServiceType req in
        match BookingService.CreateBooking (pb.CreateUserId req)
                (pb.CreateBarberId req) startTime serviceType
                (pb.CreateNotes req) w with
        | (Err err, w') => (StatusError Internal (Some err), w')
        | (Ok booking, w') => (Reply (convertBookingToProto booking), w')
        end
    end.

Definition GetBooking (req : pb.GetBookingRequest)
    : W -> reply pb.Booking * W :=
  fun w =>
    match BookingService.GetBooking (pb.GetId req) w with
    | (Err err, w') =>
        if errorsIsFresh err "booking not found"
        then (StatusError NotFound None, w')
        else (StatusError Internal (Some err), w')
    | (Ok booking, w') => (Reply (convertBookingToProto booking), w')
    end.

Definition CancelBooking (req : pb.CancelBookingRequest)
    : W -> reply pb.CancelBookingResponse * W :=
  fun w =>
    match BookingService.CancelBooking (pb.CancelId req) w with
    | (Err err, w') => (StatusError Internal (Some err), w')
    | (Ok success, w') =>
        let message :=
          if success then "Booking cancelled successfully"
          else "Booking not found or already cancelled" in
        (Reply (pb.mkCancelBookingResponse success message), w')
    end.

Definition GetUserBookings (req : pb.GetUserBookingsRequest)
    : W -> reply pb.BookingList * W :=
  fun w =>
    match BookingService.GetUserBookings (pb.ListUserId req) w with
    | (Err err, w') => (StatusError Internal (Some err), w')
    | (Ok bookings, w') =>
        (Reply (pb.mkBookingList (map convertBookingToProto bookings)), w')
    end.

Definition GetBarberBookings (req : pb.GetBarberBookingsRequest)
    : W -> reply pb.BookingList * W :=
  fun w =>
    let date :=
      if String.eqb (pb.ListDate req) "" then Some None
      else match ParseDate (pb.ListDate req) with
           | Some t => Some (Some t)
           | None => None
           end in
    match date with
    | None => (StatusError InvalidArgument None, w)
    | Some date =>
        match BookingService.GetBarberBookings (pb.ListBarberId req) date w with
        | (Err err, w') => (StatusError Internal (Some err), w')
        | (Ok bookings, w') =>
            (Reply (pb.mkBookingList (map convertBookingToProto bookings)), w')
        end
    end.

Definition GetAvailableTimeSlots (req : pb.GetAvailableTimeSlotsRequest)
    : W -> reply pb.TimeSlotList * W :=
  fun w =>
    match ParseDate (pb.SlotsDate req) with
    | None => (StatusError InvalidArgument None, w)
    | Some date =>
        match BookingService.GetAvailableTimeSlots (pb.SlotsBarberId req) date w with
        | (Err err, w') => (StatusError Internal (Some err), w')
        | (Ok availableSlots, w') =>
            (Reply (pb.mkTimeSlotList
                      (map (fun slot =>
                              pb.mkTimeSlot (FormatRFC3339 (SlotStartTime slot))
                                            (FormatRFC3339 (SlotEndTime slot)))
                           availableSlots)), w')
        end
    end.

End Server.

End BookingServer.

(* ===================================================================== *)
(** * Specification-side definitions *)
(* ===================================================================== *)

(* The overlap predicate of half-open intervals [s1,e1) and [s2,e2), in
   the words of the specification: s1 < e2 AND s2 < e1. *)
Definition specOverlap (s1 e1 s2 e2 : Time) : bool :=
  Before s1 e2 && Before s2 e1.

(* A booking that takes part in conflict detection against [qs,qe). *)
Definition specConflicts (qs qe : Time) (b : Booking) : bool :=
  negb (Status b =? BookingStatusCancelled)
  && specOverlap (StartTime b) (EndTime b) qs qe.

(* The slots of the specification: n consecutive slots of 30 minutes,
   the first starting at a given time. *)
Fixpoint specSlots (n : nat) (start : Time) : list TimeSlot :=
  match n with
  | O => []
  | S n' =>
      mkTimeSlot start (Add start slotDuration)
      :: specSlots n' (Add start slotDuration)
  end.

(* A stored interval is proper when it starts before it ends. *)
Definition properInterval (b : Booking) : Prop :=
  unixNano (StartTime b) < unixNano (EndTime b).

(* The invariant of the collection: identifiers are unique, as the index
   on _id demands, and every stored interval is proper. *)
Definition wellFormed (db : Database) : Prop :=
  NoDup (map ID (bookings db)) /\ Forall properInterval (bookings db).

(* No coming driver call fails. *)
Definition healthy (db : Database) : Prop :=
  Forall (fun f => f = false) (faults db).

(* The filter document bson.M{"_id": objectID}. *)
Definition byID (id : ObjectID) : list Filter := [FieldIs "_id" (VObjectID id)].

(* The stored booking with a given identifier. *)
Definition stored (db : Database) (id : ObjectID) : option Booking :=
  List.find (matchesAll (byID id)) (bookings db).

(* The start and the service kind an update request is about. *)
Definition effectiveStart (existing : Booking) (startTime : option Time) : Time :=
  match startTime with
  | Some t => t
  | None => StartTime existing
  end.

Definition effectiveKind (existing : Booking) (serviceType : option ServiceType)
    : ServiceType :=
  match serviceType with
  | Some k => k
  | None => ServiceTypeOf existing
  end.

(* Whether an update request makes UpdateBooking recompute the end time. *)
Definition recomputes (startTime : option Time) (serviceType : option ServiceType)
    : bool :=
  match startTime, serviceType with
  | None, None => false
  | _, _ => true
  end.

(* The update document UpdateBooking has built when it reaches the
   repository call, keys in the order the code inserts them. *)
Definition updatesOf (existing : Booking) (startTime : option Time)
    (serviceType : option ServiceType) (notes : option string)
    : gmap string Value :=
  let updates : gmap string Value :=
    match startTime with
    | Some t =>
        <["endTime" := VTime (CalculateEndTime t (effectiveKind existing serviceType))]>
          (<["startTime" := VTime t]> ∅)
    | None => ∅
    end in
  let updates :=
    match serviceType with
    | Some k =>
        match startTime with
        | None =>
            <["endTime" := VTime (CalculateEndTime (StartTime existing) k)]>
              (<["serviceType" := VInt k]> updates)
        | Some _ => <["serviceType" := VInt k]> updates
        end
    | None => updates
    end in
  match notes with
  | Some n => <["notes" := VString n]> updates
  | None => updates
  end.

(* The message of the conflict error of UpdateBooking. *)
Definition conflictMessage (startTime : option Time) : string :=
  match startTime with
  | Some _ => "barber is not available at the requested time"
  | None => "barber is not available for the requested service duration"
  end.

(* Driver calls that read bookings by filter, and those that write. *)
Definition isQuery (c : Call) : bool :=
  match c with
  | CallFind _ | CallCursorAll => true
  | _ => false
  end.

Definition isWrite (c : Call) : bool :=
  match c with
  | CallInsertOne _ | CallFindOneAndUpdate _ _ | CallUpdateOne _ _ => true
  | _ => false
  end.

(* db' is db after driver calls that only read: same documents, same
   clock, same identifier supply, no write call made in between. *)
Definition onlyRead (db db' : Database) : Prop :=
  bookings db' = bookings db
  /\ clock db' = clock db
  /\ nextObjectID db' = nextObjectID db
  /\ List.filter isWrite (calls db') = List.filter isWrite (calls db).

(* ===================================================================== *)
(** * Sample data *)
(* ===================================================================== *)

(* 2024-01-01, hour:minute UTC. *)
Definition at_ (hour minute : Z) : Time :=
  mkTime (1704067200 * Second + hour * Hour + minute * Minute) 0.

Definition id1 : string := "000000000000000000000001".
Definition id2 : string := "000000000000000000000002".
Definition id9 : string := "000000000000000000000009".

(* A pending haircut 10:00-10:30 and a cancelled full service
   11:00-12:00, both with barber1. *)
Definition booking1 : Booking :=
  {| ID := 1%N; UserID := "user1"; BarberID := "barber1";
     StartTime := at_ 10 0; EndTime := at_ 10 30;
     ServiceTypeOf := ServiceTypeHaircut; Status := BookingStatusPending;
     Notes := "fade"; CreatedAt := at_ 7 0; UpdatedAt := at_ 7 0 |}.

Definition booking2 : Booking :=
  {| ID := 2%N; UserID := "user2"; BarberID := "barber1";
     StartTime := at_ 11 0; EndTime := at_ 12 0;
     ServiceTypeOf := ServiceTypeFullService; Status := BookingStatusCancelled;
     Notes := ""; CreatedAt := at_ 7 5; UpdatedAt := at_ 7 30 |}.

(* A pending beard trim 10:30-10:45 with barber1. *)
Definition booking3 : Booking :=
  {| ID := 3%N; UserID := "user3"; BarberID := "barber1";
     StartTime := at_ 10 30; EndTime := at_ 10 45;
     ServiceTypeOf := ServiceTypeBeardTrim; Status := BookingStatusPending;
     Notes := ""; CreatedAt := at_ 7 10; UpdatedAt := at_ 7 10 |}.

Definition db0 : Database :=
  {| bookings := [booking1; booking2]; clock := at_ 8 0;
     nextObjectID := 4%N; faults := []; calls := [] |}.

Definition db1 : Database :=
  {| bookings := [booking1; booking2; booking3]; clock := at_ 8 0;
     nextObjectID := 4%N; faults := []; calls := [] |}.

Definition emptyDb : Database :=
  {| bookings := []; clock := at_ 8 0; nextObjectID := 4%N;
     faults := []; calls := [] |}.

(* A pending haircut 10:15-10:45 with barber1, alone in the collection. *)
Definition booking4 : Booking :=
  {| ID := 4%N; UserID := "user4"; BarberID := "barber1";
     StartTime := at_ 10 15; EndTime := at_ 10 45;
     ServiceTypeOf := ServiceTypeHaircut; Status := BookingStatusPending;
     Notes := ""; CreatedAt := at_ 7 0; UpdatedAt := at_ 7 0 |}.

Definition db4 : Database :=
  {| bookings := [booking4]; clock := at_ 8 0; nextObjectID := 5%N;
     faults := []; calls := [] |}.


(* Case analysis on the integer comparisons of the goal. *)
Ltac by_cases_on_compare :=
  repeat match goal with
  | |- context [?a ?= ?b] => destruct (Z.compare_spec a b)
  | |- context [?a <? ?b] => destruct (Z.ltb_spec a b)
  | |- context [?a =? ?b] => destruct (Z.eqb_spec a b)
  end; simpl; try reflexivity; try lia.

(* ===================================================================== *)
(** * internal/auth/jwt.go *)
(* ===================================================================== *)

(* strings.Split(s, sep) for a separator of one byte: the pieces of s
   between the occurrences of sep, one more than there are occurrences. *)
Fixpoint Split (s : string) (sep : Ascii.ascii) : list string :=
  match s with
  | EmptyString => [EmptyString]
  | String c s' =>
      if Ascii.eqb c sep then EmptyString :: Split s' sep
      else match Split s' sep with
           | piece :: pieces => String c piece :: pieces
           | [] => [String c EmptyString]
           end
  end.

(* strings.ToLower on the letters A to Z.  Go also lowers letters outside
   ASCII; none of them becomes one of the letters of the word bearer, so
   the comparison of ExtractToken with that word is decided alike. *)
Definition lowerByte (c : Ascii.ascii) : Ascii.ascii :=
  let n := Ascii.N_of_ascii c in
  if ((65 <=? n) && (n <=? 90))%N then Ascii.ascii_of_N (n + 32) else c.

Fixpoint ToLower (s : string) : string :=
  match s with
  | EmptyString => EmptyString
  | String c s' => String (lowerByte c) (ToLower s')
  end.

(* The separator byte does not occur in s. *)
Definition hasNo (sep : Ascii.ascii) (s : string) : Prop :=
  ~ In sep (String.list_ascii_of_string s).

Module auth.

Definition ErrMissingMetadata : error := errors_New "missing metadata".
Definition ErrMissingToken : error := errors_New "missing token".
Definition ErrInvalidToken : error := errors_New "invalid token".

(* type Claims struct; of the embedded jwt.RegisteredClaims this code
   reads the subject only. *)
Record Claims := mkClaims {
  IsBarberFlag : bool;
  Subject : string
}.

(* A value kept in a context: a *Claims, possibly nil, or a value of
   another type. *)
Inductive ContextValue :=
| ClaimsPointer (claims : option Claims)
| OtherValue.

(* context.Context, as far as this package looks into it: the incoming
   gRPC metadata, if any, with lower-case keys, and the values set by
   context.WithValue. *)
Record Context := mkContext {
  incoming : option (gmap string (list string));
  values : gmap string ContextValue
}.

(* context.WithValue(ctx, key, value) *)
Definition WithValue (ctx : Context) (key : string) (value : ContextValue)
    : Context :=
  mkContext (incoming ctx) (<[key := value]> (values ctx)).

Definition ExtractToken (ctx : Context) : result string :=
  match incoming ctx with
  | None => Err ErrMissingMetadata
  | Some md =>
      let values := default [] (md !! "authorization") in
      match values with
      | [] => Err ErrMissingToken
      | authHeader :: _ =>
          let parts := Split authHeader Ascii.Space in
          match parts with
          | [scheme; token] =>
              if negb (String.eqb (ToLower scheme) "bearer")
              then Err ErrInvalidToken
              else Ok token
          | _ => Err ErrInvalidToken
          end
      end
  end.

Definition isPublicMethod (method : string) : bool :=
  let publicMethods : gmap string bool :=
    {[ "/grpc.health.v1.Health/Check" := true ]} in
  default false (publicMethods !! method).

Definition GetUserIDFromContext (ctx : Context) : result string :=
  match values ctx !! "user_claims" with
  | Some (ClaimsPointer (Some claims)) =>
      let userID := Subject claims in
      if String.eqb userID "" then Err (errors_New "no user ID in token")
      else Ok userID
  | _ => Err (errors_New "no user claims found in context")
  end.

Definition IsBarber (ctx : Context) : bool :=
  match values ctx !! "user_claims" with
  | Some (ClaimsPointer (Some claims)) => IsBarberFlag claims
  | _ => false
  end.

(* What the interceptor hands back to the gRPC runtime: the answer of the
   handler, or status.Errorf(codes.Unauthenticated, format, err), kept as
   the text of the format before its verb and the error printed by it. *)
Inductive intercepted (A : Type) :=
| Handled (a : A)
| Unauthenticated (message : string) (cause : error).
Arguments Handled {A} a.
Arguments Unauthenticated {A} message cause.

Section Interceptor.

(* VerifyToken rests on jwt.ParseWithClaims and the HMAC of the token. *)
Variable VerifyToken : string -> result Claims.

Context {Req Resp : Type}.

Definition AuthInterceptor (ctx : Context) (req : Req) (FullMethod : string)
    (handler : Context -> Req -> Resp) : intercepted Resp :=
  if isPublicMethod FullMethod then Handled (handler ctx req)
  else
    match ExtractToken ctx with
    | Err err => Unauthenticated "authentication error: " err
    | Ok token =>
        match VerifyToken token with
        | Err err => Unauthenticated "invalid token: " err
        | Ok claims =>
            let newCtx := WithValue ctx "user_claims" (ClaimsPointer (Some claims)) in
            Handled (handler newCtx req)
        end
    end.

End Interceptor.

End auth.

(* ===================================================================== *)
(** * Consistency of the collection *)
(* ===================================================================== *)

(* Two stored bookings double-book a barber when they are different
   documents of the same barber, neither is cancelled, and their
   intervals overlap. *)
Definition doubleBooked (a b : Booking) : Prop :=
  ID a <> ID b
  /\ BarberID a = BarberID b
  /\ Status a <> BookingStatusCancelled
  /\ Status b <> BookingStatusCancelled
  /\ specOverlap (StartTime a) (EndTime a) (StartTime b) (EndTime b) = true.

Definition noDoubleBooking (db : Database) : Prop :=
  forall a b, In a (bookings db) -> In b (bookings db) -> ~ doubleBooked a b.

(* The collection is consistent when it is well formed and no barber is
   double-booked. *)
Definition consistent (db : Database) : Prop :=
  wellFormed db /\ noDoubleBooking db.

(* The identifier supply is ahead of every stored identifier. *)
Definition freshSupply (db : Database) : Prop :=
  forall b, In b (bookings db) -> (ID b < nextObjectID db)%N.

(* The grid of the working day of a date: 16 slots from 09:00. *)
Definition workingGrid (date : Time) : list TimeSlot :=
  specSlots 16 (DateOfDay date 9).

(* The bookings GetAvailableTimeSlots looks at: those of the barber that
   start on the calendar day of the date. *)
Definition bookingsOfDay (barberID : string) (date : Time) (db : Database)
    : list Booking :=
  List.filter
    (fun b => String.eqb (BarberID b) barberID
              && (unixNano (DateOfDay date 0) <=? unixNano (StartTime b))
              && (unixNano (StartTime b) <? unixNano (DateOfDay date 0) + 24 * Hour))
    (bookings db).

(* ===================================================================== *)
(** * What the collection keeps of a booking *)
(* ===================================================================== *)

Definition Millisecond : Duration := 1000000 * Nanosecond.

(* A time.Time after its way through a BSON datetime: the driver encodes
   the whole milliseconds since the epoch (primitive.NewDateTimeFromTime)
   and decodes them in UTC. *)
Definition asStoredTime (t : Time) : Time :=
  mkTime (unixNano t / Millisecond * Millisecond) 0.

(* A booking after its way through the collection: identifier, strings
   and numbers as they were, the four times as BSON datetimes. *)
Definition asStored (b : Booking) : Booking :=
  {| ID := ID b;
     UserID := UserID b;
     BarberID := BarberID b;
     StartTime := asStoredTime (StartTime b);
     EndTime := asStoredTime (EndTime b);
     ServiceTypeOf := ServiceTypeOf b;
     Status := Status b;
     Notes := Notes b;
     CreatedAt := asStoredTime (CreatedAt b);
     UpdatedAt := asStoredTime (UpdatedAt b) |}.



Definition id3 : string := "000000000000000000000003".

(* Sample contexts. *)
Definition bearerContext (header : string) : auth.Context :=
  auth.mkContext (Some (<["authorization" := [header]]> ∅)) ∅.

Definition sampleVerify (token : string) : result auth.Claims :=
  if String.eqb token "good" then Ok (auth.mkClaims true "barber7")
  else Err auth.ErrInvalidToken.

(* ===================================================================== *)
(** * Basic facts *)
(* ===================================================================== *)

Lemma GetDuration_pos (s : ServiceType) : 0 < GetDuration s.
Proof. unfold GetDuration. repeat case_match; lia. Qed.

Lemma CalculateEndTime_after (t : Time) (s : ServiceType) :
  unixNano t < unixNano (CalculateEndTime t s).
Proof.
  unfold CalculateEndTime, Add, Minute, Second, Nanosecond. simpl.
  pose proof (GetDuration_pos s). lia.
Qed.

Lemma healthy_nextFails (db : Database) : healthy db -> nextFails db = false.
Proof.
  unfold healthy, nextFails. intros H.
  destruct (faults db) as [|f fs]; [reflexivity|].
  inversion H; subst. reflexivity.
Qed.

Lemma healthy_recorded (c : Call) (db : Database) :
  healthy db -> healthy (recorded c db).
Proof.
  unfold healthy, recorded. simpl. intros H.
  destruct (faults db); simpl; [constructor|]. inversion H; assumption.
Qed.

Lemma driver_healthy (c : Call) (db : Database) :
  healthy db -> driver c db = (Ok tt, recorded c db).
Proof. intros H. unfold driver. rewrite healthy_nextFails; auto. Qed.

Lemma string_compare_Eq (s t : string) :
  match String.compare s t with Eq => true | _ => false end = String.eqb s t.
Proof.
  destruct (String.eqb_spec s t) as [->|Hne].
  - pose proof (String.compare_antisym t t) as H.
    destruct (String.compare t t); simpl in H; congruence.
  - destruct (String.compare s t) eqn:E; try reflexivity.
    apply String.compare_eq_iff in E. contradiction.
Qed.

(* ===================================================================== *)
(** * The range filter and the slot test against the overlap predicate *)
(* ===================================================================== *)

Lemma rangeFilter_matches (barberID : string) (qs qe : Time) (b : Booking) :
  properInterval b -> unixNano qs < unixNano qe ->
  matchesAll (MongoBookingRepository.rangeFilter barberID qs qe) b
  = String.eqb (BarberID b) barberID && specConflicts qs qe b.
Proof.
  unfold properInterval. intros Hb Hq.
  unfold matchesAll, MongoBookingRepository.rangeFilter. cbn.
  rewrite string_compare_Eq.
  destruct (String.eqb (BarberID b) barberID); [|reflexivity].
  unfold specConflicts, specOverlap, Before. cbn.
  by_cases_on_compare.
Qed.

Lemma slotOverlaps_overlap (ss se : Time) (b : Booking) :
  properInterval b -> unixNano ss < unixNano se ->
  BookingService.slotOverlaps ss se b
  = specOverlap (StartTime b) (EndTime b) ss se.
Proof.
  unfold properInterval. intros Hb Hq.
  unfold BookingService.slotOverlaps, specOverlap, Before, After, Equal.
  by_cases_on_compare.
Qed.

Lemma isAvailable_conflicts (ss se : Time) (day : list Booking) :
  Forall properInterval day -> unixNano ss < unixNano se ->
  BookingService.isAvailable ss se day = negb (existsb (specConflicts ss se) day).
Proof.
  intros Hday Hq. induction Hday as [|b day Hb Hday IH]; [reflexivity|].
  simpl. unfold specConflicts at 1.
  rewrite IH, (slotOverlaps_overlap ss se b Hb Hq).
  destruct (Status b =? BookingStatusCancelled); simpl; [reflexivity|].
  destruct (specOverlap (StartTime b) (EndTime b) ss se); reflexivity.
Qed.

Lemma GetBookingsInTimeRange_healthy (barberID : string) (qs qe : Time)
    (db : Database) :
  healthy db ->
  MongoBookingRepository.GetBookingsInTimeRange barberID qs qe db
  = (Ok (List.filter (matchesAll (MongoBookingRepository.rangeFilter barberID qs qe))
                     (bookings db)),
     recorded CallCursorAll
       (recorded (CallFind (MongoBookingRepository.rangeFilter barberID qs qe)) db)).
Proof.
  intros H.
  unfold MongoBookingRepository.GetBookingsInTimeRange, Find, CursorAll,
    wrapping, bind, ret.
  rewrite (driver_healthy _ db H).
  rewrite (driver_healthy _ _ (healthy_recorded _ db H)).
  reflexivity.
Qed.




(* ===================================================================== *)
(** * CreateBooking *)
(* ===================================================================== *)

(* What the repository does to the booking it is handed. *)
Lemma repo_CreateBooking_fields (booking b : Booking) (db db' : Database) :
  MongoBookingRepository.CreateBooking booking db = (Ok b, db') ->
  UserID b = UserID booking /\ BarberID b = BarberID booking
  /\ StartTime b = StartTime booking /\ EndTime b = EndTime booking
  /\ ServiceTypeOf b = ServiceTypeOf booking /\ Status b = Status booking
  /\ Notes b = Notes booking
  /\ CreatedAt b = clock db /\ UpdatedAt b = clock db
  /\ bookings db' = bookings db ++ [b].
Proof.
  unfold MongoBookingRepository.CreateBooking, InsertOne, driver, nextFails,
    NewObjectID, Now, wrapping, bind, ret.
  destruct (ID (MongoBookingRepository.stamped (clock db) booking) =? 0)%N;
    destruct (faults db) as [|[|] fs] eqn:Hf; simpl; rewrite ?Hf; simpl;
    try discriminate.
  all: match goal with |- context [existsb ?p ?l] => destruct (existsb p l) end;
    simpl; try discriminate;
    intros [= <- <-]; simpl; repeat split; reflexivity.
Qed.

Lemma CreateBooking_steps (userID barberID : string) (startTime : Time)
    (serviceType : ServiceType) (notes : string) (db : Database) :
  BookingService.CreateBooking userID barberID startTime serviceType notes db
  = match MongoBookingRepository.GetBookingsInTimeRange barberID startTime
            (CalculateEndTime startTime serviceType) db with
    | (Err e, db') => (Err (errors_Wrap e "failed to check barber availability"), db')
    | (Ok (_ :: _), db') =>
        (Err (errors_New "barber is not available at the requested time"), db')
    | (Ok [], db') =>
        match MongoBookingRepository.CreateBooking
                (mkBooking 0%N userID barberID startTime
                   (CalculateEndTime startTime serviceType) serviceType
                   BookingStatusPending notes zeroTime zeroTime) db' with
        | (Err e, db'') => (Err (errors_Wrap e "failed to create booking"), db'')
        | (Ok b, db'') => (Ok b, db'')
        end
    end.
Proof.
  unfold BookingService.CreateBooking, wrapping, bind, ret, fail. simpl.
  destruct (MongoBookingRepository.GetBookingsInTimeRange _ _ _ db) as [[found|e] db'];
    [|reflexivity].
  destruct found; simpl; [|reflexivity].
  destruct (MongoBookingRepository.CreateBooking _ db') as [[b|e] db'']; reflexivity.
Qed.

(* Reads leave the collection, the clock and the identifier supply alone. *)
Lemma GetBookingsInTimeRange_reads (barberID : string) (qs qe : Time)
    (db : Database) :
  let db' := snd (MongoBookingRepository.GetBookingsInTimeRange barberID qs qe db) in
  bookings db' = bookings db /\ clock db' = clock db
  /\ nextObjectID db' = nextObjectID db.
Proof.
  unfold MongoBookingRepository.GetBookingsInTimeRange, Find, CursorAll, driver,
    nextFails, wrapping, bind, ret.
  destruct (faults db) as [|[|] [|[|] fs]] eqn:Hf; simpl; rewrite ?Hf; simpl; auto.
Qed.

Lemma repo_CreateBooking_failure (booking : Booking) (e : error)
    (db db' : Database) :
  MongoBookingRepository.CreateBooking booking db = (Err e, db') ->
  bookings db' = bookings db.
Proof.
  unfold MongoBookingRepository.CreateBooking, InsertOne, driver, nextFails,
    NewObjectID, Now, wrapping, bind, ret.
  destruct (ID (MongoBookingRepository.stamped (clock db) booking) =? 0)%N;
    destruct (faults db) as [|[|] fs] eqn:Hf; simpl; rewrite ?Hf; simpl;
    try (intros [= <- <-]; reflexivity).
  all: match goal with |- context [existsb ?p ?l] => destruct (existsb p l) end;
    simpl; try discriminate; intros [= <- <-]; reflexivity.
Qed.




(* ===================================================================== *)
(** * The repository calls of UpdateBooking *)
(* ===================================================================== *)

Lemma matches_byID (id : ObjectID) (b : Booking) :
  matchesAll (byID id) b = (ID b =? id)%N.
Proof.
  unfold matchesAll, byID. cbn.
  destruct (N.compare_spec (ID b) id) as [H|H|H];
    symmetry; rewrite andb_true_r || idtac;
    [apply N.eqb_eq | apply N.eqb_neq | apply N.eqb_neq]; lia.
Qed.

Lemma GetBookingByID_invalid (id : string) (e : error) (db : Database) :
  ObjectIDFromHex id = Err e ->
  MongoBookingRepository.GetBookingByID id db
  = (Err (errors_Wrap e "invalid booking ID format"), db).
Proof. intros H. unfold MongoBookingRepository.GetBookingByID. rewrite H. reflexivity. Qed.

Lemma GetBookingByID_valid (id : string) (oid : ObjectID) (db : Database) :
  ObjectIDFromHex id = Ok oid ->
  MongoBookingRepository.GetBookingByID id db
  = if nextFails db
    then (Err (errors_Wrap ErrDriver "failed to get booking"),
          recorded (CallFindOne (byID oid)) db)
    else (Ok (stored db oid), recorded (CallFindOne (byID oid)) db).
Proof.
  intros H. unfold MongoBookingRepository.GetBookingByID. rewrite H.
  unfold FindOne, driver, try, bind, ret, fail, stored, byID.
  destruct (nextFails db); simpl; [reflexivity|].
  destruct (List.find _ (bookings db)); reflexivity.
Qed.

Lemma repo_UpdateBooking_invalid (id : string) (e : error)
    (updates : gmap string Value) (db : Database) :
  ObjectIDFromHex id = Err e ->
  MongoBookingRepository.UpdateBooking id updates db
  = (Err (errors_Wrap e "invalid booking ID format"), db).
Proof. intros H. unfold MongoBookingRepository.UpdateBooking. rewrite H. reflexivity. Qed.

Lemma repo_UpdateBooking_valid (id : string) (oid : ObjectID)
    (updates : gmap string Value) (db : Database) :
  ObjectIDFromHex id = Ok oid ->
  let set := <["updatedAt" := VTime (clock db)]> updates in
  let db' := recorded (CallFindOneAndUpdate (byID oid) set) db in
  MongoBookingRepository.UpdateBooking id updates db
  = if nextFails db
    then (Err (errors_Wrap ErrDriver "failed to update booking"), db')
    else match stored db oid with
         | Some b =>
             (Ok (Some (applySet set b)),
              withBookings
                (updateFirst (matchesAll (byID oid)) (applySet set) (bookings db)) db')
         | None => (Ok None, db')
         end.
Proof.
  intros H set db'. unfold MongoBookingRepository.UpdateBooking. rewrite H.
  unfold FindOneAndUpdate, driver, Now, try, bind, ret, fail, stored.
  fold (byID oid). fold set. fold db'.
  destruct (nextFails db); simpl; [reflexivity|].
  unfold db' at 1 2. simpl.
  destruct (List.find _ (bookings db)); reflexivity.
Qed.

Lemma bind_ret {W A} (c : M W A) (w : W) : bind c ret w = c w.
Proof. unfold bind, ret. destruct (c w) as [[a|e] w']; reflexivity. Qed.

(* UpdateBooking, step by step: load, recheck availability, write. *)
Lemma UpdateBooking_steps (id : string) (startTime : option Time)
    (serviceType : option ServiceType) (notes : option string) (db : Database) :
  BookingService.UpdateBooking id startTime serviceType notes db
  = match MongoBookingRepository.GetBookingByID id db with
    | (Err e, db1) => (Err (errors_Wrap e "failed to get booking for update"), db1)
    | (Ok None, db1) => (Err (errors_New "booking not found"), db1)
    | (Ok (Some existing), db1) =>
        let write :=
          wrapping "failed to update booking"
            (MongoBookingRepository.UpdateBooking id
               (updatesOf existing startTime serviceType notes)) in
        if recomputes startTime serviceType then
          let start := effectiveStart existing startTime in
          let end_ := CalculateEndTime start (effectiveKind existing serviceType) in
          match MongoBookingRepository.GetBookingsInTimeRange
                  (BarberID existing) start end_ db1 with
          | (Err e, db2) =>
              (Err (errors_Wrap e "failed to check barber availability"), db2)
          | (Ok found, db2) =>
              match BookingService.filterOutCurrent (ID existing) found with
              | [] => write db2
              | _ :: _ => (Err (errors_New (conflictMessage startTime)), db2)
              end
          end
        else write db1
    end.
Proof.
  unfold BookingService.UpdateBooking. unfold bind at 1. unfold wrapping at 1.
  simpl repository.GetBookingByID.
  destruct (MongoBookingRepository.GetBookingByID id db) as [[[existing|]|e] db1];
    try reflexivity.
  destruct startTime as [t|], serviceType as [k|], notes as [n|]; simpl;
    try (unfold bind at 1; unfold ret at 1; unfold bind at 1; unfold ret at 1;
         apply bind_ret).
  all: unfold bind at 1; try unfold bind at 1; try (unfold bind at 2; unfold ret at 1; unfold bind at 1);
    unfold wrapping at 1;
    destruct (MongoBookingRepository.GetBookingsInTimeRange _ _ _ db1)
      as [[found|e] db2]; [|reflexivity];
    destruct (BookingService.filterOutCurrent (ID existing) found); simpl;
    [|reflexivity];
    unfold ret at 1; try (unfold bind at 1; unfold ret at 1); apply bind_ret.
Qed.

(* The fields of a booking once the update document has been applied. *)
Lemma applySet_updatesOf (existing : Booking) (startTime : option Time)
    (serviceType : option ServiceType) (notes : option string) (now : Time) :
  let b := applySet (<["updatedAt" := VTime now]>
                       (updatesOf existing startTime serviceType notes)) existing in
  StartTime b = effectiveStart existing startTime
  /\ ServiceTypeOf b = effectiveKind existing serviceType
  /\ EndTime b = (if recomputes startTime serviceType
                  then CalculateEndTime (effectiveStart existing startTime)
                                        (effectiveKind existing serviceType)
                  else EndTime existing)
  /\ Notes b = match notes with Some n => n | None => Notes existing end
  /\ UpdatedAt b = now
  /\ ID b = ID existing /\ UserID b = UserID existing
  /\ BarberID b = BarberID existing /\ Status b = Status existing
  /\ CreatedAt b = CreatedAt existing.
Proof.
  destruct startTime, serviceType, notes; repeat split; reflexivity.
Qed.

(* ===================================================================== *)
(** * Reads do not touch the collection *)
(* ===================================================================== *)

Lemma onlyRead_refl (db : Database) : onlyRead db db.
Proof. repeat split. Qed.

Lemma onlyRead_trans (db db' db'' : Database) :
  onlyRead db db' -> onlyRead db' db'' -> onlyRead db db''.
Proof.
  unfold onlyRead. intros (A1 & A2 & A3 & A4) (B1 & B2 & B3 & B4).
  repeat split; congruence.
Qed.

Lemma onlyRead_recorded (c : Call) (db : Database) :
  isWrite c = false -> onlyRead db (recorded c db).
Proof.
  intros H. unfold onlyRead, recorded. simpl. repeat split.
  rewrite List.filter_app. simpl. rewrite H. apply app_nil_r.
Qed.

Lemma onlyRead_stored (db db' : Database) (id : ObjectID) :
  onlyRead db db' -> stored db' id = stored db id.
Proof. intros (H & _). unfold stored. rewrite H. reflexivity. Qed.

Lemma GetBookingByID_onlyRead (id : string) (db : Database) :
  onlyRead db (snd (MongoBookingRepository.GetBookingByID id db)).
Proof.
  destruct (ObjectIDFromHex id) as [oid|e] eqn:Hid.
  - rewrite (GetBookingByID_valid id oid db Hid).
    destruct (nextFails db); simpl; apply onlyRead_recorded; reflexivity.
  - rewrite (GetBookingByID_invalid id e db Hid). apply onlyRead_refl.
Qed.

Lemma GetBookingsInTimeRange_cases (barberID : string) (qs qe : Time)
    (db : Database) :
  let filter := MongoBookingRepository.rangeFilter barberID qs qe in
  let db1 := recorded (CallFind filter) db in
  let db2 := recorded CallCursorAll db1 in
  MongoBookingRepository.GetBookingsInTimeRange barberID qs qe db
  = if nextFails db
    then (Err (errors_Wrap ErrDriver "failed to get bookings in time range"), db1)
    else if nextFails db1
    then (Err (errors_Wrap ErrDriver "failed to decode bookings"), db2)
    else (Ok (List.filter (matchesAll filter) (bookings db)), db2).
Proof.
  intros filter db1 db2.
  unfold MongoBookingRepository.GetBookingsInTimeRange, Find, CursorAll, driver,
    wrapping, bind, ret.
  fold filter. fold db1.
  destruct (nextFails db); simpl; [reflexivity|].
  fold db2. destruct (nextFails db1); reflexivity.
Qed.

Lemma GetBookingsInTimeRange_onlyRead (barberID : string) (qs qe : Time)
    (db : Database) :
  onlyRead db (snd (MongoBookingRepository.GetBookingsInTimeRange barberID qs qe db)).
Proof.
  rewrite GetBookingsInTimeRange_cases.
  assert (onlyRead db (recorded (CallFind (MongoBookingRepository.rangeFilter
                                             barberID qs qe)) db)) as H1
    by (apply onlyRead_recorded; reflexivity).
  destruct (nextFails db); simpl; [exact H1|].
  destruct (nextFails _); simpl;
    (eapply onlyRead_trans; [exact H1 | apply onlyRead_recorded; reflexivity]).
Qed.

(* The write of UpdateBooking either fails and changes nothing, or
   rewrites the stored booking with the update document. *)
Lemma write_cases (id : string) (oid : ObjectID) (updates : gmap string Value)
    (db : Database) :
  ObjectIDFromHex id = Ok oid ->
  let set := <["updatedAt" := VTime (clock db)]> updates in
  let db' := recorded (CallFindOneAndUpdate (byID oid) set) db in
  wrapping "failed to update booking"
    (MongoBookingRepository.UpdateBooking id updates) db
  = if nextFails db
    then (Err (errors_Wrap (errors_Wrap ErrDriver "failed to update booking")
                           "failed to update booking"), db')
    else match stored db oid with
         | Some b =>
             (Ok (Some (applySet set b)),
              withBookings
                (updateFirst (matchesAll (byID oid)) (applySet set) (bookings db)) db')
         | None => (Ok None, db')
         end.
Proof.
  intros H set db'. unfold wrapping.
  rewrite (repo_UpdateBooking_valid id oid updates db H). fold set. fold db'.
  destruct (nextFails db); [reflexivity|].
  destruct (stored db oid); reflexivity.
Qed.

(* ===================================================================== *)
(** * The collection after a write *)
(* ===================================================================== *)

Lemma applySet_ID (set : gmap string Value) (b : Booking) :
  ID (applySet set b) = ID b.
Proof. reflexivity. Qed.

Lemma find_updateFirst (id id' : ObjectID) (f : Booking -> Booking)
    (l : list Booking) :
  (forall b, ID (f b) = ID b) ->
  List.find (matchesAll (byID id')) (updateFirst (matchesAll (byID id)) f l)
  = if (id' =? id)%N then option_map f (List.find (matchesAll (byID id)) l)
    else List.find (matchesAll (byID id')) l.
Proof.
  intros Hf. induction l as [|b l IH]; cbn [List.find updateFirst].
  - destruct (id' =? id)%N; reflexivity.
  - rewrite (matches_byID id b).
    destruct (N.eqb_spec (ID b) id) as [Hb|Hb]; cbn [List.find option_map].
    + rewrite !matches_byID, Hf.
      destruct (N.eqb_spec id' id) as [->|Hne].
      * rewrite Hb, N.eqb_refl. reflexivity.
      * destruct (N.eqb_spec (ID b) id'); [congruence | reflexivity].
    + rewrite IH, !matches_byID.
      destruct (N.eqb_spec id' id) as [->|Hne].
      * destruct (N.eqb_spec (ID b) id); [contradiction | reflexivity].
      * reflexivity.
Qed.

Lemma map_ID_updateFirst (p : Booking -> bool) (f : Booking -> Booking)
    (l : list Booking) :
  (forall b, ID (f b) = ID b) ->
  map ID (updateFirst p f l) = map ID l.
Proof.
  intros Hf. induction l as [|b l IH]; simpl; [reflexivity|].
  destruct (p b); simpl; [rewrite Hf | rewrite IH]; reflexivity.
Qed.

Lemma stored_In (db : Database) (id : ObjectID) (b : Booking) :
  stored db id = Some b -> In b (bookings db) /\ ID b = id.
Proof.
  unfold stored. intros H. apply List.find_some in H as [Hin Hm].
  rewrite matches_byID in Hm. apply N.eqb_eq in Hm. auto.
Qed.

(* With unique identifiers, dropping the first booking with the current
   identifier drops every booking with that identifier. *)
Lemma filterOutCurrent_unique (id : ObjectID) (l : list Booking) :
  NoDup (map ID l) ->
  BookingService.filterOutCurrent id l
  = List.filter (fun b => negb (ID b =? id)%N) l.
Proof.
  induction l as [|b l IH]; simpl; intros Hnd; [reflexivity|].
  inversion Hnd as [|x xs Hnotin Hnd']; subst.
  destruct (N.eqb_spec (ID b) id) as [Hb|Hb]; simpl.
  - symmetry. apply List.forallb_filter_id. apply List.forallb_forall.
    intros c Hc. apply negb_true_iff, N.eqb_neq. intros Heq.
    apply Hnotin. rewrite Hb, <- Heq. apply list_elem_of_In, in_map, Hc.
  - rewrite IH by assumption. reflexivity.
Qed.

Lemma NoDup_map_filter (p : Booking -> bool) (l : list Booking) :
  NoDup (map ID l) -> NoDup (map ID (List.filter p l)).
Proof.
  induction l as [|b l IH]; simpl; intros Hnd; [constructor|].
  inversion Hnd as [|x xs Hnotin Hnd']; subst.
  destruct (p b); simpl; [|auto].
  constructor; [|auto]. intros Hin. apply Hnotin.
  apply list_elem_of_In in Hin. apply list_elem_of_In.
  apply in_map_iff in Hin as (c & Hc & Hcin). apply in_map_iff.
  exists c. split; [assumption|]. apply List.filter_In in Hcin. tauto.
Qed.

(* ===================================================================== *)
(** * Outcomes of UpdateBooking *)
(* ===================================================================== *)

(* The database after a successful write made on top of reads. *)
Lemma write_after_reads (id : string) (oid : ObjectID) (existing : Booking)
    (updates : gmap string Value) (db dbw : Database) :
  ObjectIDFromHex id = Ok oid ->
  stored db oid = Some existing ->
  onlyRead db dbw ->
  let set := <["updatedAt" := VTime (clock db)]> updates in
  let db' := recorded (CallFindOneAndUpdate (byID oid) set) dbw in
  wrapping "failed to update booking"
    (MongoBookingRepository.UpdateBooking id updates) dbw
  = if nextFails dbw
    then (Err (errors_Wrap (errors_Wrap ErrDriver "failed to update booking")
                           "failed to update booking"), db')
    else (Ok (Some (applySet set existing)),
          withBookings
            (updateFirst (matchesAll (byID oid)) (applySet set) (bookings db)) db').
Proof.
  intros Hid Hst Hread set db'.
  rewrite (write_cases id oid updates dbw Hid).
  rewrite (onlyRead_stored db dbw oid Hread), Hst.
  destruct Hread as (Hb & Hc & _). rewrite Hb, Hc. reflexivity.
Qed.

Lemma UpdateBooking_Ok_inv (id : string) (startTime : option Time)
    (serviceType : option ServiceType) (notes : option string)
    (db db' : Database) (r : option Booking) :
  BookingService.UpdateBooking id startTime serviceType notes db = (Ok r, db') ->
  exists oid existing dbw,
    ObjectIDFromHex id = Ok oid
    /\ stored db oid = Some existing
    /\ onlyRead db dbw
    /\ r = Some (applySet (<["updatedAt" := VTime (clock db)]>
                             (updatesOf existing startTime serviceType notes))
                          existing)
    /\ db' = withBookings
               (updateFirst (matchesAll (byID oid))
                  (applySet (<["updatedAt" := VTime (clock db)]>
                               (updatesOf existing startTime serviceType notes)))
                  (bookings db))
               (recorded (CallFindOneAndUpdate (byID oid)
                            (<["updatedAt" := VTime (clock db)]>
                               (updatesOf existing startTime serviceType notes)))
                         dbw).
Proof.
  rewrite UpdateBooking_steps.
  pose proof (GetBookingByID_onlyRead id db) as Hload.
  destruct (ObjectIDFromHex id) as [oid|e] eqn:Hid.
  2: { rewrite (GetBookingByID_invalid id e db Hid). discriminate. }
  rewrite (GetBookingByID_valid id oid db Hid) in *.
  destruct (nextFails db); [discriminate|]. simpl in Hload.
  destruct (stored db oid) as [existing|] eqn:Hst; [|discriminate].
  cbv zeta. set (db1 := recorded (CallFindOne (byID oid)) db) in *.
  destruct (recomputes startTime serviceType).
  - pose proof (GetBookingsInTimeRange_onlyRead (BarberID existing)
      (effectiveStart existing startTime)
      (CalculateEndTime (effectiveStart existing startTime)
         (effectiveKind existing serviceType)) db1) as Hquery.
    destruct (MongoBookingRepository.GetBookingsInTimeRange _ _ _ db1)
      as [[found|e] db2]; [|discriminate]. simpl in Hquery.
    destruct (BookingService.filterOutCurrent (ID existing) found); [|discriminate].
    assert (onlyRead db db2) as Hread by (eapply onlyRead_trans; eassumption).
    rewrite (write_after_reads id oid existing _ db db2 Hid Hst Hread).
    destruct (nextFails db2); [discriminate|].
    intros [= <- <-]. exists oid, existing, db2. auto.
  - rewrite (write_after_reads id oid existing _ db db1 Hid Hst Hload).
    destruct (nextFails db1); [discriminate|].
    intros [= <- <-]. exists oid, existing, db1. auto.
Qed.

Lemma UpdateBooking_Err_unchanged (id : string) (startTime : option Time)
    (serviceType : option ServiceType) (notes : option string)
    (db db' : Database) (e : error) :
  BookingService.UpdateBooking id startTime serviceType notes db = (Err e, db') ->
  bookings db' = bookings db.
Proof.
  rewrite UpdateBooking_steps.
  pose proof (GetBookingByID_onlyRead id db) as Hload.
  destruct (ObjectIDFromHex id) as [oid|e0] eqn:Hid.
  2: { rewrite (GetBookingByID_invalid id e0 db Hid). intros [= _ <-]. reflexivity. }
  rewrite (GetBookingByID_valid id oid db Hid) in *.
  destruct (nextFails db); [intros [= _ <-]; reflexivity|]. simpl in Hload.
  destruct (stored db oid) as [existing|] eqn:Hst; [|intros [= _ <-]; reflexivity].
  cbv zeta. set (db1 := recorded (CallFindOne (byID oid)) db) in *.
  destruct (recomputes startTime serviceType).
  - pose proof (GetBookingsInTimeRange_onlyRead (BarberID existing)
      (effectiveStart existing startTime)
      (CalculateEndTime (effectiveStart existing startTime)
         (effectiveKind existing serviceType)) db1) as Hquery.
    destruct (MongoBookingRepository.GetBookingsInTimeRange _ _ _ db1)
      as [[found|e1] db2]; simpl in Hquery.
    2: { intros [= _ <-]. destruct Hquery as (-> & _). reflexivity. }
    assert (onlyRead db db2) as Hread by (eapply onlyRead_trans; eassumption).
    destruct (BookingService.filterOutCurrent (ID existing) found).
    2: { intros [= _ <-]. apply Hread. }
    rewrite (write_after_reads id oid existing _ db db2 Hid Hst Hread).
    destruct (nextFails db2); [|discriminate].
    intros [= _ <-]. apply Hread.
  - rewrite (write_after_reads id oid existing _ db db1 Hid Hst Hload).
    destruct (nextFails db1); [|discriminate].
    intros [= _ <-]. apply Hload.
Qed.



(** C7.  UpdateBooking is all-or-nothing with respect to the availability
    re-check.  If loading the booking fails or finds nothing, if the overlap
    query fails, or if a booking other than the current one remains in the
    query result, UpdateBooking returns an error and, up to that point, has
    made only reading driver calls: the documents of the collection are
    unchanged and no write call has reached the driver.  More generally,
    whenever UpdateBooking returns an error the documents are unchanged. *)
Theorem UpdateBooking_all_or_nothing (id : string) (startTime : option Time)
    (serviceType : option ServiceType) (notes : option string) (db : Database) :
  let outcome := BookingService.UpdateBooking id startTime serviceType notes db in
  let load := MongoBookingRepository.GetBookingByID id db in
  (forall e, fst load = Err e ->
     fst outcome = Err (errors_Wrap e "failed to get booking for update")
     /\ onlyRead db (snd outcome))
  /\ (fst load = Ok None ->
        fst outcome = Err (errors_New "booking not found")
        /\ onlyRead db (snd outcome))
  /\ (forall existing, fst load = Ok (Some existing) ->
        recomputes startTime serviceType = true ->
        let start := effectiveStart existing startTime in
        let end_ := CalculateEndTime start (effectiveKind existing serviceType) in
        let query :=
          MongoBookingRepository.GetBookingsInTimeRange
            (BarberID existing) start end_ (snd load) in
        (forall e, fst query = Err e ->
           fst outcome = Err (errors_Wrap e "failed to check barber availability")
           /\ onlyRead db (snd outcome))
        /\ (forall found, fst query = Ok found ->
              BookingService.filterOutCurrent (ID existing) found <> [] ->
              fst outcome = Err (errors_New (conflictMessage startTime))
              /\ onlyRead db (snd outcome)))
  /\ (forall e, fst outcome = Err e -> bookings (snd outcome) = bookings db).
Proof.
  intros outcome load.
  pose proof (GetBookingByID_onlyRead id db) as Hload. fold load in Hload.
  assert (Hsteps := UpdateBooking_steps id startTime serviceType notes db).
  fold outcome load in Hsteps.
  split; [|split; [|split]].
  - intros e He. rewrite Hsteps. destruct load as [r db1]. simpl in *. subst r. auto.
  - intros He. rewrite Hsteps. destruct load as [r db1]. simpl in *. subst r. auto.
  - intros existing He Hre start end_ query.
    pose proof (GetBookingsInTimeRange_onlyRead (BarberID existing) start end_
                  (snd load)) as Hquery. fold query in Hquery.
    assert (onlyRead db (snd query)) as Hread
      by (eapply onlyRead_trans; eassumption).
    assert (outcome
            = match query with
              | (Err e, db2) =>
                  (Err (errors_Wrap e "failed to check barber availability"), db2)
              | (Ok found, db2) =>
                  match BookingService.filterOutCurrent (ID existing) found with
                  | [] => wrapping "failed to update booking"
                            (MongoBookingRepository.UpdateBooking id
                               (updatesOf existing startTime serviceType notes)) db2
                  | _ :: _ => (Err (errors_New (conflictMessage startTime)), db2)
                  end
              end) as Hout.
    { rewrite Hsteps. unfold query. destruct load as [r db1]. simpl in He. subst r.
      cbv zeta. rewrite Hre. reflexivity. }
    split.
    + intros e Hqe. rewrite Hout. destruct query as [r db2]. simpl in *. subst r. auto.
    + intros found Hqf Hne. rewrite Hout. destruct query as [r db2]. simpl in *.
      subst r. destruct (BookingService.filterOutCurrent (ID existing) found);
        [congruence | auto].
  - intros e He. destruct outcome as [r db'] eqn:Hout. simpl in *. subst r.
    exact (UpdateBooking_Err_unchanged _ _ _ _ _ _ _ Hout).
Qed.

Lemma UpdateBooking_all_or_nothing_witness :
  fst (BookingService.UpdateBooking id1 (Some (at_ 10 20)) None None db1)
  = Err (errors_New "barber is not available at the requested time")
  /\ bookings (snd (BookingService.UpdateBooking id1 (Some (at_ 10 20)) None None db1))
     = bookings db1
  /\ List.filter isWrite
       (calls (snd (BookingService.UpdateBooking id1 (Some (at_ 10 20)) None None db1)))
     = [].
Proof.
  destruct (UpdateBooking_all_or_nothing id1 (Some (at_ 10 20)) None None db1)
    as (_ & _ & Hcheck & _).
  destruct (Hcheck booking1 eq_refl eq_refl) as (_ & Hconflict).
  destruct (Hconflict [booking1; booking3] eq_refl) as (Herr & Hb & _ & _ & Hw).
  - discriminate.
  - split; [exact Herr|]. split; [exact Hb | exact Hw].
Defined.

(* ===================================================================== *)
(** * Self-exclusion *)
(* ===================================================================== *)

(* The conflict set UpdateBooking judges: the bookings of the barber that
   conflict with the interval, the current booking left out. *)
Lemma conflict_set (id : ObjectID) (barberID : string) (qs qe : Time)
    (l : list Booking) :
  NoDup (map ID l) ->
  Forall properInterval l ->
  unixNano qs < unixNano qe ->
  BookingService.filterOutCurrent id
    (List.filter (matchesAll (MongoBookingRepository.rangeFilter barberID qs qe)) l)
  = List.filter (fun b => negb (ID b =? id)%N
                          && String.eqb (BarberID b) barberID
                          && specConflicts qs qe b) l.
Proof.
  intros Hnd Hp Hq.
  rewrite filterOutCurrent_unique by (apply NoDup_map_filter; assumption).
  clear Hnd. induction Hp as [|b l Hb Hl IH]; [reflexivity|].
  cbn [List.filter]. rewrite (rangeFilter_matches barberID qs qe b Hb Hq).
  destruct (String.eqb (BarberID b) barberID && specConflicts qs qe b) eqn:E.
  - cbn [List.filter]. rewrite IH.
    destruct (negb (ID b =? id)%N); cbn [andb]; rewrite ?E; reflexivity.
  - rewrite IH. rewrite <- andb_assoc, E, andb_false_r. reflexivity.
Qed.




(* ===================================================================== *)
(** * Partial updates *)
(* ===================================================================== *)

(* What UpdateBooking does to any stored booking: nothing, or the update
   document applied to the booking that was loaded. *)
Lemma UpdateBooking_stored (id : string) (startTime : option Time)
    (serviceType : option ServiceType) (notes : option string)
    (db : Database) (oid' : ObjectID) (b : Booking) :
  stored db oid' = Some b ->
  let db' := snd (BookingService.UpdateBooking id startTime serviceType notes db) in
  stored db' oid' = Some b
  \/ stored db' oid'
     = Some (applySet (<["updatedAt" := VTime (clock db)]>
                         (updatesOf b startTime serviceType notes)) b).
Proof.
  intros Hb db'. unfold db'.
  destruct (BookingService.UpdateBooking id startTime serviceType notes db)
    as [[r|e] dbo] eqn:Hout; simpl.
  - apply UpdateBooking_Ok_inv in Hout
      as (oid & existing & dbw & Hid & Hst & _ & _ & ->).
    unfold stored at 1 2. simpl.
    rewrite !find_updateFirst by (intros; apply applySet_ID).
    fold (stored db oid) (stored db oid').
    destruct (N.eqb_spec oid' oid) as [->|Hne].
    + rewrite Hst in *. injection Hb as ->. right. reflexivity.
    + left. assumption.
  - left. unfold stored. rewrite (UpdateBooking_Err_unchanged _ _ _ _ _ _ _ Hout).
    exact Hb.
Qed.

(* The driver calls of an update that supplies only notes. *)
Lemma notes_only_calls (id : string) (text : string) (db : Database) :
  exists new,
    calls (snd (BookingService.UpdateBooking id None None (Some text) db))
      = calls db ++ new
    /\ List.filter isQuery new = []
    /\ (forall c, In c new ->
          (exists filter, c = CallFindOne filter)
          \/ (exists filter,
                c = CallFindOneAndUpdate filter
                      (<["updatedAt" := VTime (clock db)]>
                         (<["notes" := VString text]> ∅)))).
Proof.
  rewrite UpdateBooking_steps.
  destruct (ObjectIDFromHex id) as [oid|e] eqn:Hid.
  2: { rewrite (GetBookingByID_invalid id e db Hid). exists []. simpl.
       rewrite app_nil_r. repeat split. intros c []. }
  rewrite (GetBookingByID_valid id oid db Hid).
  assert (Hone : forall c, In c [CallFindOne (byID oid)] ->
            (exists filter, c = CallFindOne filter)
            \/ (exists filter,
                  c = CallFindOneAndUpdate filter
                        (<["updatedAt" := VTime (clock db)]>
                           (<["notes" := VString text]> ∅)))).
  { intros c [<-|[]]. left. eexists. reflexivity. }
  destruct (nextFails db).
  { exists [CallFindOne (byID oid)]. simpl. auto. }
  destruct (stored db oid) as [existing|] eqn:Hst.
  2: { exists [CallFindOne (byID oid)]. simpl. auto. }
  cbv zeta. simpl recomputes. cbv iota.
  rewrite (write_after_reads id oid existing _ db
             (recorded (CallFindOne (byID oid)) db) Hid Hst)
    by (apply onlyRead_recorded; reflexivity).
  exists [CallFindOne (byID oid);
          CallFindOneAndUpdate (byID oid)
            (<["updatedAt" := VTime (clock db)]> (<["notes" := VString text]> ∅))].
  split; [|split].
  - destruct (nextFails _); simpl; rewrite <- app_assoc; reflexivity.
  - reflexivity.
  - intros c [<-|[<-|[]]]; [left | right]; eexists; reflexivity.
Qed.

(** C4.  An UpdateBooking call that supplies only notes makes no query
    for overlapping bookings: the driver calls it adds are at most one
    FindOne and one FindOneAndUpdate, and the document that FindOneAndUpdate
    sets holds exactly the keys notes and updatedAt.  For every update
    request, whatever it supplies, each stored booking is still stored
    afterwards with the same identifier, user, barber, status and creation
    time, and every omitted field is untouched: without a start time the
    start is unchanged, without a kind the kind is unchanged, without notes
    the notes are unchanged, and without both start time and kind the end
    is unchanged. *)
Theorem UpdateBooking_leaves_omitted_fields (id : string)
    (startTime : option Time) (serviceType : option ServiceType)
    (notes : option string) (db : Database) :
  (forall text,
     let outcome := BookingService.UpdateBooking id None None (Some text) db in
     exists new,
       calls (snd outcome) = calls db ++ new
       /\ List.filter isQuery new = []
       /\ (forall c, In c new ->
             (exists filter, c = CallFindOne filter)
             \/ (exists filter,
                   c = CallFindOneAndUpdate filter
                         (<["updatedAt" := VTime (clock db)]>
                            (<["notes" := VString text]> ∅)))))
  /\ (forall oid b,
        stored db oid = Some b ->
        exists b',
          stored (snd (BookingService.UpdateBooking id startTime serviceType
                         notes db)) oid = Some b'
          /\ ID b' = ID b /\ UserID b' = UserID b /\ BarberID b' = BarberID b
          /\ Status b' = Status b /\ CreatedAt b' = CreatedAt b
          /\ (startTime = None -> StartTime b' = StartTime b)
          /\ (serviceType = None -> ServiceTypeOf b' = ServiceTypeOf b)
          /\ (notes = None -> Notes b' = Notes b)
          /\ (startTime = None -> serviceType = None -> EndTime b' = EndTime b)).
Proof.
  split.
  - intros text outcome. apply notes_only_calls.
  - intros oid b Hb.
    pose proof (applySet_updatesOf b startTime serviceType notes (clock db))
      as (H1 & H2 & H3 & H4 & _ & H6 & H7 & H8 & H9 & H10).
    destruct (UpdateBooking_stored id startTime serviceType notes db oid b Hb)
      as [Hsame|Hset]; eexists; (split; [eassumption|]).
    + repeat split; reflexivity.
    + repeat split; try assumption.
      * intros ->. exact H1.
      * intros ->. exact H2.
      * intros ->. exact H4.
      * intros -> ->. exact H3.
Qed.

Lemma UpdateBooking_leaves_omitted_fields_witness :
  exists b',
    stored (snd (BookingService.UpdateBooking id1 None None (Some "short") db0)) 1%N
      = Some b'
    /\ StartTime b' = at_ 10 0
    /\ EndTime b' = at_ 10 30
    /\ ServiceTypeOf b' = ServiceTypeHaircut
    /\ Notes b' = "short".
Proof.
  destruct (UpdateBooking_leaves_omitted_fields id1 None None (Some "short") db0)
    as (_ & Hframe).
  destruct (Hframe 1%N booking1 eq_refl)
    as (b' & Hb' & _ & _ & _ & _ & _ & Hs & Hk & _ & He).
  exists b'. split; [exact Hb'|].
  split; [exact (Hs eq_refl)|]. split; [exact (He eq_refl eq_refl)|].
  split; [exact (Hk eq_refl)|].
  vm_compute in Hb'. injection Hb' as <-. reflexivity.
Defined.

(* ===================================================================== *)
(** * CancelBooking *)
(* ===================================================================== *)

Lemma CancelBooking_invalid (id : string) (e : error) (db : Database) :
  ObjectIDFromHex id = Err e ->
  BookingService.CancelBooking id db
  = (Err (errors_Wrap (errors_Wrap e "invalid booking ID format")
                      "failed to cancel booking"), db).
Proof.
  intros H. unfold BookingService.CancelBooking, wrapping, bind. simpl.
  unfold MongoBookingRepository.CancelBooking. rewrite H. reflexivity.
Qed.

Lemma CancelBooking_valid (id : string) (oid : ObjectID) (db : Database) :
  ObjectIDFromHex id = Ok oid ->
  let set : gmap string Value :=
    <["status" := VInt BookingStatusCancelled]>
      (<["updatedAt" := VTime (clock db)]> ∅) in
  let db' := recorded (CallUpdateOne (byID oid) set) db in
  BookingService.CancelBooking id db
  = if nextFails db
    then (Err (errors_Wrap (errors_Wrap ErrDriver "failed to cancel booking")
                           "failed to cancel booking"), db')
    else match stored db oid with
         | Some b =>
             (Ok (negb (sameDocument b (applySet set b))),
              withBookings
                (updateFirst (matchesAll (byID oid)) (applySet set) (bookings db)) db')
         | None => (Ok false, db')
         end.
Proof.
  intros H set db'. unfold BookingService.CancelBooking, wrapping, bind, ret. simpl.
  unfold MongoBookingRepository.CancelBooking. rewrite H.
  unfold UpdateOne, driver, Now, wrapping, bind, ret, stored.
  fold (byID oid). fold set. fold db'.
  destruct (nextFails db); [reflexivity|].
  unfold db' at 1 2. simpl.
  destruct (List.find _ (bookings db)); [|reflexivity].
  destruct (sameDocument _ _); reflexivity.
Qed.

Lemma sameDocument_status (a b : Booking) :
  Status a <> Status b -> sameDocument a b = false.
Proof.
  intros H. unfold sameDocument.
  destruct (Z.eqb_spec (Status a) (Status b)); [contradiction|].
  rewrite !andb_false_r. reflexivity.
Qed.

(* Cancelling the already cancelled booking2 later in the day: the update
   timestamp changes, so the driver counts the document as modified. *)
Example CancelBooking_already_cancelled :
  BookingStatusCancelled = Status booking2
  /\ fst (BookingService.CancelBooking id2 db0) = Ok true.
Proof. split; reflexivity. Qed.

(** C5, as stated, fails: the identifier "booking-42" is not the
    identifier of any booking (it is not an object identifier at all), and
    CancelBooking returns an error for it instead of reporting no change. *)
Lemma CancelBooking_malformed_id_is_an_error :
  (forall oid, ObjectIDFromHex "booking-42" <> Ok oid)
  /\ fst (BookingService.CancelBooking "booking-42" db0)
     = Err (errors_Wrap (errors_Wrap ErrInvalidHex "invalid booking ID format")
                        "failed to cancel booking")
  /\ fst (BookingService.CancelBooking "booking-42" db0) <> Ok false.
Proof.
  split; [|split].
  - intros oid. discriminate.
  - reflexivity.
  - discriminate.
Qed.

(** C5, amended.  For an identifier that is a well-formed object
    identifier and a driver call that does not fail, CancelBooking returns
    no error.  If no booking with the identifier is stored it returns false
    and leaves the documents as they are.  If one is stored, then afterwards
    its status is cancelled and its identifier, user, barber, start, end,
    kind, notes and creation time are unchanged; if it was not cancelled
    before, the call returns true and the update timestamp of the booking is
    the current time.  For a malformed identifier or a failed driver call
    CancelBooking returns an error and leaves the documents as they are. *)
Theorem CancelBooking_outcomes (id : string) (db : Database) :
  let outcome := BookingService.CancelBooking id db in
  (forall e, ObjectIDFromHex id = Err e ->
     fst outcome = Err (errors_Wrap (errors_Wrap e "invalid booking ID format")
                                    "failed to cancel booking")
     /\ snd outcome = db)
  /\ (forall oid, ObjectIDFromHex id = Ok oid ->
        (nextFails db = true ->
           fst outcome = Err (errors_Wrap (errors_Wrap ErrDriver "failed to cancel booking")
                                          "failed to cancel booking")
           /\ bookings (snd outcome) = bookings db)
        /\ (nextFails db = false ->
              (stored db oid = None ->
                 fst outcome = Ok false /\ bookings (snd outcome) = bookings db)
              /\ (forall b, stored db oid = Some b ->
                    exists changed b',
                      fst outcome = Ok changed
                      /\ stored (snd outcome) oid = Some b'
                      /\ Status b' = BookingStatusCancelled
                      /\ ID b' = ID b /\ UserID b' = UserID b
                      /\ BarberID b' = BarberID b
                      /\ StartTime b' = StartTime b /\ EndTime b' = EndTime b
                      /\ ServiceTypeOf b' = ServiceTypeOf b
                      /\ Notes b' = Notes b /\ CreatedAt b' = CreatedAt b
                      /\ (Status b <> BookingStatusCancelled ->
                            changed = true /\ UpdatedAt b' = clock db)))).
Proof.
  intros outcome. split.
  - intros e He. unfold outcome. rewrite (CancelBooking_invalid id e db He). auto.
  - intros oid Hid. unfold outcome. rewrite (CancelBooking_valid id oid db Hid).
    split.
    + intros ->. auto.
    + intros ->. split.
      * intros ->. auto.
      * intros b Hb. rewrite Hb. eexists. eexists. split; [reflexivity|]. split.
        { unfold stored. simpl.
          rewrite find_updateFirst by (intros; apply applySet_ID).
          rewrite N.eqb_refl. fold (stored db oid). rewrite Hb. reflexivity. }
        repeat (split; [reflexivity|]).
        intros Hs. split; [|reflexivity].
        apply negb_true_iff, sameDocument_status. exact Hs.
Qed.

Lemma CancelBooking_outcomes_witness :
  exists b',
    fst (BookingService.CancelBooking id1 db0) = Ok true
    /\ stored (snd (BookingService.CancelBooking id1 db0)) 1%N = Some b'
    /\ Status b' = BookingStatusCancelled
    /\ UpdatedAt b' = at_ 8 0
    /\ fst (BookingService.CancelBooking id9 db0) = Ok false.
Proof.
  destruct (CancelBooking_outcomes id1 db0) as (_ & Hvalid).
  destruct (Hvalid 1%N eq_refl) as (_ & Hok).
  destruct (Hok eq_refl) as (_ & Hstored).
  destruct (Hstored booking1 eq_refl)
    as (changed & b' & H1 & H2 & H3 & _ & _ & _ & _ & _ & _ & _ & _ & H4).
  destruct (H4 ltac:(discriminate)) as (H5 & H6).
  exists b'. split; [rewrite H1, H5; reflexivity|].
  split; [exact H2|]. split; [exact H3|]. split; [exact H6|].
  destruct (CancelBooking_outcomes id9 db0) as (_ & Hvalid9).
  destruct (Hvalid9 9%N eq_refl) as (_ & Hok9).
  destruct (Hok9 eq_refl) as (Hnone & _).
  apply Hnone. reflexivity.
Defined.

(* ===================================================================== *)
(** * The slot loop *)
(* ===================================================================== *)

Lemma slots_step (bookings : list Booking) (workEnd slotStart : Time) :
  Before slotStart workEnd = true ->
  BookingService.slots bookings workEnd slotStart
  = (if BookingService.isAvailable slotStart (Add slotStart slotDuration) bookings
     then [mkTimeSlot slotStart (Add slotStart slotDuration)] else [])
    ++ BookingService.slots bookings workEnd (Add slotStart slotDuration).
Proof.
  intros H. rewrite BookingService.slots_equation_1.
  destruct (Logic.inspect (Before slotStart workEnd)) as [[|] e];
    [reflexivity | congruence].
Qed.

Lemma slots_done (bookings : list Booking) (workEnd slotStart : Time) :
  Before slotStart workEnd = false ->
  BookingService.slots bookings workEnd slotStart = [].
Proof.
  intros H. rewrite BookingService.slots_equation_1.
  destruct (Logic.inspect (Before slotStart workEnd)) as [[|] e];
    [congruence | reflexivity].
Qed.

Lemma Time_eq (t u : Time) :
  unixNano t = unixNano u -> zone t = zone u -> t = u.
Proof. destruct t, u. simpl. intros -> ->. reflexivity. Qed.

Lemma slotDuration_pos : 0 < slotDuration.
Proof. reflexivity. Qed.

Lemma isAvailable_all_cancelled (slotStart slotEnd : Time) (day : list Booking) :
  Forall (fun b => Status b = BookingStatusCancelled) day ->
  BookingService.isAvailable slotStart slotEnd day = true.
Proof.
  induction 1 as [|b day Hb Hday IH]; simpl; [reflexivity|].
  rewrite Hb. simpl. exact IH.
Qed.

Lemma slots_all_available (bookings : list Booking) (workEnd : Time) (n : nat) :
  (forall a b, BookingService.isAvailable a b bookings = true) ->
  forall slotStart,
    unixNano workEnd = unixNano slotStart + Z.of_nat n * slotDuration ->
    BookingService.slots bookings workEnd slotStart = specSlots n slotStart.
Proof.
  intros Hfree. pose proof slotDuration_pos as Hd.
  induction n as [|n IH]; intros slotStart Hend.
  - apply slots_done. unfold Before. apply Z.ltb_ge. lia.
  - rewrite slots_step by (unfold Before; apply Z.ltb_lt; nia).
    rewrite Hfree. simpl. f_equal. apply IH. unfold Add. simpl. lia.
Qed.

Lemma specSlots_length (n : nat) (start : Time) :
  length (specSlots n start) = n.
Proof. revert start. induction n; intros; simpl; auto. Qed.

Lemma specSlots_lookup (n : nat) (start : Time) (i : nat) (slot : TimeSlot) :
  specSlots n start !! i = Some slot ->
  unixNano (SlotStartTime slot) = unixNano start + Z.of_nat i * slotDuration
  /\ zone (SlotStartTime slot) = zone start
  /\ SlotEndTime slot = Add (SlotStartTime slot) slotDuration.
Proof.
  revert start i. induction n as [|n IH]; intros start i; simpl; [discriminate|].
  destruct i as [|i]; simpl.
  - intros [= <-]. simpl. repeat split. lia.
  - intros H. apply IH in H as (H1 & H2 & H3). simpl in *.
    repeat split; [lia | assumption | assumption].
Qed.

(* The filter of GetBarberBookings for one day. *)
Lemma dayFilter_matches (barberID : string) (startOfDay : Time) (b : Booking) :
  matchesAll
    [FieldIs "barberId" (VString barberID);
     FieldOps "startTime"
       [(op_gte, VTime startOfDay); (op_lt, VTime (Add startOfDay (24 * Hour)))]] b
  = String.eqb (BarberID b) barberID
    && (unixNano startOfDay <=? unixNano (StartTime b))
    && (unixNano (StartTime b) <? unixNano startOfDay + 24 * Hour).
Proof.
  unfold matchesAll. cbn -[Z.mul Hour]. rewrite string_compare_Eq.
  destruct (String.eqb (BarberID b) barberID); [|reflexivity]. cbn -[Z.mul Hour].
  destruct (Z.compare_spec (unixNano (StartTime b)) (unixNano startOfDay));
    destruct (Z.compare_spec (unixNano (StartTime b)) (unixNano startOfDay + 24 * Hour));
    destruct (Z.leb_spec (unixNano startOfDay) (unixNano (StartTime b)));
    destruct (Z.ltb_spec (unixNano (StartTime b)) (unixNano startOfDay + 24 * Hour));
    simpl; try reflexivity; lia.
Qed.

Lemma DateOfDay_midnight (date : Time) :
  DateOfDay (DateOfDay date 0) 0 = DateOfDay date 0.
Proof.
  unfold DateOfDay. simpl. f_equal.
  set (local := unixNano date + zone date * Second).
  replace (local / (24 * Hour) * (24 * Hour) + 0 * Hour - zone date * Second
           + zone date * Second) with (local / (24 * Hour) * (24 * Hour)) by lia.
  rewrite Z.div_mul by (cbv; discriminate). reflexivity.
Qed.

Lemma GetBarberBookings_healthy (barberID : string) (date : Time) (db : Database) :
  healthy db ->
  fst (MongoBookingRepository.GetBarberBookings barberID (Some (DateOfDay date 0)) db)
  = Ok (List.filter
          (fun b => String.eqb (BarberID b) barberID
                    && (unixNano (DateOfDay date 0) <=? unixNano (StartTime b))
                    && (unixNano (StartTime b) <? unixNano (DateOfDay date 0) + 24 * Hour))
          (bookings db)).
Proof.
  intros Hh.
  unfold MongoBookingRepository.GetBarberBookings, Find, CursorAll, wrapping, bind, ret.
  rewrite (driver_healthy _ db Hh).
  rewrite (driver_healthy _ _ (healthy_recorded _ db Hh)).
  cbn [fst bookings recorded]. f_equal.
  apply List.filter_ext. intros b.
  rewrite DateOfDay_midnight. apply dayFilter_matches.
Qed.

(** C6.  On a healthy database in which every booking of the barber that
    starts on the requested day is cancelled, GetAvailableTimeSlots
    returns exactly 16 slots: slot i (counted from 0) starts 30 * i
    minutes after 09:00 of that day and lasts exactly 30 minutes; each
    slot starts when the one before it ends, so the slots are in
    chronological order and do not overlap; the first slot starts at 09:00
    and the last one ends at 17:00 of that day. *)
Theorem GetAvailableTimeSlots_free_day (barberID : string) (date : Time)
    (db : Database) :
  healthy db ->
  (forall b, In b (bookings db) ->
     BarberID b = barberID ->
     unixNano (DateOfDay date 0) <= unixNano (StartTime b)
       < unixNano (DateOfDay date 0) + 24 * Hour ->
     Status b = BookingStatusCancelled) ->
  exists slots,
    fst (BookingService.GetAvailableTimeSlots barberID date db) = Ok slots
    /\ slots = specSlots 16 (DateOfDay date 9)
    /\ length slots = 16%nat
    /\ (forall i slot, slots !! i = Some slot ->
          unixNano (SlotStartTime slot)
            = unixNano (DateOfDay date 9) + Z.of_nat i * (30 * Minute)
          /\ SlotEndTime slot = Add (SlotStartTime slot) (30 * Minute))
    /\ (forall i a b, slots !! i = Some a -> slots !! S i = Some b ->
          SlotStartTime b = SlotEndTime a)
    /\ (forall i j a b, (i < j)%nat -> slots !! i = Some a -> slots !! j = Some b ->
          unixNano (SlotStartTime a) < unixNano (SlotStartTime b)
          /\ unixNano (SlotEndTime a) <= unixNano (SlotStartTime b))
    /\ (exists first, head slots = Some first
                      /\ SlotStartTime first = DateOfDay date 9)
    /\ (exists final, last slots = Some final
                      /\ SlotEndTime final = DateOfDay date 17).
Proof.
  intros Hh Hfree.
  exists (specSlots 16 (DateOfDay date 9)).
  split; [|split; [reflexivity|split; [reflexivity|]]].
  - unfold BookingService.GetAvailableTimeSlots, wrapping, bind, ret.
    simpl repository.GetBarberBookings.
    pose proof (GetBarberBookings_healthy barberID date db Hh) as Hday.
    destruct (MongoBookingRepository.GetBarberBookings _ _ db) as [r db'].
    cbn [fst] in Hday. subst r. cbn [fst]. f_equal.
    apply slots_all_available;
      [|unfold DateOfDay, slotDuration, Hour; cbn [unixNano]; lia].
    intros a b. apply isAvailable_all_cancelled.
    apply Forall_forall. intros x Hx. apply list_elem_of_In, List.filter_In in Hx.
    destruct Hx as (Hin & Hm).
    apply andb_true_iff in Hm as (Hm & H3). apply andb_true_iff in Hm as (H1 & H2).
    apply Hfree; [assumption | apply String.eqb_eq; assumption |].
    apply Z.leb_le in H2. apply Z.ltb_lt in H3. lia.
  - pose proof slotDuration_pos as Hd.
    assert (Hslot : slotDuration = 30 * Minute) by reflexivity.
    split; [|split; [|split; [|split]]].
    + intros i slot H. apply specSlots_lookup in H as (H1 & _ & H3).
      rewrite <- Hslot. auto.
    + intros i a b Ha Hb.
      apply specSlots_lookup in Ha as (A1 & A2 & A3).
      apply specSlots_lookup in Hb as (B1 & B2 & B3).
      rewrite A3. apply Time_eq; unfold Add; simpl; [lia | congruence].
    + intros i j a b Hij Ha Hb.
      apply specSlots_lookup in Ha as (A1 & A2 & A3).
      apply specSlots_lookup in Hb as (B1 & B2 & B3).
      rewrite A3. unfold Add. simpl. nia.
    + eexists. split; reflexivity.
    + eexists. split; [reflexivity|]. simpl.
      apply Time_eq; [|reflexivity]. unfold DateOfDay, Add. simpl.
      unfold slotDuration, Hour. lia.
Qed.

Lemma GetAvailableTimeSlots_free_day_witness :
  exists slots,
    fst (BookingService.GetAvailableTimeSlots "barber2" (at_ 13 20) db1) = Ok slots
    /\ length slots = 16%nat
    /\ head slots = Some (mkTimeSlot (at_ 9 0) (at_ 9 30))
    /\ last slots = Some (mkTimeSlot (at_ 16 30) (at_ 17 0)).
Proof.
  destruct (GetAvailableTimeSlots_free_day "barber2" (at_ 13 20) db1)
    as (slots & Hok & Heq & Hlen & _).
  - constructor.
  - intros b Hin Hbarber. simpl in Hin.
    destruct Hin as [<-|[<-|[<-|[]]]]; discriminate Hbarber.
  - exists slots. split; [exact Hok|]. split; [exact Hlen|].
    rewrite Heq. split; reflexivity.
Defined.

(* ===================================================================== *)
(** * The UpdateBooking handler *)
(* ===================================================================== *)

Lemma handler_steps (Parse : string -> option Time) (Format : Time -> string)
    (req : pb.UpdateBookingRequest) (db : Database) :
  BookingServer.UpdateBooking Parse Format req db
  = match BookingServer.updateArguments Parse req with
    | None => (StatusError InvalidArgument None, db)
    | Some (startTime, serviceType, notes) =>
        match BookingService.UpdateBooking (pb.Id req) startTime serviceType notes db with
        | (Err err, db') => (StatusError Internal (Some err), db')
        | (Ok None, db') => (NilDereference, db')
        | (Ok (Some booking), db') =>
            (Reply (BookingServer.convertBookingToProto Format booking), db')
        end
    end.
Proof.
  unfold BookingServer.UpdateBooking.
  destruct (BookingServer.updateArguments Parse req) as [[[st k] n]|]; reflexivity.
Qed.

(* The service kind the handler passes on is never haircut, and the notes
   it passes on are always those of the request. *)
Lemma updateArguments_shape (Parse : string -> option Time)
    (req : pb.UpdateBookingRequest)
    (startTime : option Time) (serviceType : option ServiceType)
    (notes : option string) :
  BookingServer.updateArguments Parse req = Some (startTime, serviceType, notes) ->
  notes = Some (pb.Notes req)
  /\ serviceType = (if pb.ServiceType req =? pb.ServiceType_HAIRCUT
                    then None else Some (pb.ServiceType req))
  /\ startTime = (if String.eqb (pb.StartTime req) "" then None
                  else Parse (pb.StartTime req)).
Proof.
  unfold BookingServer.updateArguments.
  destruct (String.eqb (pb.StartTime req) "").
  - intros [= <- <- <-]. destruct (pb.ServiceType req =? _); auto.
  - destruct (Parse (pb.StartTime req)); [|discriminate].
    intros [= <- <- <-]. destruct (pb.ServiceType req =? _); auto.
Qed.




(** C10.  The UpdateBooking handler always passes the notes of the
    request to the service, as a present value.  Whenever the handler
    answers with a booking, the notes of the answer and the notes of the
    stored booking are the notes string of the request, whatever the stored
    notes were; for a request that leaves notes out, whose notes string is
    empty, the stored notes become the empty string. *)
Theorem handler_overwrites_notes (Parse : string -> option Time)
    (Format : Time -> string) (req : pb.UpdateBookingRequest) (db : Database) :
  let outcome := BookingServer.UpdateBooking Parse Format req db in
  (forall startTime serviceType notes,
     BookingServer.updateArguments Parse req = Some (startTime, serviceType, notes) ->
     notes = Some (pb.Notes req))
  /\ (forall reply,
        fst outcome = Reply reply ->
        pb.BookingNotes reply = pb.Notes req
        /\ exists oid b',
             ObjectIDFromHex (pb.Id req) = Ok oid
             /\ stored (snd outcome) oid = Some b'
             /\ Notes b' = pb.Notes req
             /\ (pb.Notes req = "" -> Notes b' = "")).
Proof.
  intros outcome. split.
  - intros st k n Hargs. apply updateArguments_shape in Hargs. tauto.
  - intros reply Hreply. unfold outcome in *. rewrite handler_steps in *.
    destruct (BookingServer.updateArguments Parse req) as [[[st k] n]|] eqn:Hargs;
      [|discriminate].
    apply updateArguments_shape in Hargs as (-> & _ & _).
    destruct (BookingService.UpdateBooking _ _ _ _ db) as [[[booking|]|e] db'] eqn:Hout;
      try discriminate.
    simpl in Hreply. injection Hreply as <-. simpl snd.
    apply UpdateBooking_Ok_inv in Hout
      as (oid & existing & dbw & Hid & Hst & _ & Hb & ->).
    injection Hb as ->.
    pose proof (applySet_updatesOf existing st k (Some (pb.Notes req)) (clock db))
      as (_ & _ & _ & H4 & _).
    split; [exact H4|]. exists oid. eexists.
    split; [assumption|]. split.
    + unfold stored. simpl. rewrite find_updateFirst by (intros; apply applySet_ID).
      rewrite N.eqb_refl. fold (stored db oid). rewrite Hst. reflexivity.
    + split; [exact H4|]. intros Hempty. exact (eq_trans H4 Hempty).
Qed.

Lemma handler_overwrites_notes_witness :
  Notes booking1 = "fade"
  /\ exists b',
       stored (snd (BookingServer.UpdateBooking (fun _ => None) (fun _ => "")
                      (pb.mkUpdateBookingRequest id1 "" ServiceTypeBeardTrim "")
                      db0)) 1%N = Some b'
       /\ Notes b' = "".
Proof.
  split; [reflexivity|].
  destruct (handler_overwrites_notes (fun _ => None) (fun _ => "")
              (pb.mkUpdateBookingRequest id1 "" ServiceTypeBeardTrim "") db0)
    as (_ & Hreply).
  destruct (Hreply _ eq_refl) as (_ & oid & b' & Hid & Hb' & _ & Hempty).
  injection Hid as <-. exists b'. split; [exact Hb'|]. apply Hempty. reflexivity.
Defined.

(* ===================================================================== *)
(** * The invariant of the collection *)
(* ===================================================================== *)

Lemma repo_CreateBooking_fresh (booking b : Booking) (db db' : Database) :
  MongoBookingRepository.CreateBooking booking db = (Ok b, db') ->
  ~ In (ID b) (map ID (bookings db)).
Proof.
  unfold MongoBookingRepository.CreateBooking, InsertOne, driver, nextFails,
    NewObjectID, Now, wrapping, bind, ret.
  destruct (ID (MongoBookingRepository.stamped (clock db) booking) =? 0)%N;
    destruct (faults db) as [|[|] fs] eqn:Hf; simpl; rewrite ?Hf; simpl;
    try discriminate.
  all: match goal with |- context [existsb ?p ?l] => destruct (existsb p l) eqn:E end;
    simpl; try discriminate;
    intros [= <- <-]; simpl; intros Hin;
    apply in_map_iff in Hin as (c & Hc & Hcin);
    match type of E with
    | existsb ?p ?l = false =>
        assert (existsb p l = true) as E'
          by (apply List.existsb_exists; exists c;
              split; [assumption | simpl in *; rewrite Hc; apply N.eqb_refl])
    end;
    congruence.
Qed.

Lemma Forall_updateFirst (P : Booking -> Prop) (p : Booking -> bool)
    (f : Booking -> Booking) (l : list Booking) (x : Booking) :
  List.find p l = Some x -> Forall P l -> P (f x) -> Forall P (updateFirst p f l).
Proof.
  intros Hfind Hall Hx. induction Hall as [|b l Hb Hl IH]; simpl in *; [constructor|].
  destruct (p b).
  - injection Hfind as ->. constructor; assumption.
  - constructor; auto.
Qed.

Lemma wellFormed_CreateBooking (userID barberID : string) (startTime : Time)
    (serviceType : ServiceType) (notes : string) (db : Database) :
  wellFormed db ->
  wellFormed (snd (BookingService.CreateBooking userID barberID startTime
                     serviceType notes db)).
Proof.
  intros (Hnd & Hp). rewrite CreateBooking_steps.
  pose proof (GetBookingsInTimeRange_reads barberID startTime
                (CalculateEndTime startTime serviceType) db) as (Hread & _).
  destruct (MongoBookingRepository.GetBookingsInTimeRange _ _ _ db)
    as [[[|x found]|e] db1]; simpl in *;
    try (unfold wellFormed; rewrite Hread; split; assumption).
  destruct (MongoBookingRepository.CreateBooking _ db1) as [[b|e] db2] eqn:Hc; simpl.
  - pose proof (repo_CreateBooking_fresh _ _ _ _ Hc) as Hfresh.
    apply repo_CreateBooking_fields in Hc
      as (_ & _ & Hs & He & _ & _ & _ & _ & _ & Hstore).
    simpl in Hs, He. rewrite Hread in Hstore, Hfresh.
    unfold wellFormed. rewrite Hstore. split.
    + rewrite map_app. apply NoDup_app. split; [assumption|]. split.
      * intros y Hy [<-|[]]%list_elem_of_In. apply Hfresh, list_elem_of_In, Hy.
      * simpl. apply NoDup_singleton.
    + apply Forall_app. split; [assumption|]. constructor; [|constructor].
      unfold properInterval. rewrite Hs, He. apply CalculateEndTime_after.
  - apply repo_CreateBooking_failure in Hc. unfold wellFormed. rewrite Hc, Hread.
    split; assumption.
Qed.

Lemma wellFormed_UpdateBooking (id : string) (startTime : option Time)
    (serviceType : option ServiceType) (notes : option string) (db : Database) :
  wellFormed db ->
  wellFormed (snd (BookingService.UpdateBooking id startTime serviceType notes db)).
Proof.
  intros (Hnd & Hp).
  destruct (BookingService.UpdateBooking id startTime serviceType notes db)
    as [[r|e] db'] eqn:Hout; simpl.
  - apply UpdateBooking_Ok_inv in Hout
      as (oid & existing & dbw & _ & Hst & _ & _ & ->).
    unfold wellFormed. simpl. split.
    + rewrite map_ID_updateFirst by (intros; apply applySet_ID). assumption.
    + apply (Forall_updateFirst _ _ _ _ existing); [exact Hst | assumption |].
      pose proof (applySet_updatesOf existing startTime serviceType notes (clock db))
        as (H1 & _ & H3 & _).
      unfold properInterval. rewrite H1, H3.
      destruct (recomputes startTime serviceType) eqn:Hre.
      * apply CalculateEndTime_after.
      * destruct startTime, serviceType; try discriminate. simpl.
        apply stored_In in Hst as (Hin & _).
        rewrite Forall_forall in Hp. apply Hp, list_elem_of_In, Hin.
  - unfold wellFormed. rewrite (UpdateBooking_Err_unchanged _ _ _ _ _ _ _ Hout).
    split; assumption.
Qed.

Lemma wellFormed_CancelBooking (id : string) (db : Database) :
  wellFormed db -> wellFormed (snd (BookingService.CancelBooking id db)).
Proof.
  intros (Hnd & Hp).
  destruct (ObjectIDFromHex id) as [oid|e] eqn:Hid.
  2: { rewrite (CancelBooking_invalid id e db Hid). split; assumption. }
  rewrite (CancelBooking_valid id oid db Hid).
  destruct (nextFails db); [split; assumption|].
  destruct (stored db oid) as [b|] eqn:Hst; [|split; assumption].
  unfold wellFormed. simpl. split.
  - rewrite map_ID_updateFirst by (intros; apply applySet_ID). assumption.
  - apply (Forall_updateFirst _ _ _ _ b); [exact Hst | assumption |].
    apply stored_In in Hst as (Hin & _).
    rewrite Forall_forall in Hp. apply (Hp b), list_elem_of_In, Hin.
Qed.

(* ===================================================================== *)
(** * Worked examples *)
(* ===================================================================== *)

(* One booking 10:00-10:30 takes the slot 10:00-10:30 and no other. *)
Example slots_around_one_booking :
  fst (BookingService.GetAvailableTimeSlots "barber1" (at_ 13 0) db0)
  = Ok (specSlots 2 (at_ 9 0) ++ specSlots 13 (at_ 10 30)).
Proof. vm_compute. reflexivity. Qed.

(* One booking 10:15-10:45 takes the slots 10:00-10:30 and 10:30-11:00. *)
Example slots_around_a_straddling_booking :
  fst (BookingService.GetAvailableTimeSlots "barber1" (at_ 13 0) db4)
  = Ok (specSlots 2 (at_ 9 0) ++ specSlots 12 (at_ 11 0)).
Proof. vm_compute. reflexivity. Qed.

(* Create at 10:00; a second create at 10:15 conflicts; after the first
   booking is cancelled the second create succeeds. *)
Example create_conflict_cancel_create :
  let first := BookingService.CreateBooking "user1" "barber1" (at_ 10 0)
                 ServiceTypeHaircut "" emptyDb in
  let second := BookingService.CreateBooking "user2" "barber1" (at_ 10 15)
                  ServiceTypeBeardTrim "" (snd first) in
  let cancel := BookingService.CancelBooking "000000000000000000000004" (snd second) in
  let third := BookingService.CreateBooking "user2" "barber1" (at_ 10 15)
                 ServiceTypeBeardTrim "" (snd cancel) in
  isOk (fst first) = true
  /\ fst second = Err (errors_New "barber is not available at the requested time")
  /\ fst cancel = Ok true
  /\ isOk (fst third) = true.
Proof. vm_compute. repeat split; reflexivity. Qed.

(* The hexadecimal form of an identifier reads back as the identifier. *)
Example Hex_reads_back :
  Hex 1%N = id1 /\ ObjectIDFromHex (Hex 1%N) = Ok 1%N
  /\ ObjectIDFromHex "0123456789abcdefABCDEF00" = Ok 352125166730063720919985920%N.
Proof. vm_compute. repeat split; reflexivity. Qed.

(* ===================================================================== *)
(** * Object identifiers and their hexadecimal form *)
(* ===================================================================== *)

Lemma hexDigit_hexChar (d : N) : (d < 16)%N -> hexDigit (hexChar d) = Some d.
Proof.
  intros H. destruct d as [|p]; [reflexivity|].
  repeat (destruct p as [p|p|]; try reflexivity; try lia).
Qed.

Lemma length_hexDigits (n : nat) (o : N) (acc : string) :
  String.length (hexDigits n o acc) = (n + String.length acc)%nat.
Proof.
  revert o acc. induction n as [|n IH]; intros o acc; simpl; [reflexivity|].
  rewrite IH. simpl. lia.
Qed.

Lemma decodeHex_hexDigits (n : nat) (o : N) (acc : string) (a : N) :
  decodeHex (hexDigits n o acc) a
  = decodeHex acc (a * 16 ^ N.of_nat n + o mod 16 ^ N.of_nat n)%N.
Proof.
  revert o acc a. induction n as [|n IH]; intros o acc a.
  - simpl. rewrite N.mod_1_r. f_equal. lia.
  - cbn [hexDigits]. rewrite IH. cbn [decodeHex].
    rewrite hexDigit_hexChar by (apply N.mod_upper_bound; discriminate).
    f_equal. rewrite Nat2N.inj_succ, N.pow_succ_r'.
    rewrite (N.Div0.mod_mul_r o 16 (16 ^ N.of_nat n)). lia.
Qed.

Lemma decodeHex_bound (s : string) (a r : N) :
  decodeHex s a = Some r -> (r < (a + 1) * 16 ^ N.of_nat (String.length s))%N.
Proof.
  revert a. induction s as [|c s IH]; intros a; cbn [decodeHex String.length].
  - intros [= <-]. simpl. lia.
  - destruct (hexDigit c) as [d|] eqn:Hd; [|discriminate].
    intros H. apply IH in H.
    assert (d < 16)%N as Hlt.
    { unfold hexDigit in Hd. cbv zeta in Hd.
      repeat match type of Hd with
             | context [(?x <=? ?y)%N] => destruct (N.leb_spec x y)
             end; simpl in Hd; try discriminate; injection Hd as <-; lia. }
    rewrite Nat2N.inj_succ, N.pow_succ_r'. nia.
Qed.

Lemma ObjectIDFromHex_Hex (o : ObjectID) :
  (o < 2 ^ 96)%N -> ObjectIDFromHex (Hex o) = Ok o.
Proof.
  intros Ho. unfold ObjectIDFromHex, Hex.
  rewrite length_hexDigits. cbn [String.length Nat.add Nat.eqb].
  rewrite decodeHex_hexDigits. cbn [decodeHex].
  rewrite N.mul_0_l, N.add_0_l.
  rewrite N.mod_small; [reflexivity|].
  change (16 ^ N.of_nat 24)%N with (2 ^ 96)%N. exact Ho.
Qed.

Theorem Hex_round_trip :
  (forall o : ObjectID, (o < 2 ^ 96)%N -> ObjectIDFromHex (Hex o) = Ok o)
  /\ (forall (s : string) (o : ObjectID),
        ObjectIDFromHex s = Ok o ->
        String.length s = 24%nat /\ (o < 2 ^ 96)%N)
  /\ (forall s : string,
        String.length s <> 24%nat -> ObjectIDFromHex s = Err ErrInvalidHex).
Proof.
  split; [|split].
  - apply ObjectIDFromHex_Hex.
  - intros s o. unfold ObjectIDFromHex.
    destruct (Nat.eqb_spec (String.length s) 24) as [Hlen|]; [|discriminate].
    destruct (decodeHex s 0) as [r|] eqn:Hr; [|discriminate].
    intros [= <-]. split; [assumption|].
    apply decodeHex_bound in Hr. rewrite Hlen in Hr.
    change ((0 + 1) * 16 ^ N.of_nat 24)%N with (2 ^ 96)%N in Hr. exact Hr.
  - intros s Hs. unfold ObjectIDFromHex.
    destruct (Nat.eqb_spec (String.length s) 24); [contradiction | reflexivity].
Qed.

Lemma Hex_round_trip_witness :
  ObjectIDFromHex (Hex 3735928559%N) = Ok 3735928559%N
  /\ ObjectIDFromHex "65a1" = Err ErrInvalidHex.
Proof.
  destruct Hex_round_trip as (Hback & _ & Hshort).
  split; [apply Hback; reflexivity | apply Hshort; discriminate].
Defined.

(* ===================================================================== *)
(** * GetBooking, and reading back what was written *)
(* ===================================================================== *)

Lemma GetBooking_steps (id : string) (db : Database) :
  BookingService.GetBooking id db
  = match MongoBookingRepository.GetBookingByID id db with
    | (Err e, db') => (Err (errors_Wrap e "failed to get booking"), db')
    | (Ok None, db') => (Err (errors_New "booking not found"), db')
    | (Ok (Some b), db') => (Ok b, db')
    end.
Proof.
  unfold BookingService.GetBooking, wrapping, bind, ret, fail. simpl.
  destruct (MongoBookingRepository.GetBookingByID id db) as [[[b|]|e] db'];
    reflexivity.
Qed.

(** X1.  GetBooking only reads: it leaves the documents of the collection as
    they are. For a malformed id it fails with the parse error wrapped as
    'invalid booking ID format' and then 'failed to get booking', without a
    driver call; for a well-formed id it fails with the wrapped driver error
    if FindOne fails, fails with 'booking not found' if no document has that
    id, and otherwise returns the stored booking, whose identifier is the
    one the id denotes. *)
Theorem GetBooking_outcomes (id : string) (db : Database) :
  let outcome := BookingService.GetBooking id db in
  onlyRead db (snd outcome)
  /\ (forall e, ObjectIDFromHex id = Err e ->
        outcome = (Err (errors_Wrap (errors_Wrap e "invalid booking ID format")
                                    "failed to get booking"), db))
  /\ (forall oid, ObjectIDFromHex id = Ok oid ->
        (nextFails db = true ->
           fst outcome = Err (errors_Wrap (errors_Wrap ErrDriver "failed to get booking")
                                          "failed to get booking"))
        /\ (nextFails db = false ->
              fst outcome = match stored db oid with
                            | Some b => Ok b
                            | None => Err (errors_New "booking not found")
                            end))
  /\ (forall b, fst outcome = Ok b ->
        In b (bookings db) /\ ObjectIDFromHex id = Ok (ID b)).
Proof.
  intros outcome. unfold outcome. rewrite GetBooking_steps.
  pose proof (GetBookingByID_onlyRead id db) as Hread.
  split; [|split; [|split]].
  - destruct (MongoBookingRepository.GetBookingByID id db) as [[[b|]|e] db'];
      exact Hread.
  - intros e He. rewrite (GetBookingByID_invalid id e db He). reflexivity.
  - intros oid Hid. rewrite (GetBookingByID_valid id oid db Hid).
    split; intros ->; [reflexivity|]. destruct (stored db oid); reflexivity.
  - intros b. destruct (ObjectIDFromHex id) as [oid|e] eqn:Hid.
    + rewrite (GetBookingByID_valid id oid db Hid).
      destruct (nextFails db); [discriminate|].
      destruct (stored db oid) as [c|] eqn:Hst; [|discriminate].
      simpl. intros [= ->]. apply stored_In in Hst as (Hin & <-). auto.
    + rewrite (GetBookingByID_invalid id e db Hid). discriminate.
Qed.

Lemma GetBooking_outcomes_witness :
  fst (BookingService.GetBooking id2 db0) = Ok booking2
  /\ fst (BookingService.GetBooking id9 db0) = Err (errors_New "booking not found")
  /\ BookingService.GetBooking "nine" db0
     = (Err (errors_Wrap (errors_Wrap ErrInvalidHex "invalid booking ID format")
                         "failed to get booking"), db0).
Proof.
  split; [|split].
  - destruct (GetBooking_outcomes id2 db0) as (_ & _ & Hvalid & _).
    destruct (Hvalid 2%N eq_refl) as (_ & Hok). exact (Hok eq_refl).
  - destruct (GetBooking_outcomes id9 db0) as (_ & _ & Hvalid & _).
    destruct (Hvalid 9%N eq_refl) as (_ & Hok). exact (Hok eq_refl).
  - destruct (GetBooking_outcomes "nine" db0) as (_ & Hinvalid & _).
    exact (Hinvalid ErrInvalidHex eq_refl).
Defined.

Lemma repo_CreateBooking_ID (booking b : Booking) (db db' : Database) :
  ID booking = 0%N ->
  MongoBookingRepository.CreateBooking booking db = (Ok b, db') ->
  ID b = nextObjectID db /\ nextObjectID db' = N.succ (nextObjectID db).
Proof.
  intros Hzero.
  unfold MongoBookingRepository.CreateBooking, InsertOne, driver, nextFails,
    NewObjectID, Now, wrapping, bind, ret.
  replace (ID (MongoBookingRepository.stamped (clock db) booking)) with 0%N
    by (symmetry; exact Hzero).
  cbn [N.eqb].
  destruct (faults db) as [|[|] fs] eqn:Hf; simpl; rewrite ?Hf; simpl;
    try discriminate.
  all: match goal with |- context [existsb ?p ?l] => destruct (existsb p l) end;
    simpl; try discriminate; intros [= <- <-]; simpl; auto.
Qed.



Lemma asStoredTime_idempotent (t : Time) :
  asStoredTime (asStoredTime t) = asStoredTime t.
Proof.
  unfold asStoredTime. cbn [unixNano]. f_equal.
  rewrite Z.div_mul by discriminate. reflexivity.
Qed.

(* Reading back what was read back gives nothing new: the booking the
   driver returns, asStored of what was written, is kept as it is. *)
Lemma asStored_idempotent (b : Booking) : asStored (asStored b) = asStored b.
Proof.
  unfold asStored. cbn [ID UserID BarberID StartTime EndTime ServiceTypeOf Status
                        Notes CreatedAt UpdatedAt].
  rewrite !asStoredTime_idempotent. reflexivity.
Qed.



(* ===================================================================== *)
(** * What UpdateBooking returns *)
(* ===================================================================== *)



(** X4.  The UpdateBooking handler never passes a nil booking to
    convertBookingToProto. Every error it answers is either InvalidArgument
    without touching the service (the start time did not parse) or Internal
    with the service error as cause; it never answers NotFound, since its
    errors.Is test against a freshly made error is never true. *)
Theorem handler_never_dereferences_nil (Parse : string -> option Time)
    (Format : Time -> string) (req : pb.UpdateBookingRequest) (db : Database) :
  fst (BookingServer.UpdateBooking Parse Format req db) <> NilDereference
  /\ (forall c cause,
        fst (BookingServer.UpdateBooking Parse Format req db) = StatusError c cause ->
        (c = InvalidArgument /\ cause = None
         /\ BookingServer.updateArguments Parse req = None)
        \/ (c = Internal /\ exists e, cause = Some e)).
Proof.
  rewrite handler_steps.
  destruct (BookingServer.updateArguments Parse req) as [[[st k] n]|];
    [|split; [discriminate | intros c cause [= <- <-]; left; auto]].
  destruct (BookingService.UpdateBooking _ _ _ _ db) as [[r|e] db'] eqn:Hout.
  - apply UpdateBooking_Ok_inv in Hout as (oid & b & _ & _ & _ & _ & -> & _).
    split; [discriminate | intros c cause; discriminate].
  - split; [discriminate | intros c cause [= <- <-]; right; eauto].
Qed.

Lemma handler_never_dereferences_nil_witness :
  fst (BookingServer.UpdateBooking (fun _ => None) (fun _ => "")
         (pb.mkUpdateBookingRequest id9 "" 0 "") db0)
  <> NilDereference
  /\ fst (BookingServer.UpdateBooking (fun _ => None) (fun _ => "")
            (pb.mkUpdateBookingRequest id9 "" 0 "") db0)
     <> StatusError NotFound None.
Proof.
  destruct (handler_never_dereferences_nil (fun _ => None) (fun _ => "")
              (pb.mkUpdateBookingRequest id9 "" 0 "") db0) as (Hnil & Hcode).
  split; [exact Hnil|]. intros Heq.
  destruct (Hcode _ _ Heq) as [(Hc & _)|(Hc & _)]; discriminate Hc.
Defined.

(* ===================================================================== *)
(** * No barber is double-booked *)
(* ===================================================================== *)

Lemma specOverlap_comm (s1 e1 s2 e2 : Time) :
  specOverlap s1 e1 s2 e2 = specOverlap s2 e2 s1 e1.
Proof. unfold specOverlap. apply andb_comm. Qed.

(* The bookings of the collection after the first one with a given
   identifier has been rewritten. *)
Lemma In_updateFirst (oid : ObjectID) (f : Booking -> Booking)
    (l : list Booking) (x y : Booking) :
  NoDup (map ID l) ->
  List.find (matchesAll (byID oid)) l = Some x ->
  In y (updateFirst (matchesAll (byID oid)) f l) ->
  y = f x \/ (In y l /\ ID y <> oid).
Proof.
  intros Hnd. induction l as [|c l IH]; cbn [List.find updateFirst]; [discriminate|].
  inversion Hnd as [|c' l' Hnotin Hnd']; subst.
  rewrite matches_byID. destruct (N.eqb_spec (ID c) oid) as [Hc|Hc].
  - intros [= <-] [<-|Hy]; [left; reflexivity|]. right. split; [right; assumption|].
    intros Heq. apply Hnotin. rewrite Hc, <- Heq.
    apply list_elem_of_In, in_map, Hy.
  - intros Hfind [<-|Hy]; [right; split; [left; reflexivity | assumption]|].
    destruct (IH Hnd' Hfind Hy) as [->|(Hin & Hne)]; [left; reflexivity|].
    right. split; [right; assumption | assumption].
Qed.

(* A successful CreateBooking found no booking in the way. *)
Lemma CreateBooking_Ok_inv (userID barberID : string) (startTime : Time)
    (serviceType : ServiceType) (notes : string) (db db' : Database) (b : Booking) :
  BookingService.CreateBooking userID barberID startTime serviceType notes db
    = (Ok b, db') ->
  List.filter
    (matchesAll (MongoBookingRepository.rangeFilter barberID startTime
                   (CalculateEndTime startTime serviceType))) (bookings db) = []
  /\ bookings db' = bookings db ++ [b]
  /\ BarberID b = barberID
  /\ StartTime b = startTime
  /\ EndTime b = CalculateEndTime startTime serviceType
  /\ Status b = BookingStatusPending.
Proof.
  rewrite CreateBooking_steps, GetBookingsInTimeRange_cases.
  destruct (nextFails db); [discriminate|].
  destruct (nextFails _); [discriminate|].
  destruct (List.filter _ (bookings db)) as [|x found]; [|discriminate].
  destruct (MongoBookingRepository.CreateBooking _ _) as [[c|e] db2] eqn:Hc;
    [|discriminate].
  intros [= -> ->]. apply repo_CreateBooking_fields in Hc. simpl in Hc.
  tauto.
Qed.

(* A successful UpdateBooking that recomputed the end found no booking
   but the current one in the way. *)
Lemma UpdateBooking_Ok_checked (id : string) (startTime : option Time)
    (serviceType : option ServiceType) (notes : option string)
    (db db' : Database) (r : option Booking) (oid : ObjectID) (existing : Booking) :
  BookingService.UpdateBooking id startTime serviceType notes db = (Ok r, db') ->
  ObjectIDFromHex id = Ok oid ->
  stored db oid = Some existing ->
  recomputes startTime serviceType = true ->
  BookingService.filterOutCurrent (ID existing)
    (List.filter
       (matchesAll
          (MongoBookingRepository.rangeFilter (BarberID existing)
             (effectiveStart existing startTime)
             (CalculateEndTime (effectiveStart existing startTime)
                (effectiveKind existing serviceType))))
       (bookings db)) = [].
Proof.
  intros Hout Hid Hst Hre. revert Hout.
  rewrite UpdateBooking_steps, (GetBookingByID_valid id oid db Hid).
  destruct (nextFails db); [discriminate|].
  rewrite Hst. cbv zeta. rewrite Hre. rewrite GetBookingsInTimeRange_cases.
  destruct (nextFails _); [discriminate|].
  destruct (nextFails _); [discriminate|].
  cbn [bookings recorded].
  destruct (BookingService.filterOutCurrent _ _); [reflexivity | discriminate].
Qed.

Lemma CreateBooking_Err_unchanged (userID barberID : string) (startTime : Time)
    (serviceType : ServiceType) (notes : string) (db db' : Database) (e : error) :
  BookingService.CreateBooking userID barberID startTime serviceType notes db
    = (Err e, db') ->
  bookings db' = bookings db.
Proof.
  rewrite CreateBooking_steps.
  pose proof (GetBookingsInTimeRange_reads barberID startTime
                (CalculateEndTime startTime serviceType) db) as (Hread & _).
  destruct (MongoBookingRepository.GetBookingsInTimeRange _ _ _ db)
    as [[[|x found]|e0] db1]; cbn [snd] in Hread.
  - destruct (MongoBookingRepository.CreateBooking _ db1) as [[c|e1] db2] eqn:Hc;
      [discriminate|].
    intros [= _ <-]. rewrite (repo_CreateBooking_failure _ _ _ _ Hc). exact Hread.
  - intros [= _ <-]. exact Hread.
  - intros [= _ <-]. exact Hread.
Qed.

Lemma noDoubleBooking_CreateBooking (userID barberID : string) (startTime : Time)
    (serviceType : ServiceType) (notes : string) (db : Database) :
  wellFormed db -> noDoubleBooking db ->
  noDoubleBooking (snd (BookingService.CreateBooking userID barberID startTime
                          serviceType notes db)).
Proof.
  intros (Hnd & Hp) Hno.
  destruct (BookingService.CreateBooking userID barberID startTime serviceType
              notes db) as [[c|e] db'] eqn:Hout; cbn [snd].
  - apply CreateBooking_Ok_inv in Hout as (Hfree & Hstore & Hbarber & Hs & He & _).
    assert (Hclear : forall x, In x (bookings db) -> ~ doubleBooked x c).
    { intros x Hx (_ & Hxb & Hxs & _ & Hov).
      assert (matchesAll (MongoBookingRepository.rangeFilter barberID startTime
                (CalculateEndTime startTime serviceType)) x = true) as Hm.
      { rewrite rangeFilter_matches;
          [| rewrite Forall_forall in Hp; apply Hp, list_elem_of_In, Hx
           | apply CalculateEndTime_after].
        rewrite Hxb, Hbarber, String.eqb_refl. unfold specConflicts.
        rewrite Hs, He in Hov. rewrite Hov.
        destruct (Z.eqb_spec (Status x) BookingStatusCancelled);
          [contradiction | reflexivity]. }
      assert (In x (List.filter
                      (matchesAll (MongoBookingRepository.rangeFilter barberID
                         startTime (CalculateEndTime startTime serviceType)))
                      (bookings db))) as Hin
        by (apply List.filter_In; auto).
      rewrite Hfree in Hin. exact Hin. }
    intros a b Ha Hb Hdb. rewrite Hstore in Ha, Hb.
    apply in_app_iff in Ha as [Ha|[<-|[]]]; apply in_app_iff in Hb as [Hb|[<-|[]]].
    + exact (Hno a b Ha Hb Hdb).
    + exact (Hclear a Ha Hdb).
    + apply (Hclear b Hb). destruct Hdb as (H1 & H2 & H3 & H4 & H5).
      repeat split; try congruence. rewrite specOverlap_comm. exact H5.
    + destruct Hdb as (H1 & _). congruence.
  - intros a b Ha Hb. rewrite (CreateBooking_Err_unchanged _ _ _ _ _ _ _ _ Hout) in Ha, Hb.
    exact (Hno a b Ha Hb).
Qed.

Lemma noDoubleBooking_UpdateBooking (id : string) (startTime : option Time)
    (serviceType : option ServiceType) (notes : option string) (db : Database) :
  wellFormed db -> noDoubleBooking db ->
  noDoubleBooking (snd (BookingService.UpdateBooking id startTime serviceType
                          notes db)).
Proof.
  intros (Hnd & Hp) Hno.
  destruct (BookingService.UpdateBooking id startTime serviceType notes db)
    as [[r|e] db'] eqn:Hout; cbn [snd].
  2: { intros a b Ha Hb.
       rewrite (UpdateBooking_Err_unchanged _ _ _ _ _ _ _ Hout) in Ha, Hb.
       exact (Hno a b Ha Hb). }
  pose proof Hout as Hinv.
  apply UpdateBooking_Ok_inv in Hinv
    as (oid & existing & dbw & Hid & Hst & _ & _ & ->).
  set (updated := applySet (<["updatedAt" := VTime (clock db)]>
                              (updatesOf existing startTime serviceType notes))
                           existing).
  pose proof (applySet_updatesOf existing startTime serviceType notes (clock db))
    as (H1 & _ & H3 & _ & _ & H6 & _ & H8 & H9 & _).
  fold updated in H1, H3, H6, H8, H9.
  destruct (stored_In db oid existing Hst) as (Hex & Hoid).
  (* The rewritten booking is not in the way of any other booking. *)
  assert (Hclear : forall x, In x (bookings db) -> ID x <> oid ->
                             ~ doubleBooked updated x).
  { intros x Hx Hne (_ & Hb & Hs & Hxs & Hov).
    destruct (recomputes startTime serviceType) eqn:Hre.
    - pose proof (UpdateBooking_Ok_checked _ _ _ _ _ _ _ _ _ Hout Hid Hst Hre)
        as Hchecked.
      rewrite Hoid, conflict_set in Hchecked
        by (assumption || apply CalculateEndTime_after).
      assert (In x (List.filter
                (fun b => negb (ID b =? oid)%N
                          && String.eqb (BarberID b) (BarberID existing)
                          && specConflicts (effectiveStart existing startTime)
                               (CalculateEndTime (effectiveStart existing startTime)
                                  (effectiveKind existing serviceType)) b)
                (bookings db))) as Hin.
      { apply List.filter_In. split; [assumption|].
        apply andb_true_iff. split; [apply andb_true_iff; split|].
        - apply negb_true_iff, N.eqb_neq. assumption.
        - apply String.eqb_eq. congruence.
        - unfold specConflicts. rewrite specOverlap_comm, <- H3, <- H1, Hov.
          destruct (Z.eqb_spec (Status x) BookingStatusCancelled);
            [contradiction | reflexivity]. }
      rewrite Hchecked in Hin. exact Hin.
    - destruct startTime, serviceType; try discriminate Hre.
      cbn [effectiveStart] in H1.
      apply (Hno existing x Hex Hx).
      repeat split; congruence. }
  intros a b Ha Hb Hdb. cbn [bookings withBookings] in Ha, Hb.
  apply (In_updateFirst oid _ _ existing) in Ha; [|assumption|exact Hst].
  apply (In_updateFirst oid _ _ existing) in Hb; [|assumption|exact Hst].
  fold updated in Ha, Hb.
  destruct Ha as [->|(Ha & Hane)], Hb as [->|(Hb & Hbne)].
  - destruct Hdb as (Hne & _). congruence.
  - exact (Hclear b Hb Hbne Hdb).
  - apply (Hclear a Ha Hane). destruct Hdb as (D1 & D2 & D3 & D4 & D5).
    repeat split; try congruence. rewrite specOverlap_comm. exact D5.
  - exact (Hno a b Ha Hb Hdb).
Qed.

Lemma noDoubleBooking_CancelBooking (id : string) (db : Database) :
  wellFormed db -> noDoubleBooking db ->
  noDoubleBooking (snd (BookingService.CancelBooking id db)).
Proof.
  intros (Hnd & Hp) Hno.
  destruct (ObjectIDFromHex id) as [oid|e] eqn:Hid.
  2: { rewrite (CancelBooking_invalid id e db Hid). exact Hno. }
  rewrite (CancelBooking_valid id oid db Hid).
  destruct (nextFails db); [exact Hno|].
  destruct (stored db oid) as [existing|] eqn:Hst; [|exact Hno].
  intros a b Ha Hb Hdb. cbn [snd bookings withBookings] in Ha, Hb.
  apply (In_updateFirst oid _ _ existing) in Ha; [|assumption|exact Hst].
  apply (In_updateFirst oid _ _ existing) in Hb; [|assumption|exact Hst].
  destruct Hdb as (D1 & D2 & D3 & D4 & D5).
  destruct Ha as [->|(Ha & Hane)]; [apply D3; reflexivity|].
  destruct Hb as [->|(Hb & Hbne)]; [apply D4; reflexivity|].
  apply (Hno a b Ha Hb). repeat split; assumption.
Qed.

Lemma consistent_db1 : consistent db1.
Proof.
  split; [split|].
  - simpl. repeat (constructor;
                     [rewrite list_elem_of_In; simpl; intuition discriminate|]).
    constructor.
  - repeat constructor.
  - intros a b Ha Hb (D1 & D2 & D3 & D4 & D5). simpl in Ha, Hb.
    destruct Ha as [<-|[<-|[<-|[]]]]; destruct Hb as [<-|[<-|[<-|[]]]];
      solve [ apply D1; reflexivity | apply D3; reflexivity
            | apply D4; reflexivity | discriminate D5 ].
Qed.

(** X5.  If the collection is consistent (identifiers unique, every interval
    proper, and no two non-cancelled bookings of one barber overlapping), it
    is still consistent after any CreateBooking call, whether the call
    succeeds or fails (calls run one after another). *)
Theorem CreateBooking_keeps_consistent (userID barberID : string)
    (startTime : Time) (serviceType : ServiceType) (notes : string)
    (db : Database) :
  consistent db ->
  consistent (snd (BookingService.CreateBooking userID barberID startTime
                     serviceType notes db)).
Proof.
  intros (Hwf & Hno). split.
  - apply wellFormed_CreateBooking; assumption.
  - apply noDoubleBooking_CreateBooking; assumption.
Qed.

Lemma CreateBooking_keeps_consistent_witness :
  consistent (snd (BookingService.CreateBooking "user9" "barber1" (at_ 10 45)
                     ServiceTypeBeardTrim "" db1)).
Proof. apply CreateBooking_keeps_consistent. exact consistent_db1. Defined.

(** X6.  If the collection is consistent (identifiers unique, every interval
    proper, and no two non-cancelled bookings of one barber overlapping), it
    is still consistent after any UpdateBooking call, whatever the call
    supplies and whether it succeeds or fails (calls run one after another). *)
Theorem UpdateBooking_keeps_consistent (id : string) (startTime : option Time)
    (serviceType : option ServiceType) (notes : option string) (db : Database) :
  consistent db ->
  consistent (snd (BookingService.UpdateBooking id startTime serviceType notes db)).
Proof.
  intros (Hwf & Hno). split.
  - apply wellFormed_UpdateBooking; assumption.
  - apply noDoubleBooking_UpdateBooking; assumption.
Qed.

Lemma UpdateBooking_keeps_consistent_witness :
  consistent (snd (BookingService.UpdateBooking id3 (Some (at_ 9 45)) None None db1)).
Proof. apply UpdateBooking_keeps_consistent. exact consistent_db1. Defined.

(** X7.  If the collection is consistent (identifiers unique, every interval
    proper, and no two non-cancelled bookings of one barber overlapping), it
    is still consistent after any CancelBooking call. *)
Theorem CancelBooking_keeps_consistent (id : string) (db : Database) :
  consistent db -> consistent (snd (BookingService.CancelBooking id db)).
Proof.
  intros (Hwf & Hno). split.
  - apply wellFormed_CancelBooking; assumption.
  - apply noDoubleBooking_CancelBooking; assumption.
Qed.

Lemma CancelBooking_keeps_consistent_witness :
  consistent (snd (BookingService.CancelBooking id1 db1)).
Proof. apply CancelBooking_keeps_consistent. exact consistent_db1. Defined.

(* ===================================================================== *)
(** * Cancelling, and booking the freed interval *)
(* ===================================================================== *)




Lemma filter_nil {A} (p : A -> bool) (l : list A) :
  (forall x, In x l -> p x = false) -> List.filter p l = [].
Proof.
  induction l as [|a l IH]; intros H; [reflexivity|]. cbn [List.filter].
  rewrite (H a (or_introl eq_refl)). apply IH. intros x Hx. apply H. right. exact Hx.
Qed.

Lemma repo_CreateBooking_healthy (booking : Booking) (db : Database) :
  healthy db ->
  ID booking = 0%N ->
  (forall x, In x (bookings db) -> ID x <> nextObjectID db) ->
  exists db',
    MongoBookingRepository.CreateBooking booking db
    = (Ok (MongoBookingRepository.identified (nextObjectID db)
             (MongoBookingRepository.stamped (clock db) booking)), db').
Proof.
  intros Hh Hzero Hfresh.
  unfold MongoBookingRepository.CreateBooking, InsertOne, NewObjectID, Now,
    wrapping, bind, ret.
  replace (ID (MongoBookingRepository.stamped (clock db) booking)) with 0%N
    by (symmetry; exact Hzero).
  cbn [N.eqb].
  match goal with
  | |- context [driver ?c ?d] =>
      assert (healthy d) as Hd by exact Hh; rewrite (driver_healthy c d Hd)
  end.
  cbn [bookings recorded].
  match goal with |- context [existsb ?p ?l] => destruct (existsb p l) eqn:E end.
  - apply List.existsb_exists in E as (x & Hx & Hid). apply N.eqb_eq in Hid.
    exfalso. exact (Hfresh x Hx Hid).
  - eexists. reflexivity.
Qed.

Lemma CreateBooking_succeeds_free_helper (userID barberID : string)
    (startTime : Time) (serviceType : ServiceType) (notes : string)
    (db : Database) :
  healthy db ->
  Forall properInterval (bookings db) ->
  freshSupply db ->
  (forall x, In x (bookings db) -> BarberID x = barberID ->
             specConflicts startTime (CalculateEndTime startTime serviceType) x
             = false) ->
  exists b,
    fst (BookingService.CreateBooking userID barberID startTime serviceType
           notes db) = Ok b
    /\ b = mkBooking (nextObjectID db) userID barberID startTime
             (CalculateEndTime startTime serviceType) serviceType
             BookingStatusPending notes (clock db) (clock db)
    /\ bookings (snd (BookingService.CreateBooking userID barberID startTime
                        serviceType notes db)) = bookings db ++ [b].
Proof.
  intros Hh Hp Hfresh Hfree.
  rewrite CreateBooking_steps, (GetBookingsInTimeRange_healthy _ _ _ db Hh).
  assert (List.filter
            (matchesAll (MongoBookingRepository.rangeFilter barberID startTime
                           (CalculateEndTime startTime serviceType)))
            (bookings db) = []) as ->.
  { apply filter_nil. intros x Hx.
    rewrite rangeFilter_matches;
      [| rewrite Forall_forall in Hp; apply Hp, list_elem_of_In, Hx
       | apply CalculateEndTime_after].
    destruct (String.eqb_spec (BarberID x) barberID) as [Hb|Hb]; cbn [andb];
      [apply Hfree; assumption | reflexivity]. }
  set (db2 := recorded CallCursorAll _).
  destruct (repo_CreateBooking_healthy
              (mkBooking 0%N userID barberID startTime
                 (CalculateEndTime startTime serviceType) serviceType
                 BookingStatusPending notes zeroTime zeroTime) db2) as (db3 & Hc).
  - unfold db2. repeat apply healthy_recorded. exact Hh.
  - reflexivity.
  - intros x Hx Heq. apply Hfresh in Hx. cbn in Heq. lia.
  - rewrite Hc. cbn [fst snd]. eexists. split; [reflexivity|].
    split; [reflexivity|].
    apply repo_CreateBooking_fields in Hc. apply Hc.
Qed.

(** X9.  On a healthy store with proper intervals and an identifier supply
    ahead of the stored identifiers, if no non-cancelled booking of the
    barber overlaps [start, start + duration(kind)), CreateBooking succeeds:
    it returns a pending booking with the requested fields, the computed end
    and both timestamps equal to the time of the call, and appends exactly
    this booking to the collection. *)
Theorem CreateBooking_succeeds_when_free (userID barberID : string)
    (startTime : Time) (serviceType : ServiceType) (notes : string)
    (db : Database) :
  healthy db ->
  Forall properInterval (bookings db) ->
  freshSupply db ->
  (forall x, In x (bookings db) -> BarberID x = barberID ->
             specConflicts startTime (CalculateEndTime startTime serviceType) x
             = false) ->
  exists b,
    fst (BookingService.CreateBooking userID barberID startTime serviceType
           notes db) = Ok b
    /\ b = mkBooking (nextObjectID db) userID barberID startTime
             (CalculateEndTime startTime serviceType) serviceType
             BookingStatusPending notes (clock db) (clock db)
    /\ bookings (snd (BookingService.CreateBooking userID barberID startTime
                        serviceType notes db)) = bookings db ++ [b].
Proof. apply CreateBooking_succeeds_free_helper. Qed.

Lemma CreateBooking_succeeds_when_free_witness :
  exists b,
    fst (BookingService.CreateBooking "user9" "barber1" (at_ 10 30)
           ServiceTypeHaircut "" db0) = Ok b
    /\ ID b = 4%N
    /\ EndTime b = at_ 11 0.
Proof.
  destruct (CreateBooking_succeeds_when_free "user9" "barber1" (at_ 10 30)
              ServiceTypeHaircut "" db0) as (b & Hok & Hb & _).
  - constructor.
  - repeat constructor.
  - intros x [<-|[<-|[]]]; reflexivity.
  - intros x [<-|[<-|[]]] _; reflexivity.
  - exists b. split; [exact Hok|]. rewrite Hb. split; reflexivity.
Defined.

Lemma healthy_CancelBooking (id : string) (db : Database) :
  healthy db -> healthy (snd (BookingService.CancelBooking id db)).
Proof.
  intros Hh. destruct (ObjectIDFromHex id) as [oid|e] eqn:Hid.
  2: { rewrite (CancelBooking_invalid id e db Hid). exact Hh. }
  rewrite (CancelBooking_valid id oid db Hid), (healthy_nextFails db Hh).
  destruct (stored db oid); cbn [snd]; [|apply healthy_recorded; exact Hh].
  exact (healthy_recorded CallCursorAll db Hh).
Qed.

(** X10.  Cancelling a stored booking frees its time: on a healthy,
    well-formed store with an identifier supply ahead of the stored
    identifiers, if no booking of the barber other than the cancelled one
    conflicts with the requested interval, a CreateBooking for that interval
    after the CancelBooking succeeds, and the cancelled booking stays
    stored, with status cancelled. *)
Theorem CancelBooking_frees_the_interval (id : string) (oid : ObjectID)
    (cancelled : Booking) (userID barberID : string) (startTime : Time)
    (serviceType : ServiceType) (notes : string) (db : Database) :
  ObjectIDFromHex id = Ok oid ->
  stored db oid = Some cancelled ->
  healthy db ->
  wellFormed db ->
  freshSupply db ->
  (forall x, In x (bookings db) -> ID x <> oid -> BarberID x = barberID ->
             specConflicts startTime (CalculateEndTime startTime serviceType) x
             = false) ->
  let db' := snd (BookingService.CancelBooking id db) in
  exists b,
    fst (BookingService.CreateBooking userID barberID startTime serviceType
           notes db') = Ok b
    /\ StartTime b = startTime
    /\ EndTime b = CalculateEndTime startTime serviceType
    /\ Status b = BookingStatusPending
    /\ stored (snd (BookingService.CreateBooking userID barberID startTime
                      serviceType notes db')) oid
       = stored db' oid
    /\ (exists c, stored db' oid = Some c /\ Status c = BookingStatusCancelled).
Proof.
  intros Hid Hst Hh Hwf Hfresh Hfree db'.
  pose proof (healthy_CancelBooking id db Hh) as Hh'.
  pose proof (wellFormed_CancelBooking id db Hwf) as (Hnd' & Hp').
  fold db' in Hh', Hnd', Hp'.
  assert (Hdb' : bookings db'
                 = updateFirst (matchesAll (byID oid))
                     (applySet (<["status" := VInt BookingStatusCancelled]>
                                  (<["updatedAt" := VTime (clock db)]> ∅)))
                     (bookings db)
                 /\ nextObjectID db' = nextObjectID db).
  { unfold db'. rewrite (CancelBooking_valid id oid db Hid),
      (healthy_nextFails db Hh), Hst. split; reflexivity. }
  destruct Hdb' as (Hbookings & Hsupply).
  destruct Hwf as (Hnd & Hp).
  assert (Hc : stored db' oid
               = Some (applySet (<["status" := VInt BookingStatusCancelled]>
                                   (<["updatedAt" := VTime (clock db)]> ∅))
                                cancelled)).
  { unfold stored. rewrite Hbookings.
    rewrite find_updateFirst by (intros; apply applySet_ID).
    rewrite N.eqb_refl. fold (stored db oid). rewrite Hst. reflexivity. }
  destruct (CreateBooking_succeeds_free_helper userID barberID startTime
              serviceType notes db') as (b & Hok & Hb & Hstore).
  - exact Hh'.
  - exact Hp'.
  - intros x Hx. rewrite Hbookings in Hx. rewrite Hsupply.
    apply (In_updateFirst oid _ _ cancelled) in Hx; [|assumption|exact Hst].
    destruct Hx as [->|(Hx & _)]; [|apply Hfresh; assumption].
    rewrite applySet_ID. apply Hfresh. apply stored_In in Hst. tauto.
  - intros x Hx Hbarber. rewrite Hbookings in Hx.
    apply (In_updateFirst oid _ _ cancelled) in Hx; [|assumption|exact Hst].
    destruct Hx as [->|(Hx & Hne)]; [reflexivity | apply Hfree; assumption].
  - exists b. split; [exact Hok|]. rewrite Hb at 1 2 3. cbn [StartTime EndTime Status].
    repeat split.
    + unfold stored at 1. rewrite Hstore.
      assert (ID b <> oid) as Hne.
      { rewrite Hb. cbn [ID]. rewrite Hsupply. apply stored_In in Hst as (Hin & <-).
        apply Hfresh in Hin. lia. }
      clear - Hne. unfold stored.
      induction (bookings db') as [|x l IH]; cbn [List.find app].
      * rewrite matches_byID. destruct (N.eqb_spec (ID b) oid); [contradiction|reflexivity].
      * destruct (matchesAll (byID oid) x); [reflexivity | exact IH].
    + eexists. split; [exact Hc | reflexivity].
Qed.

Lemma CancelBooking_frees_the_interval_witness :
  fst (BookingService.CreateBooking "user9" "barber1" (at_ 10 15)
         ServiceTypeBeardTrim "" db0)
  = Err (errors_New "barber is not available at the requested time")
  /\ exists b,
       fst (BookingService.CreateBooking "user9" "barber1" (at_ 10 15)
              ServiceTypeBeardTrim ""
              (snd (BookingService.CancelBooking id1 db0))) = Ok b
       /\ EndTime b = at_ 10 30.
Proof.
  split; [reflexivity|].
  destruct (CancelBooking_frees_the_interval id1 1%N booking1 "user9" "barber1"
              (at_ 10 15) ServiceTypeBeardTrim "" db0)
    as (b & Hok & _ & Hend & _).
  - reflexivity.
  - reflexivity.
  - constructor.
  - split.
    + simpl. repeat (constructor;
                       [rewrite list_elem_of_In; simpl; intuition discriminate|]).
      constructor.
    + repeat constructor.
  - intros x [<-|[<-|[]]]; reflexivity.
  - intros x [<-|[<-|[]]] Hne _; [contradiction Hne; reflexivity | reflexivity].
  - exists b. split; [exact Hok|]. rewrite Hend. reflexivity.
Defined.

(* ===================================================================== *)
(** * The available slots of any day *)
(* ===================================================================== *)

Lemma slots_filter (bookings : list Booking) (workEnd : Time) (n : nat) :
  forall slotStart,
    unixNano workEnd = unixNano slotStart + Z.of_nat n * slotDuration ->
    BookingService.slots bookings workEnd slotStart
    = List.filter
        (fun slot => BookingService.isAvailable (SlotStartTime slot)
                       (SlotEndTime slot) bookings)
        (specSlots n slotStart).
Proof.
  pose proof slotDuration_pos as Hd.
  induction n as [|n IH]; intros slotStart Hend.
  - apply slots_done. unfold Before. apply Z.ltb_ge. lia.
  - rewrite slots_step by (unfold Before; apply Z.ltb_lt; nia).
    cbn [specSlots List.filter SlotStartTime SlotEndTime].
    rewrite IH by (unfold Add; cbn [unixNano]; lia).
    destruct (BookingService.isAvailable _ _ bookings); reflexivity.
Qed.

Lemma specSlots_In (n : nat) (start : Time) (slot : TimeSlot) :
  In slot (specSlots n start) ->
  SlotEndTime slot = Add (SlotStartTime slot) slotDuration.
Proof.
  revert start. induction n as [|n IH]; intros start; simpl; [intros []|].
  intros [<-|H]; [reflexivity | exact (IH _ H)].
Qed.

Lemma GetBarberBookings_cases (barberID : string) (date : option Time)
    (db : Database) :
  let filter :=
    match date with
    | Some d =>
        [FieldIs "barberId" (VString barberID);
         FieldOps "startTime"
           [(op_gte, VTime (DateOfDay d 0));
            (op_lt, VTime (Add (DateOfDay d 0) (24 * Hour)))]]
    | None => [FieldIs "barberId" (VString barberID)]
    end in
  let db1 := recorded (CallFind filter) db in
  let db2 := recorded CallCursorAll db1 in
  MongoBookingRepository.GetBarberBookings barberID date db
  = if nextFails db
    then (Err (errors_Wrap ErrDriver "failed to get barber bookings"), db1)
    else if nextFails db1
    then (Err (errors_Wrap ErrDriver "failed to decode bookings"), db2)
    else (Ok (List.filter (matchesAll filter) (bookings db)), db2).
Proof.
  intros filter db1 db2.
  unfold MongoBookingRepository.GetBarberBookings, Find, CursorAll, driver,
    wrapping, bind, ret.
  assert (Hf : (let filter0 := [FieldIs "barberId" (VString barberID)] in
                match date with
                | Some date0 =>
                    filter0 ++ [FieldOps "startTime"
                      [(op_gte, VTime (DateOfDay date0 0));
                       (op_lt, VTime (Add (DateOfDay date0 0) (24 * Hour)))]]
                | None => filter0
                end) = filter) by (destruct date; reflexivity).
  cbv zeta in Hf |- *. rewrite Hf. fold db1.
  destruct (nextFails db); cbn [fst snd]; [reflexivity|].
  fold db2. destruct (nextFails db1); reflexivity.
Qed.

Lemma GetAvailableTimeSlots_steps (barberID : string) (date : Time) (db : Database) :
  BookingService.GetAvailableTimeSlots barberID date db
  = match MongoBookingRepository.GetBarberBookings barberID
            (Some (DateOfDay date 0)) db with
    | (Err e, db') => (Err (errors_Wrap e "failed to get barber bookings"), db')
    | (Ok day, db') =>
        (Ok (BookingService.slots day (DateOfDay date 17) (DateOfDay date 9)), db')
    end.
Proof.
  unfold BookingService.GetAvailableTimeSlots, wrapping, bind, ret.
  simpl repository.GetBarberBookings.
  destruct (MongoBookingRepository.GetBarberBookings _ _ db) as [[day|e] db'];
    reflexivity.
Qed.

Lemma GetAvailableTimeSlots_onlyRead (barberID : string) (date : Time)
    (db : Database) :
  onlyRead db (snd (BookingService.GetAvailableTimeSlots barberID date db)).
Proof.
  rewrite GetAvailableTimeSlots_steps, GetBarberBookings_cases. cbv zeta.
  match goal with
  | |- context [recorded (CallFind ?f) db] =>
      assert (onlyRead db (recorded (CallFind f) db)) as Hr1
        by (apply onlyRead_recorded; reflexivity);
      assert (onlyRead db (recorded CallCursorAll (recorded (CallFind f) db))) as Hr2
        by (apply (onlyRead_trans db (recorded (CallFind f) db));
            [exact Hr1 | apply onlyRead_recorded; reflexivity])
  end.
  destruct (nextFails db); [exact Hr1|]. destruct (nextFails _); exact Hr2.
Qed.

Lemma GetAvailableTimeSlots_healthy_ok (barberID : string) (date : Time)
    (db : Database) :
  healthy db ->
  isOk (fst (BookingService.GetAvailableTimeSlots barberID date db)) = true.
Proof.
  intros Hh. rewrite GetAvailableTimeSlots_steps, GetBarberBookings_cases. cbv zeta.
  rewrite (healthy_nextFails db Hh).
  rewrite (healthy_nextFails _ (healthy_recorded _ db Hh)). reflexivity.
Qed.

(** X11.  GetAvailableTimeSlots only reads. Its only errors are the two
    wrapped driver errors of the day query. When it succeeds on a store with
    proper intervals, its answer is, in order, the sub-list of the 16
    half-hour slots from 09:00 to 17:00 of the date that no non-cancelled
    booking of the barber starting on that day overlaps; on a healthy store
    it always succeeds. *)
Theorem GetAvailableTimeSlots_is_the_free_part_of_the_grid (barberID : string)
    (date : Time) (db : Database) :
  let outcome := BookingService.GetAvailableTimeSlots barberID date db in
  let day := bookingsOfDay barberID date db in
  onlyRead db (snd outcome)
  /\ (forall e, fst outcome = Err e ->
        e = errors_Wrap (errors_Wrap ErrDriver "failed to get barber bookings")
                        "failed to get barber bookings"
        \/ e = errors_Wrap (errors_Wrap ErrDriver "failed to decode bookings")
                           "failed to get barber bookings")
  /\ (Forall properInterval (bookings db) ->
      forall slots, fst outcome = Ok slots ->
        slots = List.filter
                  (fun slot => negb (existsb (specConflicts (SlotStartTime slot)
                                                (SlotEndTime slot)) day))
                  (workingGrid date)
        /\ (forall slot, In slot slots <->
              In slot (workingGrid date)
              /\ forall b, In b day -> Status b <> BookingStatusCancelled ->
                   specOverlap (StartTime b) (EndTime b)
                     (SlotStartTime slot) (SlotEndTime slot) = false))
  /\ (healthy db -> isOk (fst outcome) = true).
Proof.
  intros outcome day. unfold outcome.
  rewrite GetAvailableTimeSlots_steps, GetBarberBookings_cases.
  cbv zeta. rewrite DateOfDay_midnight.
  set (filter := [FieldIs "barberId" (VString barberID); _]).
  set (db1 := recorded (CallFind filter) db).
  assert (Hr1 : onlyRead db db1) by (apply onlyRead_recorded; reflexivity).
  assert (Hr2 : onlyRead db (recorded CallCursorAll db1)).
  { apply (onlyRead_trans db db1); [exact Hr1 | apply onlyRead_recorded; reflexivity]. }
  assert (Hday : List.filter (matchesAll filter) (bookings db) = day).
  { unfold day, bookingsOfDay. apply List.filter_ext. intros b.
    apply dayFilter_matches. }
  split; [|split; [|split]].
  - destruct (nextFails db); [exact Hr1|]. destruct (nextFails db1); exact Hr2.
  - intros e. destruct (nextFails db); [intros [= <-]; auto|].
    destruct (nextFails db1); [intros [= <-]; auto | discriminate].
  - intros Hp slots.
    destruct (nextFails db); [discriminate|].
    destruct (nextFails db1); [discriminate|].
    cbn [fst]. intros [= <-]. rewrite Hday.
    assert (Hdayp : Forall properInterval day).
    { apply Forall_forall. intros b Hb. apply list_elem_of_In, List.filter_In in Hb.
      rewrite Forall_forall in Hp. apply Hp, list_elem_of_In, Hb. }
    assert (Heq : BookingService.slots day (DateOfDay date 17) (DateOfDay date 9)
                  = List.filter
                      (fun slot => negb (existsb (specConflicts (SlotStartTime slot)
                                                    (SlotEndTime slot)) day))
                      (workingGrid date)).
    { rewrite (slots_filter day (DateOfDay date 17) 16)
        by (unfold DateOfDay, slotDuration, Hour; cbn [unixNano]; lia).
      apply List.filter_ext_in. intros slot Hslot.
      apply isAvailable_conflicts; [exact Hdayp|].
      rewrite (specSlots_In _ _ _ Hslot). unfold Add. cbn [unixNano].
      pose proof slotDuration_pos. lia. }
    split; [exact Heq|]. intros slot. rewrite Heq, List.filter_In.
    apply and_iff_compat_l. rewrite negb_true_iff.
    split.
    + intros Hnone b Hb Hs. destruct (specOverlap _ _ _ _) eqn:Hov; [|reflexivity].
      assert (existsb (specConflicts (SlotStartTime slot) (SlotEndTime slot)) day
              = true) as Hyes.
      { apply List.existsb_exists. exists b. split; [assumption|].
        unfold specConflicts. rewrite Hov.
        destruct (Z.eqb_spec (Status b) BookingStatusCancelled);
          [contradiction | reflexivity]. }
      congruence.
    + intros Hall. destruct (existsb _ day) eqn:E; [|reflexivity].
      apply List.existsb_exists in E as (b & Hb & Hc).
      unfold specConflicts in Hc. apply andb_true_iff in Hc as (Hs & Hov).
      rewrite (Hall b Hb) in Hov; [discriminate|].
      apply negb_true_iff, Z.eqb_neq in Hs. exact Hs.
  - intros Hh. rewrite (healthy_nextFails db Hh).
    unfold db1. rewrite (healthy_nextFails _ (healthy_recorded _ db Hh)).
    reflexivity.
Qed.

Lemma GetAvailableTimeSlots_is_the_free_part_of_the_grid_witness :
  exists slots,
    fst (BookingService.GetAvailableTimeSlots "barber1" (at_ 13 0) db4) = Ok slots
    /\ length slots = 14%nat
    /\ ~ In (mkTimeSlot (at_ 10 30) (at_ 11 0)) slots.
Proof.
  destruct (GetAvailableTimeSlots_is_the_free_part_of_the_grid
              "barber1" (at_ 13 0) db4) as (_ & _ & Hgrid & _).
  destruct (BookingService.GetAvailableTimeSlots "barber1" (at_ 13 0) db4)
    as [r db'] eqn:Hout.
  vm_compute in Hout. injection Hout as <- <-.
  eexists. split; [reflexivity|]. split; [reflexivity|].
  destruct (Hgrid ltac:(repeat constructor) _ eq_refl) as (_ & Hin).
  intros Hslot. apply Hin in Hslot as (_ & Hfree).
  assert (In booking4 (bookingsOfDay "barber1" (at_ 13 0) db4)) as Hb
    by (vm_compute; left; reflexivity).
  specialize (Hfree booking4 Hb ltac:(discriminate)).
  vm_compute in Hfree. discriminate Hfree.
Defined.

(* ===================================================================== *)
(** * Listing bookings *)
(* ===================================================================== *)

Lemma GetUserBookings_cases (userID : string) (db : Database) :
  let filter := [FieldIs "userId" (VString userID)] in
  let db1 := recorded (CallFind filter) db in
  let db2 := recorded CallCursorAll db1 in
  BookingService.GetUserBookings userID db
  = if nextFails db
    then (Err (errors_Wrap (errors_Wrap ErrDriver "failed to get user bookings")
                           "failed to get user bookings"), db1)
    else if nextFails db1
    then (Err (errors_Wrap (errors_Wrap ErrDriver "failed to decode bookings")
                           "failed to get user bookings"), db2)
    else (Ok (List.filter (matchesAll filter) (bookings db)), db2).
Proof.
  intros filter db1 db2.
  unfold BookingService.GetUserBookings. simpl repository.GetUserBookings.
  unfold MongoBookingRepository.GetUserBookings, Find, CursorAll, driver,
    wrapping, bind, ret.
  fold filter. fold db1.
  destruct (nextFails db); cbn [fst snd]; [reflexivity|].
  fold db2. destruct (nextFails db1); reflexivity.
Qed.

Lemma userFilter_matches (userID : string) (b : Booking) :
  matchesAll [FieldIs "userId" (VString userID)] b = String.eqb (UserID b) userID.
Proof.
  unfold matchesAll. cbn. rewrite string_compare_Eq. apply andb_true_r.
Qed.

Lemma barberFilter_matches (barberID : string) (b : Booking) :
  matchesAll [FieldIs "barberId" (VString barberID)] b
  = String.eqb (BarberID b) barberID.
Proof.
  unfold matchesAll. cbn. rewrite string_compare_Eq. apply andb_true_r.
Qed.

(** X12.  GetUserBookings only reads, and when it succeeds it returns, in
    stored order, exactly the stored bookings whose userId is the given one,
    cancelled ones included; on a healthy store it succeeds. *)
Theorem GetUserBookings_lists_the_bookings_of_the_user (userID : string)
    (db : Database) :
  let outcome := BookingService.GetUserBookings userID db in
  onlyRead db (snd outcome)
  /\ (forall l, fst outcome = Ok l ->
        l = List.filter (fun b => String.eqb (UserID b) userID) (bookings db)
        /\ forall b, In b l <-> In b (bookings db) /\ UserID b = userID)
  /\ (healthy db -> isOk (fst outcome) = true).
Proof.
  intros outcome. unfold outcome. rewrite GetUserBookings_cases. cbv zeta.
  set (filter := [FieldIs "userId" (VString userID)]).
  set (db1 := recorded (CallFind filter) db).
  assert (Hr1 : onlyRead db db1) by (apply onlyRead_recorded; reflexivity).
  assert (Hr2 : onlyRead db (recorded CallCursorAll db1)).
  { apply (onlyRead_trans db db1); [exact Hr1 | apply onlyRead_recorded; reflexivity]. }
  split; [|split].
  - destruct (nextFails db); [exact Hr1|]. destruct (nextFails db1); exact Hr2.
  - intros l. destruct (nextFails db); [discriminate|].
    destruct (nextFails db1); [discriminate|]. cbn [fst]. intros [= <-].
    assert (Heq : List.filter (matchesAll filter) (bookings db)
                  = List.filter (fun b => String.eqb (UserID b) userID) (bookings db))
      by (apply List.filter_ext; intros b; apply userFilter_matches).
    split; [exact Heq|]. intros b. rewrite Heq, List.filter_In, String.eqb_eq.
    reflexivity.
  - intros Hh. rewrite (healthy_nextFails db Hh).
    unfold db1. rewrite (healthy_nextFails _ (healthy_recorded _ db Hh)). reflexivity.
Qed.

Lemma GetUserBookings_lists_the_bookings_of_the_user_witness :
  fst (BookingService.GetUserBookings "user2" db1) = Ok [booking2]
  /\ Status booking2 = BookingStatusCancelled.
Proof.
  destruct (GetUserBookings_lists_the_bookings_of_the_user "user2" db1)
    as (_ & Hlist & _).
  destruct (Hlist _ eq_refl) as (Heq & _).
  split; [exact (f_equal Ok Heq) | reflexivity].
Defined.

Lemma GetBarberBookings_steps (barberID : string) (date : option Time)
    (db : Database) :
  BookingService.GetBarberBookings barberID date db
  = match MongoBookingRepository.GetBarberBookings barberID date db with
    | (Err e, db') => (Err (errors_Wrap e "failed to get barber bookings"), db')
    | (Ok l, db') => (Ok l, db')
    end.
Proof.
  unfold BookingService.GetBarberBookings, wrapping, bind, ret.
  simpl repository.GetBarberBookings.
  destruct (MongoBookingRepository.GetBarberBookings _ _ db) as [[l|e] db'];
    reflexivity.
Qed.

(** X13.  GetBarberBookings only reads, and when it succeeds it returns
    exactly the stored bookings of the barber, cancelled ones included: all
    of them without a date, and with a date those whose start lies in
    [midnight of the date, midnight + 24 h) in the zone of the date. On a
    healthy store it succeeds. *)
Theorem GetBarberBookings_lists_the_day (barberID : string) (date : option Time)
    (db : Database) :
  let outcome := BookingService.GetBarberBookings barberID date db in
  onlyRead db (snd outcome)
  /\ (forall l, fst outcome = Ok l ->
        l = match date with
            | Some d => bookingsOfDay barberID d db
            | None => List.filter (fun b => String.eqb (BarberID b) barberID)
                                  (bookings db)
            end
        /\ forall b, In b l <->
             In b (bookings db) /\ BarberID b = barberID
             /\ match date with
                | Some d =>
                    unixNano (DateOfDay d 0) <= unixNano (StartTime b)
                      < unixNano (DateOfDay d 0) + 24 * Hour
                | None => True
                end)
  /\ (healthy db -> isOk (fst outcome) = true).
Proof.
  intros outcome. unfold outcome.
  rewrite GetBarberBookings_steps, GetBarberBookings_cases. cbv zeta.
  set (filter := match date with Some d => _ | None => _ end).
  set (db1 := recorded (CallFind filter) db).
  assert (Hr1 : onlyRead db db1) by (apply onlyRead_recorded; reflexivity).
  assert (Hr2 : onlyRead db (recorded CallCursorAll db1)).
  { apply (onlyRead_trans db db1); [exact Hr1 | apply onlyRead_recorded; reflexivity]. }
  split; [|split].
  - destruct (nextFails db); [exact Hr1|]. destruct (nextFails db1); exact Hr2.
  - intros l. destruct (nextFails db); [discriminate|].
    destruct (nextFails db1); [discriminate|]. cbn [fst]. intros [= <-].
    assert (Heq : List.filter (matchesAll filter) (bookings db)
                  = match date with
                    | Some d => bookingsOfDay barberID d db
                    | None => List.filter (fun b => String.eqb (BarberID b) barberID)
                                          (bookings db)
                    end).
    { unfold filter, bookingsOfDay. destruct date as [d|]; apply List.filter_ext;
        intros b; [apply dayFilter_matches | apply barberFilter_matches]. }
    split; [exact Heq|]. intros b. rewrite Heq. unfold bookingsOfDay.
    destruct date as [d|]; rewrite List.filter_In.
    + rewrite !andb_true_iff, String.eqb_eq, Z.leb_le, Z.ltb_lt. tauto.
    + rewrite String.eqb_eq. tauto.
  - intros Hh. rewrite (healthy_nextFails db Hh).
    unfold db1. rewrite (healthy_nextFails _ (healthy_recorded _ db Hh)). reflexivity.
Qed.

Lemma GetBarberBookings_lists_the_day_witness :
  fst (BookingService.GetBarberBookings "barber1" (Some (at_ 23 59)) db1)
  = Ok [booking1; booking2; booking3]
  /\ fst (BookingService.GetBarberBookings "barber1"
            (Some (Add (at_ 23 59) Minute)) db1) = Ok [].
Proof.
  split.
  - destruct (GetBarberBookings_lists_the_day "barber1" (Some (at_ 23 59)) db1)
      as (_ & Hlist & _).
    destruct (Hlist _ eq_refl) as (Heq & _). exact (f_equal Ok Heq).
  - destruct (GetBarberBookings_lists_the_day "barber1"
                (Some (Add (at_ 23 59) Minute)) db1) as (_ & Hlist & _).
    destruct (Hlist _ eq_refl) as (Heq & _). exact (f_equal Ok Heq).
Defined.

(* ===================================================================== *)
(** * The other handlers *)
(* ===================================================================== *)

(* The booking a successful CreateBooking returns. *)
Lemma CreateBooking_Ok_value (userID barberID : string) (startTime : Time)
    (serviceType : ServiceType) (notes : string) (db db' : Database) (b : Booking) :
  BookingService.CreateBooking userID barberID startTime serviceType notes db
    = (Ok b, db') ->
  b = mkBooking (nextObjectID db) userID barberID startTime
        (CalculateEndTime startTime serviceType) serviceType
        BookingStatusPending notes (clock db) (clock db).
Proof.
  rewrite CreateBooking_steps.
  pose proof (GetBookingsInTimeRange_reads barberID startTime
                (CalculateEndTime startTime serviceType) db) as (_ & Hclock & Hnext).
  destruct (MongoBookingRepository.GetBookingsInTimeRange _ _ _ db)
    as [[[|x found]|e] db1]; cbn [snd] in Hclock, Hnext; try discriminate.
  destruct (MongoBookingRepository.CreateBooking _ db1) as [[c|e] db2] eqn:Hc;
    [|discriminate].
  intros [= -> ->].
  pose proof Hc as Hid. apply repo_CreateBooking_ID in Hid as (Hid & _);
    [|reflexivity].
  apply repo_CreateBooking_fields in Hc
    as (H1 & H2 & H3 & H4 & H5 & H6 & H7 & H8 & H9 & _).
  cbn in H1, H2, H3, H4, H5, H6, H7.
  destruct b. cbn in *. congruence.
Qed.

(** X14.  The CreateBooking handler answers InvalidArgument, without
    touching the store, when the start time does not parse; otherwise it
    calls the service with the fields of the request, answers Internal with
    the cause for every service error (a conflict included), and on success
    replies with the created booking: the generated id in hexadecimal, the
    request's fields, the computed end, status pending and both timestamps
    at the time of the call. It never answers NotFound. *)
Theorem CreateBooking_handler_outcomes (Parse : string -> option Time)
    (Format : Time -> string) (req : pb.CreateBookingRequest) (db : Database) :
  let outcome := BookingServer.CreateBooking Parse Format req db in
  (Parse (pb.CreateStartTime req) = None ->
     outcome = (StatusError InvalidArgument None, db))
  /\ (forall t, Parse (pb.CreateStartTime req) = Some t ->
        let served :=
          BookingService.CreateBooking (pb.CreateUserId req) (pb.CreateBarberId req)
            t (pb.CreateServiceType req) (pb.CreateNotes req) db in
        snd outcome = snd served
        /\ (forall e, fst served = Err e ->
              fst outcome = StatusError Internal (Some e))
        /\ (forall b, fst served = Ok b ->
              fst outcome
              = Reply {| pb.BookingId := Hex (nextObjectID db);
                         pb.BookingUserId := pb.CreateUserId req;
                         pb.BookingBarberId := pb.CreateBarberId req;
                         pb.BookingStartTime := Format t;
                         pb.BookingEndTime :=
                           Format (CalculateEndTime t (pb.CreateServiceType req));
                         pb.BookingServiceType := pb.CreateServiceType req;
                         pb.BookingStatus := BookingStatusPending;
                         pb.BookingNotes := pb.CreateNotes req;
                         pb.BookingCreatedAt := Format (clock db);
                         pb.BookingUpdatedAt := Format (clock db) |}))
  /\ fst outcome <> NilDereference
  /\ (forall cause, fst outcome <> StatusError NotFound cause).
Proof.
  intros outcome. unfold outcome, BookingServer.CreateBooking.
  split; [|split; [|split]].
  - intros ->. reflexivity.
  - intros t ->. cbv zeta.
    destruct (BookingService.CreateBooking _ _ t _ _ db) as [[b|e] db'] eqn:Hout;
      cbn [fst snd].
    + split; [reflexivity|]. split; [discriminate|]. intros b0 [= <-].
      rewrite (CreateBooking_Ok_value _ _ _ _ _ _ _ _ Hout). reflexivity.
    + split; [reflexivity|]. split; [intros e0 [= <-]; reflexivity | discriminate].
  - destruct (Parse (pb.CreateStartTime req)) as [t|]; [|discriminate].
    cbv zeta. destruct (BookingService.CreateBooking _ _ t _ _ db) as [[b|e] db'];
      discriminate.
  - intros cause. destruct (Parse (pb.CreateStartTime req)) as [t|]; [|discriminate].
    cbv zeta. destruct (BookingService.CreateBooking _ _ t _ _ db) as [[b|e] db'];
      discriminate.
Qed.

Lemma CreateBooking_handler_outcomes_witness :
  BookingServer.CreateBooking (fun _ => None) (fun _ => "")
    (pb.mkCreateBookingRequest "user1" "barber1" "tomorrow" 0 "") db0
  = (StatusError InvalidArgument None, db0)
  /\ fst (BookingServer.CreateBooking (fun _ => Some (at_ 10 10)) (fun _ => "")
            (pb.mkCreateBookingRequest "user1" "barber1" "2024-01-01T10:10:00Z" 0 "")
            db0)
     = StatusError Internal
         (Some (errors_New "barber is not available at the requested time")).
Proof.
  split.
  - apply (CreateBooking_handler_outcomes (fun _ => None) (fun _ => "")
             (pb.mkCreateBookingRequest "user1" "barber1" "tomorrow" 0 "") db0).
    reflexivity.
  - destruct (CreateBooking_handler_outcomes (fun _ => Some (at_ 10 10))
                (fun _ => "")
                (pb.mkCreateBookingRequest "user1" "barber1"
                   "2024-01-01T10:10:00Z" 0 "") db0) as (_ & Hparsed & _).
    destruct (Hparsed (at_ 10 10) eq_refl) as (_ & Herr & _).
    apply Herr. reflexivity.
Defined.

(** X15.  The GetBooking handler only reads, and every error it answers has
    the code Internal, never NotFound: for a well-formed id with no stored
    booking it answers Internal with the cause 'booking not found', for a
    malformed id Internal with the wrapped parse error; for a stored
    booking, when the driver call does not fail, it replies with its
    conversion. *)
Theorem GetBooking_handler_outcomes (Format : Time -> string)
    (req : pb.GetBookingRequest) (db : Database) :
  let outcome := BookingServer.GetBooking Format req db in
  onlyRead db (snd outcome)
  /\ fst outcome <> NilDereference
  /\ (forall c cause, fst outcome = StatusError c cause -> c = Internal)
  /\ (forall oid, ObjectIDFromHex (pb.GetId req) = Ok oid ->
        nextFails db = false ->
        fst outcome
        = match stored db oid with
          | Some b => Reply (BookingServer.convertBookingToProto Format b)
          | None => StatusError Internal (Some (errors_New "booking not found"))
          end)
  /\ (forall e, ObjectIDFromHex (pb.GetId req) = Err e ->
        outcome
        = (StatusError Internal
             (Some (errors_Wrap (errors_Wrap e "invalid booking ID format")
                                "failed to get booking")), db)).
Proof.
  intros outcome. unfold outcome, BookingServer.GetBooking.
  rewrite GetBooking_steps.
  pose proof (GetBookingByID_onlyRead (pb.GetId req) db) as Hread.
  split; [|split; [|split; [|split]]].
  - destruct (MongoBookingRepository.GetBookingByID _ db) as [[[b|]|e] db'];
      exact Hread.
  - destruct (MongoBookingRepository.GetBookingByID _ db) as [[[b|]|e] db'];
      discriminate.
  - intros c cause.
    destruct (MongoBookingRepository.GetBookingByID _ db) as [[[b|]|e] db'];
      cbn; [discriminate | |]; intros [= <- _]; reflexivity.
  - intros oid Hid Hnext. rewrite (GetBookingByID_valid _ oid db Hid), Hnext.
    destruct (stored db oid); reflexivity.
  - intros e He. rewrite (GetBookingByID_invalid _ e db He). reflexivity.
Qed.

Lemma GetBooking_handler_outcomes_witness :
  fst (BookingServer.GetBooking (fun _ => "") (pb.mkGetBookingRequest id9) db0)
  = StatusError Internal (Some (errors_New "booking not found")).
Proof.
  destruct (GetBooking_handler_outcomes (fun _ => "") (pb.mkGetBookingRequest id9) db0)
    as (_ & _ & _ & Hvalid & _).
  exact (Hvalid 9%N eq_refl eq_refl).
Defined.

(** X16.  The CancelBooking handler answers only Internal errors, and then
    the collection is unchanged. A reply comes only for a well-formed id;
    its message is 'Booking cancelled successfully' when success is true and
    'Booking not found or already cancelled' otherwise; success true means
    the booking is stored with status cancelled, and an id with no stored
    booking gives success false and an unchanged collection. *)
Theorem CancelBooking_handler_outcomes (req : pb.CancelBookingRequest)
    (db : Database) :
  let outcome := BookingServer.CancelBooking req db in
  fst outcome <> NilDereference
  /\ (forall c cause, fst outcome = StatusError c cause ->
        c = Internal /\ bookings (snd outcome) = bookings db)
  /\ (forall resp, fst outcome = Reply resp ->
        pb.Message resp
        = (if pb.Success resp then "Booking cancelled successfully"
           else "Booking not found or already cancelled")
        /\ exists oid,
             ObjectIDFromHex (pb.CancelId req) = Ok oid
             /\ (pb.Success resp = true ->
                   exists b, stored (snd outcome) oid = Some b
                             /\ Status b = BookingStatusCancelled)
             /\ (stored db oid = None ->
                   pb.Success resp = false
                   /\ bookings (snd outcome) = bookings db)).
Proof.
  intros outcome. unfold outcome, BookingServer.CancelBooking.
  destruct (ObjectIDFromHex (pb.CancelId req)) as [oid|e] eqn:Hid.
  2: { rewrite (CancelBooking_invalid _ e db Hid).
       split; [discriminate|]. split; [|discriminate].
       intros c cause [= <- _]. auto. }
  rewrite (CancelBooking_valid _ oid db Hid).
  destruct (nextFails db).
  { split; [discriminate|]. split; [|discriminate].
    intros c cause [= <- _]. auto. }
  destruct (stored db oid) as [b|] eqn:Hst.
  - split; [discriminate|]. split; [discriminate|].
    intros resp [= <-]. cbn [pb.Message pb.Success fst snd].
    split; [reflexivity|]. exists oid. split; [reflexivity|].
    split; [|congruence]. intros _. eexists. split.
    + unfold stored. cbn [bookings withBookings].
      rewrite find_updateFirst by (intros; apply applySet_ID).
      rewrite N.eqb_refl. fold (stored db oid). rewrite Hst. reflexivity.
    + reflexivity.
  - split; [discriminate|]. split; [discriminate|].
    intros resp [= <-]. cbn [pb.Message pb.Success fst snd].
    split; [reflexivity|]. exists oid. split; [reflexivity|].
    split; [discriminate|]. auto.
Qed.

Lemma CancelBooking_handler_outcomes_witness :
  fst (BookingServer.CancelBooking (pb.mkCancelBookingRequest id9) db0)
  = Reply (pb.mkCancelBookingResponse false "Booking not found or already cancelled")
  /\ exists b,
       stored (snd (BookingServer.CancelBooking (pb.mkCancelBookingRequest id1) db0))
              1%N = Some b
       /\ Status b = BookingStatusCancelled.
Proof.
  split; [reflexivity|].
  destruct (CancelBooking_handler_outcomes (pb.mkCancelBookingRequest id1) db0)
    as (_ & _ & Hreply).
  destruct (Hreply _ eq_refl) as (_ & oid & Hid & Hdone & _).
  injection Hid as <-. exact (Hdone eq_refl).
Defined.

Lemma GetBarberBookings_healthy_value (barberID : string) (date : option Time)
    (db : Database) :
  healthy db ->
  fst (BookingService.GetBarberBookings barberID date db)
  = Ok match date with
       | Some d => bookingsOfDay barberID d db
       | None => List.filter (fun b => String.eqb (BarberID b) barberID)
                             (bookings db)
       end.
Proof.
  intros Hh. rewrite GetBarberBookings_steps, GetBarberBookings_cases. cbv zeta.
  rewrite (healthy_nextFails db Hh).
  rewrite (healthy_nextFails _ (healthy_recorded _ db Hh)). cbn [fst]. f_equal.
  unfold bookingsOfDay. destruct date as [d|]; apply List.filter_ext; intros b;
    [apply dayFilter_matches | apply barberFilter_matches].
Qed.

Lemma GetBarberBookings_onlyRead (barberID : string) (date : option Time)
    (db : Database) :
  onlyRead db (snd (BookingService.GetBarberBookings barberID date db)).
Proof.
  rewrite GetBarberBookings_steps, GetBarberBookings_cases. cbv zeta.
  match goal with
  | |- context [recorded (CallFind ?f) db] =>
      assert (onlyRead db (recorded (CallFind f) db)) as Hr1
        by (apply onlyRead_recorded; reflexivity);
      assert (onlyRead db (recorded CallCursorAll (recorded (CallFind f) db))) as Hr2
        by (apply (onlyRead_trans db (recorded (CallFind f) db));
            [exact Hr1 | apply onlyRead_recorded; reflexivity])
  end.
  destruct (nextFails db); [exact Hr1|]. destruct (nextFails _); exact Hr2.
Qed.

(** X18.  The GetBarberBookings handler only reads. A non-empty date that
    does not parse gives InvalidArgument without touching the store; an
    empty date means no date filter: on a healthy store the reply lists the
    conversions of all stored bookings of the barber, and with a parsed date
    those of the bookings of the barber that start on that day. *)
Theorem GetBarberBookings_handler_outcomes (Format : Time -> string)
    (ParseDate : string -> option Time) (req : pb.GetBarberBookingsRequest)
    (db : Database) :
  let outcome := BookingServer.GetBarberBookings Format ParseDate req db in
  onlyRead db (snd outcome)
  /\ (pb.ListDate req <> "" -> ParseDate (pb.ListDate req) = None ->
        outcome = (StatusError InvalidArgument None, db))
  /\ (pb.ListDate req = "" -> healthy db ->
        fst outcome
        = Reply (pb.mkBookingList
                   (map (BookingServer.convertBookingToProto Format)
                      (List.filter
                         (fun b => String.eqb (BarberID b) (pb.ListBarberId req))
                         (bookings db)))))
  /\ (forall d, pb.ListDate req <> "" -> ParseDate (pb.ListDate req) = Some d ->
        healthy db ->
        fst outcome
        = Reply (pb.mkBookingList
                   (map (BookingServer.convertBookingToProto Format)
                      (bookingsOfDay (pb.ListBarberId req) d db)))).
Proof.
  intros outcome. unfold outcome, BookingServer.GetBarberBookings.
  split; [|split; [|split]].
  - destruct (String.eqb (pb.ListDate req) "");
      [|destruct (ParseDate (pb.ListDate req)); [|apply onlyRead_refl]].
    + pose proof (GetBarberBookings_onlyRead (pb.ListBarberId req) None db) as Hr.
      destruct (BookingService.GetBarberBookings _ None db) as [[l|e] db']; exact Hr.
    + pose proof (GetBarberBookings_onlyRead (pb.ListBarberId req) (Some t) db) as Hr.
      destruct (BookingService.GetBarberBookings _ (Some t) db) as [[l|e] db'];
        exact Hr.
  - intros Hne Hparse.
    destruct (String.eqb_spec (pb.ListDate req) ""); [contradiction|].
    rewrite Hparse. reflexivity.
  - intros Hempty Hh. rewrite Hempty. cbn [String.eqb].
    pose proof (GetBarberBookings_healthy_value (pb.ListBarberId req) None db Hh) as Hv.
    destruct (BookingService.GetBarberBookings _ None db) as [r db'].
    cbn [fst] in Hv. subst r. reflexivity.
  - intros d Hne Hparse Hh.
    destruct (String.eqb_spec (pb.ListDate req) ""); [contradiction|].
    rewrite Hparse.
    pose proof (GetBarberBookings_healthy_value (pb.ListBarberId req) (Some d) db Hh)
      as Hv.
    destruct (BookingService.GetBarberBookings _ (Some d) db) as [r db'].
    cbn [fst] in Hv. subst r. reflexivity.
Qed.

Lemma GetBarberBookings_handler_outcomes_witness :
  BookingServer.GetBarberBookings (fun _ => "") (fun _ => None)
    (pb.mkGetBarberBookingsRequest "barber1" "01/01/2024") db0
  = (StatusError InvalidArgument None, db0)
  /\ exists l,
       fst (BookingServer.GetBarberBookings (fun _ => "") (fun _ => None)
              (pb.mkGetBarberBookingsRequest "barber1" "") db0)
       = Reply (pb.mkBookingList l)
       /\ length l = 2%nat.
Proof.
  split.
  - apply (GetBarberBookings_handler_outcomes (fun _ => "") (fun _ => None)
             (pb.mkGetBarberBookingsRequest "barber1" "01/01/2024") db0);
      [discriminate | reflexivity].
  - destruct (GetBarberBookings_handler_outcomes (fun _ => "") (fun _ => None)
                (pb.mkGetBarberBookingsRequest "barber1" "") db0)
      as (_ & _ & Hall & _).
    eexists. split; [apply Hall; [reflexivity | constructor]|]. reflexivity.
Defined.

(** X19.  The GetAvailableTimeSlots handler only reads. A date that does not
    parse gives InvalidArgument without touching the store; a reply holds at
    most 16 slots, each the formatted start and end (start + 30 min) of a
    slot of the 09:00 to 17:00 grid of the parsed date; on a healthy store a
    parsed date always gets a reply. *)
Theorem GetAvailableTimeSlots_handler_outcomes (Format : Time -> string)
    (ParseDate : string -> option Time) (req : pb.GetAvailableTimeSlotsRequest)
    (db : Database) :
  let outcome := BookingServer.GetAvailableTimeSlots Format ParseDate req db in
  onlyRead db (snd outcome)
  /\ (ParseDate (pb.SlotsDate req) = None ->
        outcome = (StatusError InvalidArgument None, db))
  /\ (forall d answer,
        ParseDate (pb.SlotsDate req) = Some d ->
        fst outcome = Reply answer ->
        (length (pb.TimeSlots answer) <= 16)%nat
        /\ forall slot, In slot (pb.TimeSlots answer) ->
             exists start,
               In (mkTimeSlot start (Add start (30 * Minute))) (workingGrid d)
               /\ slot = pb.mkTimeSlot (Format start)
                           (Format (Add start (30 * Minute))))
  /\ (forall d, ParseDate (pb.SlotsDate req) = Some d -> healthy db ->
        exists answer, fst outcome = Reply answer).
Proof.
  intros outcome. unfold outcome, BookingServer.GetAvailableTimeSlots.
  split; [|split; [|split]].
  - destruct (ParseDate (pb.SlotsDate req)) as [d|]; [|apply onlyRead_refl].
    pose proof (GetAvailableTimeSlots_onlyRead (pb.SlotsBarberId req) d db) as Hr.
    destruct (BookingService.GetAvailableTimeSlots _ d db) as [[l|e] db']; exact Hr.
  - intros ->. reflexivity.
  - intros d answer ->. rewrite GetAvailableTimeSlots_steps.
    destruct (MongoBookingRepository.GetBarberBookings _ _ db) as [[day|e] db'];
      [|discriminate].
    cbn [fst]. intros [= <-]. cbn [pb.TimeSlots].
    rewrite (slots_filter day (DateOfDay d 17) 16)
      by (unfold DateOfDay, slotDuration, Hour; cbn [unixNano]; lia).
    split.
    + rewrite length_map.
      etransitivity; [apply List.filter_length_le|].
      rewrite specSlots_length. reflexivity.
    + intros slot Hslot. apply in_map_iff in Hslot as (s & <- & Hs).
      apply List.filter_In in Hs as (Hs & _).
      pose proof (specSlots_In _ _ _ Hs) as Hend.
      exists (SlotStartTime s). split; [|rewrite Hend; reflexivity].
      change (30 * Minute) with slotDuration. rewrite <- Hend.
      destruct s. exact Hs.
  - intros d -> Hh.
    pose proof (GetAvailableTimeSlots_healthy_ok (pb.SlotsBarberId req) d db Hh) as Hok.
    destruct (BookingService.GetAvailableTimeSlots _ d db) as [[l|e] db'];
      [eexists; reflexivity | discriminate Hok].
Qed.

Lemma GetAvailableTimeSlots_handler_outcomes_witness :
  BookingServer.GetAvailableTimeSlots (fun _ => "") (fun _ => None)
    (pb.mkGetAvailableTimeSlotsRequest "barber1" "monday") db0
  = (StatusError InvalidArgument None, db0)
  /\ exists answer,
       fst (BookingServer.GetAvailableTimeSlots (fun _ => "")
              (fun _ => Some (at_ 0 0))
              (pb.mkGetAvailableTimeSlotsRequest "barber1" "2024-01-01") db0)
       = Reply answer
       /\ (length (pb.TimeSlots answer) <= 16)%nat.
Proof.
  split.
  - apply (GetAvailableTimeSlots_handler_outcomes (fun _ => "") (fun _ => None)
             (pb.mkGetAvailableTimeSlotsRequest "barber1" "monday") db0).
    reflexivity.
  - destruct (GetAvailableTimeSlots_handler_outcomes (fun _ => "")
                (fun _ => Some (at_ 0 0))
                (pb.mkGetAvailableTimeSlotsRequest "barber1" "2024-01-01") db0)
      as (_ & _ & Hslots & Hok).
    destruct (Hok (at_ 0 0) eq_refl ltac:(constructor)) as (answer & Hanswer).
    exists answer. split; [exact Hanswer|].
    exact (proj1 (Hslots (at_ 0 0) answer eq_refl Hanswer)).
Defined.

(** X17.  The GetUserBookings handler only reads; an error answer has the
    code Internal and comes only from a failing driver call; a reply lists
    the conversions of the stored bookings of the user, in stored order, and
    on a healthy store the handler replies. *)
Theorem GetUserBookings_handler_outcomes (Format : Time -> string)
    (req : pb.GetUserBookingsRequest) (db : Database) :
  let outcome := BookingServer.GetUserBookings Format req db in
  onlyRead db (snd outcome)
  /\ (forall c cause, fst outcome = StatusError c cause ->
        c = Internal /\ ~ healthy db)
  /\ (forall answer, fst outcome = Reply answer ->
        pb.Bookings answer
        = map (BookingServer.convertBookingToProto Format)
            (List.filter (fun b => String.eqb (UserID b) (pb.ListUserId req))
               (bookings db)))
  /\ (healthy db -> exists answer, fst outcome = Reply answer).
Proof.
  intros outcome. unfold outcome, BookingServer.GetUserBookings.
  rewrite GetUserBookings_cases. cbv zeta.
  set (filter := [FieldIs "userId" (VString (pb.ListUserId req))]).
  set (db1 := recorded (CallFind filter) db).
  assert (Hr1 : onlyRead db db1) by (apply onlyRead_recorded; reflexivity).
  assert (Hr2 : onlyRead db (recorded CallCursorAll db1)).
  { apply (onlyRead_trans db db1); [exact Hr1 | apply onlyRead_recorded; reflexivity]. }
  assert (Hh1 : healthy db -> nextFails db = false /\ nextFails db1 = false).
  { intros Hh. split; [exact (healthy_nextFails db Hh)|].
    exact (healthy_nextFails _ (healthy_recorded _ db Hh)). }
  destruct (nextFails db) eqn:Hf; [|destruct (nextFails db1) eqn:Hf1]; cbn [fst snd].
  - split; [exact Hr1|]. split; [|split].
    + intros c cause [= <- _]. split; [reflexivity|].
      intros Hh. destruct (Hh1 Hh). discriminate.
    + intros answer. discriminate.
    + intros Hh. destruct (Hh1 Hh). discriminate.
  - split; [exact Hr2|]. split; [|split].
    + intros c cause [= <- _]. split; [reflexivity|].
      intros Hh. destruct (Hh1 Hh). discriminate.
    + intros answer. discriminate.
    + intros Hh. destruct (Hh1 Hh). discriminate.
  - split; [exact Hr2|]. split; [|split].
    + intros c cause. discriminate.
    + intros answer [= <-]. cbn [pb.Bookings]. f_equal.
      apply List.filter_ext. intros b. apply userFilter_matches.
    + intros _. eexists. reflexivity.
Qed.

Lemma GetUserBookings_handler_outcomes_witness :
  exists answer,
    fst (BookingServer.GetUserBookings (fun _ => "t")
           (pb.mkGetUserBookingsRequest "user2") db1) = Reply answer
    /\ map pb.BookingId (pb.Bookings answer) = ["000000000000000000000002"].
Proof.
  destruct (GetUserBookings_handler_outcomes (fun _ => "t")
              (pb.mkGetUserBookingsRequest "user2") db1)
    as (_ & _ & Hlist & Hok).
  destruct (Hok ltac:(constructor)) as (answer & Hanswer).
  exists answer. split; [exact Hanswer|].
  rewrite (Hlist answer Hanswer). reflexivity.
Defined.

(* ===================================================================== *)
(** * The bearer token and the interceptor *)
(* ===================================================================== *)

Lemma Split_not_nil (s : string) (sep : Ascii.ascii) : Split s sep <> [].
Proof.
  destruct s as [|c s]; cbn [Split]; [discriminate|].
  destruct (Ascii.eqb c sep); [discriminate|].
  destruct (Split s sep); discriminate.
Qed.

Lemma Split_whole (s : string) (sep : Ascii.ascii) :
  hasNo sep s -> Split s sep = [s].
Proof.
  unfold hasNo. induction s as [|c s IH]; cbn [Split String.list_ascii_of_string];
    [reflexivity|].
  intros Hno. destruct (Ascii.eqb_spec c sep) as [->|Hc].
  - exfalso. apply Hno. left. reflexivity.
  - rewrite IH; [reflexivity|]. intros Hin. apply Hno. right. exact Hin.
Qed.

Lemma append_nil (s : string) : String.append "" s = s.
Proof. reflexivity. Qed.

Lemma append_cons (c : Ascii.ascii) (a s : string) :
  String.append (String c a) s = String c (String.append a s).
Proof. reflexivity. Qed.

Lemma Split_append (a b : string) (sep : Ascii.ascii) :
  hasNo sep a ->
  Split (String.append a (String sep b)) sep = a :: Split b sep.
Proof.
  unfold hasNo. induction a as [|c a IH];
    rewrite ?append_nil, ?append_cons;
    cbn [Split String.list_ascii_of_string]; intros Hno.
  - rewrite Ascii.eqb_refl. reflexivity.
  - destruct (Ascii.eqb_spec c sep) as [->|Hc].
    + exfalso. apply Hno. left. reflexivity.
    + rewrite IH; [reflexivity|]. intros Hin. apply Hno. right. exact Hin.
Qed.

Lemma Split_cons_inv (s : string) (sep : Ascii.ascii) (a : string)
    (rest : list string) :
  Split s sep = a :: rest ->
  hasNo sep a
  /\ ((rest = [] /\ s = a)
      \/ exists s', s = String.append a (String sep s') /\ Split s' sep = rest).
Proof.
  unfold hasNo. revert a rest.
  induction s as [|c s IH]; intros a rest; cbn [Split].
  - intros [= <- <-]. split; [intros []|]. left. auto.
  - destruct (Ascii.eqb_spec c sep) as [->|Hc].
    + intros [= <- <-]. split; [intros []|]. right. exists s. auto.
    + destruct (Split s sep) as [|piece pieces] eqn:Hs;
        [exfalso; exact (Split_not_nil s sep Hs)|].
      intros [= <- <-]. destruct (IH piece pieces eq_refl) as (Hno & Hcase).
      split.
      * cbn [String.list_ascii_of_string]. intros [Heq|Hin]; [congruence | exact (Hno Hin)].
      * destruct Hcase as [(-> & ->)|(s' & -> & Hs')]; [left; auto|].
        right. exists s'. auto.
Qed.

Lemma ToLower_hasNo_space (s : string) :
  hasNo Ascii.Space (ToLower s) -> hasNo Ascii.Space s.
Proof.
  unfold hasNo. induction s as [|c s IH]; cbn [ToLower String.list_ascii_of_string];
    [auto|].
  intros Hno [Hc|Hin].
  - apply Hno. left. rewrite Hc. reflexivity.
  - apply IH; [|exact Hin]. intros H. apply Hno. right. exact H.
Qed.

(** X20.  ExtractToken fails with 'missing metadata' when the context has no
    incoming metadata and with 'missing token' when there is no
    authorization value. Otherwise it looks at the first value only and
    returns a token exactly when that value is a scheme, one space and the
    token, where the scheme is the word bearer in any letter case and the
    token holds no space; every other header gives 'invalid token'. *)
Theorem ExtractToken_reads_the_bearer_token (ctx : auth.Context) :
  (auth.incoming ctx = None -> auth.ExtractToken ctx = Err auth.ErrMissingMetadata)
  /\ (forall md, auth.incoming ctx = Some md ->
        default [] (md !! "authorization") = [] ->
        auth.ExtractToken ctx = Err auth.ErrMissingToken)
  /\ (forall md header others token,
        auth.incoming ctx = Some md ->
        md !! "authorization" = Some (header :: others) ->
        (auth.ExtractToken ctx = Ok token
         <-> exists scheme,
               header = String.append scheme (String Ascii.Space token)
               /\ ToLower scheme = "bearer"
               /\ hasNo Ascii.Space token)
        /\ (forall e, auth.ExtractToken ctx = Err e -> e = auth.ErrInvalidToken))
  /\ (forall e, auth.ExtractToken ctx = Err e ->
        e = auth.ErrMissingMetadata \/ e = auth.ErrMissingToken
        \/ e = auth.ErrInvalidToken).
Proof.
  unfold auth.ExtractToken. cbv zeta. split; [|split; [|split]].
  - intros ->. reflexivity.
  - intros md -> ->. reflexivity.
  - intros md header others token -> ->. cbn [default from_option id].
    split; [|destruct (Split header Ascii.Space) as [|scheme [|tok [|x rest]]];
             try (intros e [= <-]; reflexivity);
             destruct (negb _); intros e [= <-]; reflexivity].
    split.
    + destruct (Split header Ascii.Space) as [|scheme [|tok [|x rest]]] eqn:Hs;
        try discriminate.
      destruct (String.eqb_spec (ToLower scheme) "bearer") as [Hb|];
        [|discriminate].
      cbn [negb]. intros [= <-].
      apply Split_cons_inv in Hs as (_ & [(Hnil & _)|(s' & -> & Hs')]);
        [discriminate|].
      apply Split_cons_inv in Hs' as (Hno & [(_ & ->)|(s'' & _ & Hs'')]).
      * exists scheme. auto.
      * exfalso. exact (Split_not_nil s'' _ Hs'').
    + intros (scheme & -> & Hb & Hno).
      rewrite Split_append, (Split_whole token _ Hno).
      * rewrite Hb. reflexivity.
      * apply ToLower_hasNo_space. rewrite Hb. unfold hasNo.
        cbn. intuition discriminate.
  - intros e. destruct (auth.incoming ctx) as [md|]; [|intros [= <-]; auto].
    destruct (default [] (md !! "authorization")) as [|header others];
      [intros [= <-]; auto|].
    destruct (Split header Ascii.Space) as [|scheme [|tok [|x rest]]];
      try (intros [= <-]; auto).
    destruct (negb _); [intros [= <-]; auto | discriminate].
Qed.

Lemma ExtractToken_reads_the_bearer_token_witness :
  auth.ExtractToken (bearerContext "BEARER abc.def.ghi") = Ok "abc.def.ghi"
  /\ auth.ExtractToken (bearerContext "Bearer  abc") = Err auth.ErrInvalidToken
  /\ auth.ExtractToken (auth.mkContext None ∅) = Err auth.ErrMissingMetadata.
Proof.
  destruct (ExtractToken_reads_the_bearer_token (bearerContext "BEARER abc.def.ghi"))
    as (_ & _ & Htoken & _).
  split; [|split].
  - apply (proj1 (Htoken _ "BEARER abc.def.ghi" [] "abc.def.ghi" eq_refl eq_refl)).
    exists "BEARER". split; [reflexivity|]. split; [reflexivity|].
    unfold hasNo. cbn. intuition discriminate.
  - reflexivity.
  - apply (ExtractToken_reads_the_bearer_token (auth.mkContext None ∅)).
    reflexivity.
Defined.

Lemma isPublicMethod_health (method : string) :
  auth.isPublicMethod method = true <-> method = "/grpc.health.v1.Health/Check".
Proof.
  unfold auth.isPublicMethod. cbv zeta.
  destruct (decide ("/grpc.health.v1.Health/Check" = method)) as [<-|Hne].
  - rewrite lookup_singleton_eq. split; reflexivity.
  - rewrite lookup_singleton_ne by exact Hne. cbn. split; [discriminate | congruence].
Qed.

(** X21.  AuthInterceptor calls the handler with the unchanged context for
    the health-check method. For every other method the handler runs only if
    a token was extracted and VerifyToken accepted it, and then it runs on a
    context in which IsBarber gives the flag of the claims and
    GetUserIDFromContext gives their subject (an error for an empty
    subject); a failed extraction or verification is answered
    Unauthenticated, with 'authentication error: ' or 'invalid token: ' and
    the error, without running the handler. *)
Theorem AuthInterceptor_guards_the_handler
    (VerifyToken : string -> result auth.Claims) {Req Resp : Type}
    (ctx : auth.Context) (req : Req) (FullMethod : string)
    (handler : auth.Context -> Req -> Resp) :
  let outcome := auth.AuthInterceptor VerifyToken ctx req FullMethod handler in
  (FullMethod = "/grpc.health.v1.Health/Check" ->
     outcome = auth.Handled (handler ctx req))
  /\ (FullMethod <> "/grpc.health.v1.Health/Check" ->
      (forall e, auth.ExtractToken ctx = Err e ->
         outcome = auth.Unauthenticated "authentication error: " e)
      /\ (forall token e, auth.ExtractToken ctx = Ok token ->
            VerifyToken token = Err e ->
            outcome = auth.Unauthenticated "invalid token: " e)
      /\ (forall token claims, auth.ExtractToken ctx = Ok token ->
            VerifyToken token = Ok claims ->
            let newCtx :=
              auth.WithValue ctx "user_claims" (auth.ClaimsPointer (Some claims)) in
            outcome = auth.Handled (handler newCtx req)
            /\ auth.incoming newCtx = auth.incoming ctx
            /\ auth.IsBarber newCtx = auth.IsBarberFlag claims
            /\ auth.GetUserIDFromContext newCtx
               = (if String.eqb (auth.Subject claims) ""
                  then Err (errors_New "no user ID in token")
                  else Ok (auth.Subject claims)))
      /\ (forall r, outcome = auth.Handled r ->
            exists token claims,
              auth.ExtractToken ctx = Ok token
              /\ VerifyToken token = Ok claims
              /\ r = handler (auth.WithValue ctx "user_claims"
                                (auth.ClaimsPointer (Some claims))) req)).
Proof.
  intros outcome. unfold outcome, auth.AuthInterceptor.
  pose proof (isPublicMethod_health FullMethod) as Hpub.
  split.
  - intros Hm. rewrite (proj2 Hpub Hm). reflexivity.
  - intros Hm.
    destruct (auth.isPublicMethod FullMethod);
      [exfalso; apply Hm, Hpub; reflexivity|].
    split; [|split; [|split]].
    + intros e ->. reflexivity.
    + intros token e -> ->. reflexivity.
    + intros token claims -> ->. cbv zeta.
      split; [reflexivity|]. split; [reflexivity|].
      unfold auth.IsBarber, auth.GetUserIDFromContext, auth.WithValue.
      cbn [auth.values]. rewrite lookup_insert_eq. split; reflexivity.
    + intros r. destruct (auth.ExtractToken ctx) as [token|e]; [|discriminate].
      destruct (VerifyToken token) as [claims|e] eqn:Hv; [|discriminate].
      intros [= <-]. exists token, claims. auto.
Qed.

Lemma AuthInterceptor_guards_the_handler_witness :
  auth.AuthInterceptor sampleVerify (bearerContext "Bearer good") tt
    "/booking.BookingService/GetBarberBookings"
    (fun ctx _ => (auth.IsBarber ctx, auth.GetUserIDFromContext ctx))
  = auth.Handled (true, Ok "barber7")
  /\ auth.AuthInterceptor sampleVerify (bearerContext "Bearer forged") tt
       "/booking.BookingService/GetBarberBookings"
       (fun ctx _ => (auth.IsBarber ctx, auth.GetUserIDFromContext ctx))
     = auth.Unauthenticated "invalid token: " auth.ErrInvalidToken.
Proof.
  split.
  - destruct (AuthInterceptor_guards_the_handler sampleVerify
                (bearerContext "Bearer good") tt
                "/booking.BookingService/GetBarberBookings"
                (fun ctx _ => (auth.IsBarber ctx, auth.GetUserIDFromContext ctx)))
      as (_ & Hguard).
    destruct (Hguard ltac:(discriminate)) as (_ & _ & Hok & _).
    destruct (Hok "good" (auth.mkClaims true "barber7") eq_refl eq_refl)
      as (Hout & _ & Hb & Hu).
    rewrite Hout, Hb, Hu. reflexivity.
  - destruct (AuthInterceptor_guards_the_handler sampleVerify
                (bearerContext "Bearer forged") tt
                "/booking.BookingService/GetBarberBookings"
                (fun ctx _ => (auth.IsBarber ctx, auth.GetUserIDFromContext ctx)))
      as (_ & Hguard).
    destruct (Hguard ltac:(discriminate)) as (_ & Hbad & _).
    exact (Hbad "forged" auth.ErrInvalidToken eq_refl eq_refl).
Defined.


